(** * AI Tutor: mastery scoring, peer similarity and recommendation fusion

    A shallow embedding of the recommendation pipeline of the AI Tutor
    (data_preparation.py, performance_analysis.py, similarity_engine.py,
    recommendation_engine.py) and the properties its specification states.

    Modelling conventions.
    - Python floats are exact rationals [Q]; comparisons are decided by
      [Qle_bool].  There is no NaN: a missing pivot cell is [None] until
      [fillna] replaces it.
    - pandas tables are lists of records, in row order.
    - A Python [dict] is an association list in insertion order; assigning
      to a key that is present replaces the value in place.
    - [list.sort] and the multi-key [sort_values] are stable; they are one
      stable insertion sort here.  The single-key [sort_values] of pandas
      does not fix the order of ties; the model uses the stable order and
      the theorems on it state sortedness and permutation only.
    - The methods of [SimilarityEngine] mutate the engine and raise; they
      live in a state-and-exception monad [M].
    - [sklearn]'s [cosine_similarity] is an interface: only the shape of
      its result is assumed.
    - f-strings are kept as the values they format. *)

From Stdlib Require Import String Ascii Bool Arith ZArith QArith Qminmax Qround List.
From Stdlib Require Import Lia Lqa Permutation Sorted.
Import ListNotations.

Local Open Scope Q_scope.
Local Open Scope list_scope.

(* ================================================================== *)
(** * Python and pandas primitives *)
(* ================================================================== *)

Module Py.

(** [x < y] on floats. *)
Definition Qltb (x y : Q) : bool := negb (Qle_bool y x).

(** [max(a, b)]: the first maximal argument. *)
Definition max (a b : Q) : Q := if Qltb a b then b else a.

(** [min(a, b)]: the first minimal argument. *)
Definition min (a b : Q) : Q := if Qltb b a then b else a.

(** [l[:k]] for an integer [k]; a negative [k] counts from the end. *)
Definition slice_to {A} (k : Z) (l : list A) : list A :=
  if (0 <=? k)%Z then firstn (Z.to_nat k) l
  else firstn (length l - Z.to_nat (- k)) l.

(** [enumerate(l)]. *)
Definition enumerate {A} (l : list A) : list (nat * A) :=
  combine (seq 0 (length l)) l.

(** Exceptions that the modelled code can raise. *)
Inductive exn : Type :=
| ValueError (msg : string)
| AttributeError
| IndexError
| KeyError
| TypeError.

Inductive result (A : Type) : Type :=
| Ok (a : A)
| Raise (e : exn).
Arguments Ok {A} a.
Arguments Raise {A} e.

(** ** A stable sort *)
Section StableSort.
Context {A : Type}.
(** [before a b]: [a] sorts strictly before [b]. *)
Variable before : A -> A -> bool.

Fixpoint insert_stable (x : A) (l : list A) : list A :=
  match l with
  | [] => [x]
  | y :: l' => if before y x then y :: insert_stable x l' else x :: l
  end.

Definition stable_sort (l : list A) : list A :=
  fold_right insert_stable [] l.

(** What a stable sort yields on an input ordered by [R]: [a] is placed
    before [b] when it sorts before [b], or when neither sorts before the
    other and [a] came first. *)
Definition stable_le (R : A -> A -> Prop) (a b : A) : Prop :=
  before a b = true \/ (before b a = false /\ R a b).
End StableSort.

(** ** Insertion-ordered dictionaries *)
Definition dict (K V : Type) : Type := list (K * V).

Section Dict.
Context {K V : Type}.
Variable eqb : K -> K -> bool.

(** [d[k] = v]. *)
Fixpoint dict_set (d : dict K V) (k : K) (v : V) : dict K V :=
  match d with
  | [] => [(k, v)]
  | (k', v') :: d' =>
      if eqb k' k then (k', v) :: d' else (k', v') :: dict_set d' k v
  end.

(** [d.get(k)]. *)
Definition dict_get (d : dict K V) (k : K) : option V :=
  match find (fun kv => eqb (fst kv) k) d with
  | Some kv => Some (snd kv)
  | None => None
  end.

Definition dict_items (d : dict K V) : list (K * V) := d.
Definition dict_keys (d : dict K V) : list K := map fst d.
Definition dict_values (d : dict K V) : list V := map snd d.

(** [{key(r): r for r in l}]. *)
Definition dict_comprehension (key : V -> K) (l : list V) : dict K V :=
  fold_left (fun d r => dict_set d (key r) r) l [].
End Dict.

(** ** Strings *)
Definition ascii_upper (c : ascii) : ascii :=
  let n := nat_of_ascii c in
  if ((97 <=? n) && (n <=? 122))%nat then ascii_of_nat (n - 32) else c.

(** [s.upper()], on ASCII letters. *)
Fixpoint upper (s : string) : string :=
  match s with
  | EmptyString => EmptyString
  | String c s' => String (ascii_upper c) (upper s')
  end.

Definition is_space (c : ascii) : bool :=
  let n := nat_of_ascii c in
  (((9 <=? n) && (n <=? 13)) || ((28 <=? n) && (n <=? 32)))%nat.

(** [bool(s.strip())]: some character of [s] is not whitespace. *)
Fixpoint strip_nonempty (s : string) : bool :=
  match s with
  | EmptyString => false
  | String c s' => negb (is_space c) || strip_nonempty s'
  end.

(** [pat in s]. *)
Fixpoint contains (pat s : string) : bool :=
  prefix pat s ||
  match s with
  | EmptyString => false
  | String _ s' => contains pat s'
  end.

Definition mem_string (x : string) (l : list string) : bool :=
  existsb (String.eqb x) l.

(** Sorted distinct values of a column, as a pandas group index. *)
Definition sorted_unique (l : list string) : list string :=
  stable_sort String.ltb (nodup string_dec l).

End Py.

Import Py.

(* ================================================================== *)
(** * Data model *)
(* ================================================================== *)

Abbreviation student_id := string (only parsing).
Abbreviation concept_id := string (only parsing).
Abbreviation resource_id := string (only parsing).

Inductive mastery_level : Type :=
| Struggling | Beginner | Intermediate | Advanced.

(** One row of the per (student, concept) aggregation of [prepare_data]. *)
Record performance_row : Type := {
  pr_student_id : student_id;
  pr_concept_id : concept_id;
  pr_concept_name : option string;
  accuracy : Q;
  total_questions : Z;
  avg_time_taken : Q;
  avg_attempts : Q
}.

(** A row of [student_features] once the mastery score is attached. *)
Record student_feature : Type := {
  sf_row : performance_row;
  mastery_score : Q;
  is_weak_concept : bool
}.

(** A row of [student_features] once [mastery_level] is attached. *)
Record feature_row : Type := {
  fr_feature : student_feature;
  fr_mastery_level : mastery_level
}.

Definition fr_student_id (r : feature_row) : student_id :=
  pr_student_id (sf_row (fr_feature r)).
Definition fr_concept_id (r : feature_row) : concept_id :=
  pr_concept_id (sf_row (fr_feature r)).
Definition fr_concept_name (r : feature_row) : option string :=
  pr_concept_name (sf_row (fr_feature r)).
Definition fr_mastery_score (r : feature_row) : Q :=
  mastery_score (fr_feature r).

(** The columns that [get_weak_concepts] returns. *)
Record weak_concept : Type := {
  wc_concept_id : concept_id;
  wc_concept_name : option string;
  wc_mastery_score : Q;
  wc_mastery_level : mastery_level
}.

Record concept_metadata : Type := {
  cm_concept_id : concept_id;
  cm_concept_name : string;
  cm_level : Z;
  cm_prerequisite_id : option concept_id
}.

Record student_profile : Type := {
  sp_student_id : student_id;
  sp_learning_style : string
}.

Record resource : Type := {
  rs_resource_id : resource_id;
  rs_concept_id : concept_id;
  rs_concept_name : option string;
  rs_resource_name : string;
  rs_resource_type : string;
  rs_difficulty : string;
  rs_duration_minutes : Z;
  rs_rating : Q;
  rs_view_count : Z;
  rs_url : string
}.

(* ================================================================== *)
(** * data_preparation.py *)
(* ================================================================== *)

(** [calculate_mastery_score(row)]. *)
Definition calculate_mastery_score (row : performance_row) : Q :=
  let base_score := accuracy row * 100 in
  let time_penalty :=
    if Qltb 60 (avg_time_taken row)
    then Py.min 10 ((avg_time_taken row - 60) / 10)
    else 0 in
  let attempt_penalty :=
    if Qltb (3 # 2) (avg_attempts row)
    then Py.min 5 ((avg_attempts row - 1) * 2)
    else 0 in
  Py.max 0 (base_score - time_penalty - attempt_penalty).

(** Steps 5 and 6 of [prepare_data]: the score and the weak flag of each
    aggregated row. *)
Definition prepare_data (aggregated : list performance_row)
  : list student_feature :=
  map (fun row =>
         let score := calculate_mastery_score row in
         {| sf_row := row;
            mastery_score := score;
            is_weak_concept := Qltb score 70 |})
      aggregated.

(* ================================================================== *)
(** * performance_analysis.py *)
(* ================================================================== *)

(** The tier chosen by the loop body of [analyze_concept_mastery]. *)
Definition level_of_score (score : Q) : mastery_level :=
  if Qle_bool 85 score then Advanced
  else if Qle_bool 70 score then Intermediate
  else if Qle_bool 50 score then Beginner
  else Struggling.

(** [analyze_concept_mastery(student_features)]: an empty table is returned
    as it is. *)
Definition analyze_concept_mastery (student_features : list student_feature)
  : list feature_row :=
  map (fun row =>
         {| fr_feature := row;
            fr_mastery_level := level_of_score (mastery_score row) |})
      student_features.

Definition is_weak_level (l : mastery_level) : bool :=
  match l with
  | Struggling | Beginner => true
  | _ => false
  end.

Definition to_weak_concept (r : feature_row) : weak_concept :=
  {| wc_concept_id := fr_concept_id r;
     wc_concept_name := fr_concept_name r;
     wc_mastery_score := fr_mastery_score r;
     wc_mastery_level := fr_mastery_level r |}.

(** [sort_values("mastery_score")]. *)
Definition sort_by_mastery_score (rows : list feature_row) : list feature_row :=
  stable_sort (fun a b => Qltb (fr_mastery_score a) (fr_mastery_score b)) rows.

(** [get_weak_concepts(student_id, student_features)]; [None] is Python's
    [None]. *)
Definition get_weak_concepts (sid : student_id)
    (student_features : list feature_row) : option (list weak_concept) :=
  match student_features with
  | [] => None
  | _ =>
      let student_data :=
        filter (fun r => String.eqb (fr_student_id r) sid) student_features in
      match student_data with
      | [] => None
      | _ =>
          let weak_concepts :=
            filter (fun r => is_weak_level (fr_mastery_level r)) student_data in
          let weak_concepts := sort_by_mastery_score weak_concepts in
          Some (map to_weak_concept weak_concepts)
      end
  end.

(* ================================================================== *)
(** * similarity_engine.py *)
(* ================================================================== *)

Definition matrix : Type := list (list Q).

(** The one function of [sklearn.metrics.pairwise] that the engine calls. *)
Class Sklearn : Type := {
  cosine_similarity : matrix -> matrix
}.

(** A pandas frame: a row index, column labels and the cells by row. *)
Record frame (A : Type) : Type := {
  df_index : list student_id;
  df_columns : list concept_id;
  df_values : list (list A)
}.
Arguments df_index {A} f.
Arguments df_columns {A} f.
Arguments df_values {A} f.

(** [df.empty]: some axis has length 0. *)
Definition df_empty {A} (f : frame A) : bool :=
  match df_index f, df_columns f with
  | [], _ | _, [] => true
  | _, _ => false
  end.

(** [aggfunc="mean"] on the cells of one group; no row gives NaN. *)
Definition mean (l : list Q) : option Q :=
  match l with
  | [] => None
  | _ => Some (fold_right Qplus 0 l / inject_Z (Z.of_nat (length l)))
  end.

(** [pivot_table(index="student_id", columns="concept_id",
    values="mastery_score", aggfunc="mean")]. *)
Definition pivot_table (student_concept_df : list feature_row)
  : frame (option Q) :=
  let index := sorted_unique (map fr_student_id student_concept_df) in
  let columns := sorted_unique (map fr_concept_id student_concept_df) in
  let cell s c :=
    mean (map fr_mastery_score
            (filter (fun r => String.eqb (fr_student_id r) s
                              && String.eqb (fr_concept_id r) c)
               student_concept_df)) in
  {| df_index := index;
     df_columns := columns;
     df_values := map (fun s => map (cell s) columns) index |}.

(** [df[c] = x] for a label [c] that is not a column yet. *)
Definition add_column {A} (f : frame A) (c : concept_id) (x : A) : frame A :=
  {| df_index := df_index f;
     df_columns := df_columns f ++ [c];
     df_values := map (fun row => row ++ [x]) (df_values f) |}.

(** [df.fillna(x)]. *)
Definition fillna (x : Q) (f : frame (option Q)) : frame Q :=
  {| df_index := df_index f;
     df_columns := df_columns f;
     df_values :=
       map (map (fun cell => match cell with Some y => y | None => x end))
         (df_values f) |}.

(** [index.get_loc(x)] on an index where [x] occurs. *)
Fixpoint get_loc (x : string) (index : list string) : nat :=
  match index with
  | [] => 0
  | y :: index' => if String.eqb y x then 0 else S (get_loc x index')
  end.

(** The state of a [SimilarityEngine] object. *)
Record SimilarityEngine : Type := {
  students : list student_profile;
  student_vectors : option (frame Q);
  similarity_matrix : option matrix
}.

(** [SimilarityEngine(students_df)]. *)
Definition init (students_df : list student_profile) : SimilarityEngine :=
  {| students := students_df;
     student_vectors := None;
     similarity_matrix := None |}.

(** Methods: the engine is threaded, an exception stops the method and keeps
    the engine as it was when raised. *)
Definition M (A : Type) : Type := SimilarityEngine -> result A * SimilarityEngine.

Definition ret {A} (a : A) : M A := fun self => (Ok a, self).

Definition raise {A} (e : exn) : M A := fun self => (Raise e, self).

Definition bind {A B} (m : M A) (k : A -> M B) : M B :=
  fun self =>
    match m self with
    | (Ok a, self') => k a self'
    | (Raise e, self') => (Raise e, self')
    end.

Notation "x <- m ;; k" := (bind m (fun x => k))
  (at level 61, m at next level, right associativity).
Notation "m ;;; k" := (bind m (fun _ => k))
  (at level 61, right associativity).

Definition get_self : M SimilarityEngine := fun self => (Ok self, self).

Definition set_student_vectors (v : frame Q) : M unit :=
  fun self =>
    (Ok tt, {| students := students self;
               student_vectors := Some v;
               similarity_matrix := similarity_matrix self |}).

Definition set_similarity_matrix (m : matrix) : M unit :=
  fun self =>
    (Ok tt, {| students := students self;
               student_vectors := student_vectors self;
               similarity_matrix := Some m |}).

(** Lift a pure step that can raise. *)
Definition lift {A} (r : result A) : M A := fun self => (r, self).

(** An attribute of [None] is an [AttributeError]. *)
Definition attr {A} (o : option A) : M A :=
  match o with
  | Some a => ret a
  | None => raise AttributeError
  end.

(** Subscripting [None] is a [TypeError]. *)
Definition subscriptable {A} (o : option A) : M A :=
  match o with
  | Some a => ret a
  | None => raise TypeError
  end.

(** The messages of the two [ValueError]s, after their leading mark. *)
Definition not_initialized : string :=
  "Student vectors not initialized. Call create_student_vectors() first.".

Definition not_found (sid : student_id) : string :=
  "Student ID " ++ sid ++ " not found".

(** The loop of [create_student_vectors] over [all_concepts]: a concept
    that is not a column yet becomes a column of zeros. *)
Definition ensure_concepts (all_concepts : list concept_id)
    (student_vectors : frame (option Q)) : frame (option Q) :=
  fold_left
    (fun sv concept_id =>
       if mem_string concept_id (df_columns sv) then sv
       else add_column sv concept_id (Some 0))
    all_concepts student_vectors.

(** [create_student_vectors(student_concept_df, all_concepts)]. *)
Definition create_student_vectors (student_concept_df : list feature_row)
    (all_concepts : list concept_id) : M (frame Q) :=
  let student_vectors := pivot_table student_concept_df in
  let student_vectors := ensure_concepts all_concepts student_vectors in
  let student_vectors := fillna 0 student_vectors in
  set_student_vectors student_vectors ;;;
  ret student_vectors.

Section Engine.
Context `{SK : Sklearn}.

(** [compute_similarity()]. *)
Definition compute_similarity : M matrix :=
  self <- get_self ;;
  match student_vectors self with
  | None => raise (ValueError not_initialized)
  | Some v =>
      if df_empty v then raise (ValueError not_initialized)
      else
        let m := cosine_similarity (df_values v) in
        set_similarity_matrix m ;;;
        ret m
  end.

(** The loop of [find_similar_students] over [enumerate(similarity_scores)]. *)
Fixpoint peer_scores (index : list student_id) (student_idx : nat)
    (scores : list (nat * Q)) (results : list (student_id * Q))
  : result (list (student_id * Q)) :=
  match scores with
  | [] => Ok results
  | (idx, score) :: scores' =>
      if Nat.eqb idx student_idx
      then peer_scores index student_idx scores' results
      else
        match nth_error index idx with
        | Some peer_id =>
            peer_scores index student_idx scores' (results ++ [(peer_id, score)])
        | None => Raise IndexError
        end
  end.

(** [results.sort(key=lambda x: x[1], reverse=True)]. *)
Definition sort_by_similarity (results : list (student_id * Q))
  : list (student_id * Q) :=
  stable_sort (fun a b => Qltb (snd b) (snd a)) results.

(** [find_similar_students(student_id, top_k, top_n)]; [top_k] is the
    integer [int(top_k)]. *)
Definition find_similar_students (sid : student_id) (top_k : Z)
    (top_n : option Z) : M (list (student_id * Q)) :=
  self <- get_self ;;
  match similarity_matrix self with
  | None => compute_similarity ;;; ret tt
  | Some _ => ret tt
  end ;;;
  self <- get_self ;;
  v <- attr (student_vectors self) ;;
  if negb (mem_string sid (df_index v))
  then raise (ValueError (not_found sid))
  else
    let top_k := match top_n with Some n => n | None => top_k end in
    let student_idx := get_loc sid (df_index v) in
    m <- subscriptable (similarity_matrix self) ;;
    similarity_scores <-
      lift (match nth_error m student_idx with
            | Some row => Ok row
            | None => Raise IndexError
            end) ;;
    results <-
      lift (peer_scores (df_index v) student_idx
              (enumerate similarity_scores) []) ;;
    let results := sort_by_similarity results in
    ret (slice_to top_k results).

Record strong_concept : Type := {
  sc_concept_id : concept_id;
  sc_mastery_score : Q
}.

Record peer_info : Type := {
  pi_similarity : Q;
  pi_strong_concepts : list strong_concept
}.

(** [student_vectors.loc[peer_id].items()]. *)
Definition loc_items (v : frame Q) (peer_id : student_id)
  : result (list (concept_id * Q)) :=
  if mem_string peer_id (df_index v)
  then
    match nth_error (df_values v) (get_loc peer_id (df_index v)) with
    | Some row => Ok (combine (df_columns v) row)
    | None => Raise IndexError
    end
  else Raise KeyError.

(** The loop of [analyze_peer_patterns] over the similar students. *)
Fixpoint peer_patterns_loop (v : frame Q) (mastery_threshold : Q)
    (similar_students : list (student_id * Q))
    (peer_patterns : dict student_id peer_info)
  : result (dict student_id peer_info) :=
  match similar_students with
  | [] => Ok peer_patterns
  | (peer_id, similarity) :: rest =>
      match loc_items v peer_id with
      | Raise e => Raise e
      | Ok peer_mastery =>
          let strong_concepts :=
            map (fun cs => {| sc_concept_id := fst cs;
                              sc_mastery_score := snd cs |})
              (filter (fun cs => Qle_bool mastery_threshold (snd cs))
                 peer_mastery) in
          peer_patterns_loop v mastery_threshold rest
            (dict_set String.eqb peer_patterns peer_id
               {| pi_similarity := similarity;
                  pi_strong_concepts := firstn 5 strong_concepts |})
      end
  end.

(** [analyze_peer_patterns(student_id, top_k, mastery_threshold)]. *)
Definition analyze_peer_patterns (sid : student_id) (top_k : Z)
    (mastery_threshold : Q) : M (dict student_id peer_info) :=
  similar_students <- find_similar_students sid top_k None ;;
  match similar_students with
  | [] => ret []
  | _ =>
      self <- get_self ;;
      v <- attr (student_vectors self) ;;
      lift (peer_patterns_loop v mastery_threshold similar_students [])
  end.

End Engine.

(** Default arguments of the engine's methods. *)
Definition default_top_k : Z := 5.
Definition default_mastery_threshold : Q := 70.

(* ================================================================== *)
(** * recommendation_engine.py *)
(* ================================================================== *)

(** The two f-strings that fill the [reason] of a recommendation. *)
Inductive reason : Type :=
| LowMastery (concept_name : option string) (score : Q)
| UsedBySimilarStudent (peer_id : student_id) (similarity : Q).

Record recommendation : Type := {
  rc_concept_id : concept_id;
  rc_concept_name : option string;
  rc_resource_id : resource_id;
  rc_resource_name : string;
  rc_resource_type : string;
  rc_difficulty : string;
  rc_duration_minutes : Z;
  rc_rating : Q;
  rc_url : string;
  rc_reason : reason
}.

Record path_step : Type := {
  ps_type : string;
  ps_concept_id : concept_id;
  ps_concept_name : option string;
  ps_current_mastery : Q;
  ps_target_mastery : Z
}.

Record schedule_entry : Type := {
  se_concept : option string;
  se_activity : string;
  se_duration : Z;
  se_resource : string
}.

Record learning_plan : Type := {
  lp_student_id : student_id;
  lp_learning_style : string;
  lp_weak_concepts_count : nat;
  lp_learning_path : list path_step;
  lp_recommendations : list recommendation;
  lp_study_schedule : dict string (list schedule_entry)
}.

(** The tables held by a [RecommendationEngine]; its similarity engine is
    the state of [M]. *)
Record RecommendationEngine : Type := {
  resources : list resource;
  concepts : list concept_metadata;
  student_features : list feature_row;
  student_profiles : list student_profile
}.

(** [series.astype(str)]: a missing value prints as nan. *)
Definition astype_str (o : option string) : string :=
  match o with
  | Some s => s
  | None => "nan"
  end.

(** [sort_values(["rating", "view_count"], ascending=[False, False])]. *)
Definition sort_by_rating_views (l : list resource) : list resource :=
  stable_sort
    (fun a b =>
       Qltb (rs_rating b) (rs_rating a)
       || (Qeq_bool (rs_rating a) (rs_rating b)
           && (rs_view_count b <? rs_view_count a)%Z))
    l.

(** [sort_values("rating", ascending=False)]. *)
Definition sort_by_rating (l : list resource) : list resource :=
  stable_sort (fun a b => Qltb (rs_rating b) (rs_rating a)) l.

Definition content_recommendation (weak_concept : weak_concept)
    (resource : resource) : recommendation :=
  {| rc_concept_id := wc_concept_id weak_concept;
     rc_concept_name := wc_concept_name weak_concept;
     rc_resource_id := rs_resource_id resource;
     rc_resource_name := rs_resource_name resource;
     rc_resource_type := rs_resource_type resource;
     rc_difficulty := rs_difficulty resource;
     rc_duration_minutes := rs_duration_minutes resource;
     rc_rating := rs_rating resource;
     rc_url := rs_url resource;
     rc_reason := LowMastery (wc_concept_name weak_concept)
                    (wc_mastery_score weak_concept) |}.

(** One pass of the loop of [get_content_based_recommendations]: the
    recommendations appended for one weak concept. *)
Definition content_step (self : RecommendationEngine) (top_n : Z)
    (weak_concept : weak_concept) : list recommendation :=
  let concept_id := wc_concept_id weak_concept in
  let concept_name := wc_concept_name weak_concept in
  let mastery_level := wc_mastery_level weak_concept in
  let concept_resources :=
    filter (fun r => String.eqb (rs_concept_id r) concept_id) (resources self) in
  let concept_resources :=
    match concept_resources, concept_name with
    | [], Some name =>
        if strip_nonempty name
        then filter (fun r => contains (upper name)
                                (upper (astype_str (rs_concept_name r))))
               (resources self)
        else concept_resources
    | _, _ => concept_resources
    end in
  match concept_resources with
  | [] => []
  | _ =>
      let suitable :=
        match mastery_level with
        | Struggling =>
            filter (fun r => String.eqb (rs_difficulty r) "Beginner")
              concept_resources
        | Beginner =>
            filter (fun r => mem_string (rs_difficulty r)
                               ["Beginner"; "Intermediate"]%string)
              concept_resources
        | _ => concept_resources
        end in
      let suitable := slice_to top_n (sort_by_rating_views suitable) in
      map (content_recommendation weak_concept) suitable
  end.

(** [get_content_based_recommendations(student_id, weak_concepts, top_n)]. *)
Definition get_content_based_recommendations (self : RecommendationEngine)
    (sid : student_id) (weak_concepts : list weak_concept) (top_n : Z)
  : list recommendation :=
  let recommendations :=
    fold_left (fun recs wc => recs ++ content_step self top_n wc)
      weak_concepts [] in
  firstn 10 recommendations.

Definition behavior_recommendation (peer_id : student_id) (similarity : Q)
    (concept_id : concept_id) (best : resource) : recommendation :=
  {| rc_concept_id := concept_id;
     rc_concept_name := Some concept_id;
     rc_resource_id := rs_resource_id best;
     rc_resource_name := rs_resource_name best;
     rc_resource_type := rs_resource_type best;
     rc_difficulty := rs_difficulty best;
     rc_duration_minutes := rs_duration_minutes best;
     rc_rating := rs_rating best;
     rc_url := rs_url best;
     rc_reason := UsedBySimilarStudent peer_id similarity |}.

(** The test [not mastery.empty and mastery["mastery_score"].iloc[0] >= 80]
    on the records of the student for one concept. *)
Definition already_mastered (self : RecommendationEngine) (sid : student_id)
    (concept_id : concept_id) : bool :=
  let mastery :=
    filter (fun r => String.eqb (fr_student_id r) sid
                     && String.eqb (fr_concept_id r) concept_id)
      (student_features self) in
  match mastery with
  | [] => false
  | r :: _ => Qle_bool 80 (fr_mastery_score r)
  end.

(** One pass of the inner loop of [get_behavior_based_recommendations]. *)
Definition behavior_step (self : RecommendationEngine) (sid : student_id)
    (peer_id : student_id) (similarity : Q) (strong_concept : strong_concept)
  : list recommendation :=
  let concept_id := sc_concept_id strong_concept in
  if already_mastered self sid concept_id then []
  else
    let peer_resources :=
      sort_by_rating
        (filter (fun r => String.eqb (rs_concept_id r) concept_id)
           (resources self)) in
    match peer_resources with
    | [] => []
    | best :: _ => [behavior_recommendation peer_id similarity concept_id best]
    end.

(** [get_behavior_based_recommendations(student_id, similar_students,
    peer_patterns)]. *)
Definition get_behavior_based_recommendations (self : RecommendationEngine)
    (sid : student_id) (similar_students : list (student_id * Q))
    (peer_patterns : dict student_id peer_info) : list recommendation :=
  fold_left
    (fun recs item =>
       let peer_id := fst item in
       let similarity := pi_similarity (snd item) in
       fold_left
         (fun recs strong_concept =>
            recs ++ behavior_step self sid peer_id similarity strong_concept)
         (pi_strong_concepts (snd item)) recs)
    (dict_items peer_patterns) [].

Record enriched_concept : Type := {
  ec_row : weak_concept;
  ec_level : Z;
  ec_prerequisite_id : option concept_id
}.

(** The key [(x["level"], x["mastery_score"])], compared as a tuple. *)
Definition level_score_ltb (a b : enriched_concept) : bool :=
  (ec_level a <? ec_level b)%Z
  || ((ec_level a =? ec_level b)%Z
      && Qltb (wc_mastery_score (ec_row a)) (wc_mastery_score (ec_row b))).

Definition main_step (concept : enriched_concept) : path_step :=
  {| ps_type := "main";
     ps_concept_id := wc_concept_id (ec_row concept);
     ps_concept_name := wc_concept_name (ec_row concept);
     ps_current_mastery := wc_mastery_score (ec_row concept);
     ps_target_mastery := 80 |}.

(** [create_learning_path(student_id, weak_concepts)]; the set [visited] is
    a list of its members. *)
Definition create_learning_path (self : RecommendationEngine)
    (sid : student_id) (weak_concepts : list weak_concept) : list path_step :=
  let enriched :=
    fold_left
      (fun enriched row =>
         let info :=
           filter (fun c => String.eqb (cm_concept_id c) (wc_concept_id row))
             (concepts self) in
         match info with
         | [] => enriched
         | c :: _ =>
             enriched ++ [{| ec_row := row;
                             ec_level := cm_level c;
                             ec_prerequisite_id := cm_prerequisite_id c |}]
         end)
      weak_concepts [] in
  let enriched := stable_sort level_score_ltb enriched in
  let '(path, visited) :=
    fold_left
      (fun (acc : list path_step * list concept_id) concept =>
         let '(path, visited) := acc in
         let cid := wc_concept_id (ec_row concept) in
         if mem_string cid visited then (path, visited)
         else (path ++ [main_step concept], cid :: visited))
      enriched ([], []) in
  path.

Definition days : list string :=
  ["Monday"; "Tuesday"; "Wednesday"; "Thursday"; "Friday"; "Saturday";
   "Sunday"]%string.

(** [schedule[day].append(entry)]. *)
Definition schedule_append (schedule : dict string (list schedule_entry))
    (day : string) (entry : schedule_entry)
  : dict string (list schedule_entry) :=
  map (fun kv => if String.eqb (fst kv) day
                 then (fst kv, snd kv ++ [entry]) else kv)
    schedule.

(** [create_study_schedule(recommendations, learning_style)]. *)
Definition create_study_schedule (recommendations : list recommendation)
    (learning_style : string) : dict string (list schedule_entry) :=
  let schedule := map (fun d => (d, @nil schedule_entry)) days in
  fold_left
    (fun schedule item =>
       let i := fst item in
       let rec := snd item in
       let day := nth (i mod 7) days ""%string in
       schedule_append schedule day
         {| se_concept := rc_concept_name rec;
            se_activity := rc_resource_type rec;
            se_duration := rc_duration_minutes rec;
            se_resource := rc_resource_name rec |})
    (enumerate (firstn 7 recommendations)) schedule.

(** The key [(r["concept_id"], r["resource_id"])] of the merge. *)
Definition rec_key (r : recommendation) : concept_id * resource_id :=
  (rc_concept_id r, rc_resource_id r).

Definition key_eqb (k1 k2 : concept_id * resource_id) : bool :=
  String.eqb (fst k1) (fst k2) && String.eqb (snd k1) (snd k2).

Section Plan.
Context `{SK : Sklearn}.

(** [generate_personalized_plan(student_id)]. *)
Definition generate_personalized_plan (self : RecommendationEngine)
    (sid : student_id) : M learning_plan :=
  let weak_concepts := get_weak_concepts sid (student_features self) in
  similar_students <- find_similar_students sid default_top_k None ;;
  peer_patterns <-
    analyze_peer_patterns sid default_top_k default_mastery_threshold ;;
  weak <- attr weak_concepts ;;
  let content_recs := get_content_based_recommendations self sid weak 3 in
  let behavior_recs :=
    get_behavior_based_recommendations self sid similar_students
      peer_patterns in
  let recommendations :=
    dict_comprehension key_eqb rec_key (content_recs ++ behavior_recs) in
  learning_style <-
    lift (match filter (fun s => String.eqb (sp_student_id s) sid)
                  (student_profiles self) with
          | s :: _ => Ok (sp_learning_style s)
          | [] => Raise IndexError
          end) ;;
  let schedule :=
    create_study_schedule (dict_values recommendations) learning_style in
  ret {| lp_student_id := sid;
         lp_learning_style := learning_style;
         lp_weak_concepts_count := length weak;
         lp_learning_path := create_learning_path self sid weak;
         lp_recommendations := firstn 5 (dict_values recommendations);
         lp_study_schedule := schedule |}.

End Plan.

(* ================================================================== *)
(** * data_preparation.py: from the tables to the features *)
(* ================================================================== *)

(** One row of student_performance.csv. *)
Record performance_record : Type := {
  pf_student_id : student_id;
  pf_question_id : string;
  correct : Q;
  time_taken : Q;
  attempts : Q
}.

(** One row of question_table.csv, on the columns that are merged. *)
Record question : Type := {
  q_question_id : string;
  q_concept_id : concept_id;
  q_difficulty : string
}.

(** One row of the aggregation of step 3; [time_std], which no function
    reads, is left out. *)
Record aggregated_row : Type := {
  ag_student_id : student_id;
  ag_concept_id : concept_id;
  ag_accuracy : Q;
  ag_total_questions : Z;
  ag_correct_count : Q;
  ag_avg_time_taken : Q;
  ag_avg_attempts : Q
}.

(** [left.merge(right, on=key, how="left")]: the rows of [left] in order,
    each once per matching row of [right], in the order of [right], and
    once with missing values when no row of [right] matches. *)
Definition merge_left {A B} (matches : A -> B -> bool) (left : list A)
    (right : list B) : list (A * option B) :=
  flat_map
    (fun a =>
       match filter (matches a) right with
       | [] => [(a, None)]
       | ms => map (fun b => (a, Some b)) ms
       end)
    left.

(** Step 1 of [prepare_data]. *)
Definition performance_with_concepts (performance : list performance_record)
    (questions : list question) : list (performance_record * option question) :=
  merge_left (fun p q => String.eqb (pf_question_id p) (q_question_id q))
    performance questions.

(** Step 2: a row without a question has no concept_id and matches no
    concept. *)
Definition performance_full (performance : list performance_record)
    (questions : list question) (concepts : list concept_metadata)
  : list (performance_record * option question * option concept_metadata) :=
  merge_left
    (fun row c =>
       match snd row with
       | Some q => String.eqb (q_concept_id q) (cm_concept_id c)
       | None => false
       end)
    (performance_with_concepts performance questions) concepts.

Definition group_key_dec (x y : student_id * concept_id) :
  {x = y} + {x <> y}.
Proof. decide equality; apply string_dec. Defined.

(** The order of the group keys (student_id, concept_id). *)
Definition group_key_ltb (a b : student_id * concept_id) : bool :=
  String.ltb (fst a) (fst b)
  || (String.eqb (fst a) (fst b) && String.ltb (snd a) (snd b)).

(** The key of a row for [groupby(["student_id", "concept_id"])]; a row
    with a missing concept_id belongs to no group. *)
Definition group_key
    (row : performance_record * option question * option concept_metadata)
  : option (student_id * concept_id) :=
  match snd (fst row) with
  | Some q => Some (pf_student_id (fst (fst row)), q_concept_id q)
  | None => None
  end.

(** The named aggregations of step 3 on the rows of one group. *)
Definition agg (key : student_id * concept_id)
    (group : list performance_record) : option aggregated_row :=
  match mean (map correct group), mean (map time_taken group),
        mean (map attempts group) with
  | Some accuracy, Some avg_time_taken, Some avg_attempts =>
      Some {| ag_student_id := fst key;
              ag_concept_id := snd key;
              ag_accuracy := accuracy;
              ag_total_questions := Z.of_nat (length group);
              ag_correct_count := fold_right Qplus 0 (map correct group);
              ag_avg_time_taken := avg_time_taken;
              ag_avg_attempts := avg_attempts |}
  | _, _, _ => None
  end.

(** Step 3: one row per group, the groups in the order of their keys. *)
Definition student_concept_performance
    (performance_full :
       list (performance_record * option question * option concept_metadata))
  : list aggregated_row :=
  let keyed :=
    flat_map
      (fun row =>
         match group_key row with
         | Some k => [(k, fst (fst row))]
         | None => []
         end)
      performance_full in
  let keys := stable_sort group_key_ltb (nodup group_key_dec (map fst keyed)) in
  flat_map
    (fun k =>
       match agg k (map snd (filter (fun kr => key_eqb (fst kr) k) keyed)) with
       | Some row => [row]
       | None => []
       end)
    keys.

(** A row of step 4 on the columns that the later steps read; the
    concept_name is attached later, by [main]. *)
Definition to_performance_row (row : aggregated_row * option student_profile)
  : performance_row :=
  {| pr_student_id := ag_student_id (fst row);
     pr_concept_id := ag_concept_id (fst row);
     pr_concept_name := None;
     accuracy := ag_accuracy (fst row);
     total_questions := ag_total_questions (fst row);
     avg_time_taken := ag_avg_time_taken (fst row);
     avg_attempts := ag_avg_attempts (fst row) |}.

(** The first component of [prepare_data()], on the tables that the module
    loads. *)
Definition prepare_data_tables (performance : list performance_record)
    (questions : list question) (concepts : list concept_metadata)
    (students : list student_profile) : list student_feature :=
  let performance_full := performance_full performance questions concepts in
  let student_concept_performance :=
    student_concept_performance performance_full in
  let student_features :=
    merge_left (fun a s => String.eqb (ag_student_id a) (sp_student_id s))
      student_concept_performance students in
  prepare_data (map to_performance_row student_features).

(** [main]: the merge that adds the concept names. *)
Definition add_concept_names (student_concept_features : list student_feature)
    (concepts : list concept_metadata) : list student_feature :=
  map (fun x =>
         let row := sf_row (fst x) in
         {| sf_row := {| pr_student_id := pr_student_id row;
                         pr_concept_id := pr_concept_id row;
                         pr_concept_name := option_map cm_concept_name (snd x);
                         accuracy := accuracy row;
                         total_questions := total_questions row;
                         avg_time_taken := avg_time_taken row;
                         avg_attempts := avg_attempts row |};
            mastery_score := mastery_score (fst x);
            is_weak_concept := is_weak_concept (fst x) |})
    (merge_left
       (fun f c => String.eqb (pr_concept_id (sf_row f)) (cm_concept_id c))
       student_concept_features concepts).

(** One row of [build_student_level_features]. *)
Record student_level_row : Type := {
  sl_student_id : student_id;
  sl_accuracy : Q;
  sl_avg_time_taken : Q;
  sl_avg_attempts : Q;
  sl_total_questions : Z;
  sl_mastery_score : Q;
  sl_weak_concept_ratio : Q
}.

(** A boolean column read as 0 and 1. *)
Definition bool_to_Q (b : bool) : Q := if b then 1 else 0.

(** The named aggregations of [build_student_level_features] on the rows of
    one student. *)
Definition agg_student (sid : student_id) (group : list feature_row)
  : option student_level_row :=
  match mean (map (fun r => accuracy (sf_row (fr_feature r))) group),
        mean (map (fun r => avg_time_taken (sf_row (fr_feature r))) group),
        mean (map (fun r => avg_attempts (sf_row (fr_feature r))) group),
        mean (map fr_mastery_score group),
        mean (map (fun r => bool_to_Q (is_weak_concept (fr_feature r))) group)
  with
  | Some accuracy, Some avg_time_taken, Some avg_attempts, Some mastery_score,
    Some weak_concept_ratio =>
      Some {| sl_student_id := sid;
              sl_accuracy := accuracy;
              sl_avg_time_taken := avg_time_taken;
              sl_avg_attempts := avg_attempts;
              sl_total_questions :=
                fold_right Z.add 0%Z
                  (map (fun r => total_questions (sf_row (fr_feature r))) group);
              sl_mastery_score := mastery_score;
              sl_weak_concept_ratio := weak_concept_ratio |}
  | _, _, _, _, _ => None
  end.

(** [build_student_level_features(student_concept_features)]. *)
Definition build_student_level_features
    (student_concept_features : option (list feature_row))
  : option (list student_level_row) :=
  match student_concept_features with
  | None | Some [] => None
  | Some rows =>
      Some (flat_map
              (fun sid =>
                 match agg_student sid
                         (filter (fun r => String.eqb (fr_student_id r) sid)
                            rows) with
                 | Some row => [row]
                 | None => []
                 end)
              (sorted_unique (map fr_student_id rows)))
  end.

(** [main], phases 1 and 2: the table [student_concept_features] that the
    engines are built on.  [classify_concept_mastery] adds two columns that
    no later phase reads. *)
Definition student_concept_features (performance : list performance_record)
    (questions : list question) (concepts : list concept_metadata)
    (students : list student_profile) : list feature_row :=
  let student_concept_features :=
    prepare_data_tables performance questions concepts students in
  let student_concept_features :=
    add_concept_names student_concept_features concepts in
  analyze_concept_mastery student_concept_features.

(* ================================================================== *)
(** * Vocabulary of the statements *)
(* ================================================================== *)

(** The engine once [similarity_matrix] is assigned. *)
Definition with_similarity_matrix (self : SimilarityEngine) (m : matrix)
  : SimilarityEngine :=
  {| students := students self;
     student_vectors := student_vectors self;
     similarity_matrix := Some m |}.

(** The engine once [student_vectors] is assigned. *)
Definition with_student_vectors (self : SimilarityEngine) (v : frame Q)
  : SimilarityEngine :=
  {| students := students self;
     student_vectors := Some v;
     similarity_matrix := similarity_matrix self |}.

(** Every row of the index but the one at [student_idx], with its score, in
    row order. *)
Definition peers_of (index : list student_id) (student_idx : nat)
    (scores : list (nat * Q)) : list (student_id * Q) :=
  map (fun p => (nth (fst p) index ""%string, snd p))
    (filter (fun p => negb (Nat.eqb (fst p) student_idx)) scores).

(** Ranking of two results: a greater similarity first, and at equal
    similarity the earlier row of the index first. *)
Definition ranks_before (index : list student_id) (a b : student_id * Q)
  : Prop :=
  snd b < snd a
  \/ (snd a == snd b /\ (get_loc (fst a) index < get_loc (fst b) index)%nat).

Section EngineVocabulary.
Context `{SK : Sklearn}.

(** What [cosine_similarity] promises on n rows: an n by n matrix. *)
Definition cosine_shape : Prop :=
  forall X : matrix,
    length (cosine_similarity X) = length X
    /\ Forall (fun row => length row = length X) (cosine_similarity X).

(** The vectors [v] are built, one row per student of a duplicate-free
    index, and the cached matrix, if any, was computed from them. *)
Definition coherent (self : SimilarityEngine) (v : frame Q) : Prop :=
  student_vectors self = Some v
  /\ NoDup (df_index v)
  /\ length (df_values v) = length (df_index v)
  /\ df_empty v = false
  /\ (similarity_matrix self = None
      \/ similarity_matrix self = Some (cosine_similarity (df_values v))).

(** The engines that the methods produce from a new engine. *)
Inductive reachable : SimilarityEngine -> Prop :=
| reach_init (students_df : list student_profile) :
    reachable (init students_df)
| reach_create (self : SimilarityEngine) df all_concepts :
    reachable self ->
    reachable (snd (create_student_vectors df all_concepts self))
| reach_compute (self : SimilarityEngine) :
    reachable self -> reachable (snd (compute_similarity self))
| reach_find (self : SimilarityEngine) sid top_k top_n :
    reachable self ->
    reachable (snd (find_similar_students sid top_k top_n self))
| reach_patterns (self : SimilarityEngine) sid top_k threshold :
    reachable self ->
    reachable (snd (analyze_peer_patterns sid top_k threshold self)).

End EngineVocabulary.

(** ** The learning path and the merge, in the words of the specification *)

(** Keep the first element of each key, in order. *)
Fixpoint dedup_first {A K} (eqb : K -> K -> bool) (key : A -> K)
    (l : list A) : list A :=
  match l with
  | [] => []
  | x :: l' =>
      x :: filter (fun y => negb (eqb (key y) (key x)))
             (dedup_first eqb key l')
  end.


Definition option_list {A} (o : option A) : list A :=
  match o with
  | Some a => [a]
  | None => []
  end.



(** The last recommendation of a list that has the key [k]. *)
Definition last_with_key (k : concept_id * resource_id)
    (l : list recommendation) : option recommendation :=
  find (fun r => key_eqb (rec_key r) k) (rev l).


(** The tiers, from the lowest to the highest. *)
Definition level_rank (l : mastery_level) : nat :=
  match l with
  | Struggling => 0
  | Beginner => 1
  | Intermediate => 2
  | Advanced => 3
  end.

(** The strong concepts that the peer-pattern step records for a peer. *)
Definition strong_concepts_of (v : frame Q) (mastery_threshold : Q)
    (peer_id : student_id) (info : peer_info) : Prop :=
  exists items,
    loc_items v peer_id = Ok items
    /\ pi_strong_concepts info
       = firstn 5
           (map (fun cs => {| sc_concept_id := fst cs;
                              sc_mastery_score := snd cs |})
              (filter (fun cs => Qle_bool mastery_threshold (snd cs)) items)).

(** ** Reading the vectors *)

(** [df.loc[s, c]] when both labels exist. *)
Definition loc {A} (f : frame A) (s : student_id) (c : concept_id)
  : option A :=
  if mem_string s (df_index f) && mem_string c (df_columns f)
  then
    match nth_error (df_values f) (get_loc s (df_index f)) with
    | Some row => nth_error row (get_loc c (df_columns f))
    | None => None
    end
  else None.

(** The mastery scores of the records of student [s] on concept [c]. *)
Definition scores_of (student_concept_df : list feature_row)
    (s : student_id) (c : concept_id) : list Q :=
  map fr_mastery_score
    (filter (fun r => String.eqb (fr_student_id r) s
                      && String.eqb (fr_concept_id r) c)
       student_concept_df).

(** ** Reading the plan *)

(** The entry that [create_study_schedule] files for a recommendation. *)
Definition schedule_entry_of (rec : recommendation) : schedule_entry :=
  {| se_concept := rc_concept_name rec;
     se_activity := rc_resource_type rec;
     se_duration := rc_duration_minutes rec;
     se_resource := rc_resource_name rec |}.



(** The group key of an aggregated row. *)
Definition ag_key (a : aggregated_row) : student_id * concept_id :=
  (ag_student_id a, ag_concept_id a).

(** The student answered a question of the concept: the record [p] of the
    student is on a question that the question table gives to the concept. *)
Definition answered (questions : list question) (key : student_id * concept_id)
    (p : performance_record) : Prop :=
  pf_student_id p = fst key
  /\ exists q, In q questions
               /\ q_question_id q = pf_question_id p
               /\ q_concept_id q = snd key.

(* ================================================================== *)
(** * A sample cohort *)
(* ================================================================== *)

Module Sample.

Definition dot (u v : list Q) : Q :=
  fold_right Qplus 0 (map (fun p => fst p * snd p) (combine u v)).

(** The Euclidean norm where the sum of squares is the square of an
    integer, as it is on every row of the sample; a zero norm counts as 1,
    as in sklearn. *)
Definition norm (u : list Q) : Q :=
  let n := inject_Z (Z.sqrt (Qfloor (dot u u))) in
  if Qeq_bool n 0 then 1 else n.

(** Cosine similarity of the rows of [X], exact on rows with an integer
    norm. *)
Definition cosine (X : matrix) : matrix :=
  map (fun u => map (fun v => Qred (dot u v / (norm u * norm v))) X) X.

Definition sklearn : Sklearn := {| cosine_similarity := cosine |}.

Definition feature (sid cid name : string) (score : Q) : feature_row :=
  {| fr_feature :=
       {| sf_row := {| pr_student_id := sid;
                       pr_concept_id := cid;
                       pr_concept_name := Some name;
                       accuracy := score / 100;
                       total_questions := 10;
                       avg_time_taken := 40;
                       avg_attempts := 1 |};
          mastery_score := score;
          is_weak_concept := Qltb score 70 |};
     fr_mastery_level := level_of_score score |}.

(** Three students on two concepts; the rows (60, 80), (75, 100) and
    (28, 96) have the norms 100, 125 and 100. *)
Definition features : list feature_row :=
  [ feature "s1" "c1" "Fractions" 60; feature "s1" "c2" "Decimals" 80;
    feature "s2" "c1" "Fractions" 75; feature "s2" "c2" "Decimals" 100;
    feature "s3" "c1" "Fractions" 28; feature "s3" "c2" "Decimals" 96 ].

Definition concept_table : list concept_metadata :=
  [ {| cm_concept_id := "c1"; cm_concept_name := "Fractions";
       cm_level := 1; cm_prerequisite_id := None |};
    {| cm_concept_id := "c2"; cm_concept_name := "Decimals";
       cm_level := 2; cm_prerequisite_id := Some "c1"%string |} ].

Definition student_table : list student_profile :=
  [ {| sp_student_id := "s1"; sp_learning_style := "visual" |};
    {| sp_student_id := "s2"; sp_learning_style := "auditory" |};
    {| sp_student_id := "s3"; sp_learning_style := "kinesthetic" |} ].

Definition res (rid cid name difficulty : string) (rating : Q) (views : Z)
  : resource :=
  {| rs_resource_id := rid;
     rs_concept_id := cid;
     rs_concept_name := Some name;
     rs_resource_name := rid;
     rs_resource_type := "video";
     rs_difficulty := difficulty;
     rs_duration_minutes := 15;
     rs_rating := rating;
     rs_view_count := views;
     rs_url := "" |}.

Definition catalog : list resource :=
  [ res "r1" "c1" "Fractions" "Beginner" (45 # 10) 100;
    res "r2" "c1" "Fractions" "Intermediate" (48 # 10) 50;
    res "r3" "c1" "Fractions" "Advanced" 4 10;
    res "r4" "c2" "Decimals" "Beginner" (47 # 10) 70 ].

Definition recommender : RecommendationEngine :=
  {| resources := catalog;
     concepts := concept_table;
     student_features := features;
     student_profiles := student_table |}.

(** The engine of [main]: vectors built and similarity computed. *)
Definition engine : SimilarityEngine :=
  snd ((create_student_vectors features ["c1"; "c2"]%string ;;;
        compute_similarity (SK := sklearn)) (init student_table)).

(** The vectors of the sample. *)
Definition vectors : frame Q :=
  {| df_index := ["s1"; "s2"; "s3"]%string;
     df_columns := ["c1"; "c2"]%string;
     df_values := [[60; 80]; [75; 100]; [28; 96]] |}.

(** The aggregated row of the second scenario of the specification. *)
Definition slow_row : performance_row :=
  {| pr_student_id := "s1";
     pr_concept_id := "c1";
     pr_concept_name := Some "Fractions"%string;
     accuracy := 1 # 2;
     total_questions := 10;
     avg_time_taken := 90;
     avg_attempts := 2 |}.

(** The answers of s1 on two questions of c1 and on a question that the
    question table does not know. *)
Definition performance : list performance_record :=
  [ {| pf_student_id := "s1"; pf_question_id := "q1"; correct := 1;
       time_taken := 30; attempts := 1 |};
    {| pf_student_id := "s1"; pf_question_id := "q2"; correct := 0;
       time_taken := 90; attempts := 2 |};
    {| pf_student_id := "s1"; pf_question_id := "q9"; correct := 1;
       time_taken := 20; attempts := 1 |} ].

Definition questions : list question :=
  [ {| q_question_id := "q1"; q_concept_id := "c1";
       q_difficulty := "Beginner" |};
    {| q_question_id := "q2"; q_concept_id := "c1";
       q_difficulty := "Intermediate" |} ].

End Sample.

(* ================================================================== *)
(** * Facts on the primitives *)
(* ================================================================== *)

Lemma Qltb_lt (x y : Q) : Qltb x y = true <-> x < y.
Proof.
  unfold Qltb. rewrite negb_true_iff.
  split; intro Hxy.
  - apply Qnot_le_lt. intro Hle. apply Qle_bool_iff in Hle. congruence.
  - destruct (Qle_bool y x) eqn:E; [|reflexivity].
    apply Qle_bool_iff in E. exfalso. apply (Qlt_not_le _ _ Hxy E).
Qed.

Lemma Qltb_ge (x y : Q) : Qltb x y = false <-> y <= x.
Proof.
  unfold Qltb. rewrite negb_false_iff. apply Qle_bool_iff.
Qed.

Lemma Qle_bool_false (x y : Q) : Qle_bool x y = false <-> y < x.
Proof.
  rewrite <- Qltb_lt. unfold Qltb. now rewrite negb_true_iff.
Qed.

Lemma max_spec (a b : Q) : a <= Py.max a b /\ b <= Py.max a b.
Proof.
  unfold Py.max. destruct (Qltb a b) eqn:E.
  - apply Qltb_lt in E. lra.
  - apply Qltb_ge in E. lra.
Qed.

Lemma max_cases (a b : Q) : Py.max a b = a \/ Py.max a b = b.
Proof. unfold Py.max. destruct (Qltb a b); auto. Qed.

Lemma min_spec (a b : Q) : Py.min a b <= a /\ Py.min a b <= b.
Proof.
  unfold Py.min. destruct (Qltb b a) eqn:E.
  - apply Qltb_lt in E. lra.
  - apply Qltb_ge in E. lra.
Qed.

Lemma min_cases (a b : Q) : Py.min a b = a \/ Py.min a b = b.
Proof. unfold Py.min. destruct (Qltb b a); auto. Qed.

(** ** The stable sort *)
Section StableSortFacts.
Context {A : Type}.
Variable before : A -> A -> bool.

Lemma insert_stable_perm (x : A) (l : list A) :
  Permutation (insert_stable before x l) (x :: l).
Proof.
  induction l as [|y l IH]; simpl.
  - reflexivity.
  - destruct (before y x).
    + rewrite IH. apply perm_swap.
    + reflexivity.
Qed.

Lemma stable_sort_perm (l : list A) : Permutation (stable_sort before l) l.
Proof.
  induction l as [|x l IH]; simpl.
  - reflexivity.
  - rewrite insert_stable_perm. now constructor.
Qed.

Lemma stable_sort_length (l : list A) :
  length (stable_sort before l) = length l.
Proof. apply Permutation_length, stable_sort_perm. Qed.

Lemma stable_sort_in (l : list A) (x : A) :
  In x (stable_sort before l) <-> In x l.
Proof.
  split; apply Permutation_in;
    [apply stable_sort_perm | symmetry; apply stable_sort_perm].
Qed.

Hypothesis before_asym :
  forall a b, before a b = true -> before b a = false.
Hypothesis before_negtrans :
  forall a b c, before a c = true -> before a b = true \/ before b c = true.

(** The order [R] of the input is kept among the elements that [before]
    does not separate. *)
Variable R : A -> A -> Prop.

Local Abbreviation stable_le := (stable_le before R).

Lemma insert_stable_sorted (x : A) (l : list A) :
  Forall (R x) l ->
  StronglySorted stable_le l ->
  StronglySorted stable_le (insert_stable before x l).
Proof.
  induction l as [|y l IH]; intros HR Hs; simpl.
  - repeat constructor.
  - inversion HR as [|? ? HRy HRl]; subst.
    inversion Hs as [|? ? Hsl Hyl]; subst.
    destruct (before y x) eqn:Eyx.
    + constructor; [now apply IH|].
      rewrite Forall_forall in *. intros z Hz.
      apply (Permutation_in _ (insert_stable_perm x l)) in Hz.
      destruct Hz as [<-|Hz]; [now left | now apply Hyl].
    + constructor; [assumption|].
      constructor; [right; now split|].
      rewrite Forall_forall in *. intros z Hz.
      destruct (before x z) eqn:Exz; [now left|].
      right. split; [|now apply HRl].
      destruct (before z x) eqn:Ezx; [|reflexivity].
      exfalso.
      destruct (before_negtrans z y x Ezx) as [Hzy|Hyx]; [|congruence].
      destruct (Hyl z Hz) as [Hyz|[Hzy' _]]; [|congruence].
      apply before_asym in Hyz. congruence.
Qed.

Lemma stable_sort_sorted (l : list A) :
  StronglySorted R l -> StronglySorted stable_le (stable_sort before l).
Proof.
  induction l as [|x l IH]; intro Hs; simpl.
  - constructor.
  - inversion Hs as [|? ? Hsl Hxl]; subst.
    apply insert_stable_sorted; [|now apply IH].
    rewrite Forall_forall in Hxl |- *. intros z Hz.
    apply Hxl. now apply (proj1 (stable_sort_in l z)).
Qed.

End StableSortFacts.

Lemma StronglySorted_True {A} (l : list A) :
  StronglySorted (fun _ _ => True) l.
Proof. induction l; constructor; auto. now apply Forall_forall. Qed.

Lemma StronglySorted_impl {A} (P Q : A -> A -> Prop) (l : list A) :
  (forall a b, P a b -> Q a b) -> StronglySorted P l -> StronglySorted Q l.
Proof.
  intros HPQ. induction 1 as [|x l Hs IH Hx]; constructor; auto.
  eapply Forall_impl; [|exact Hx]. auto.
Qed.

Lemma StronglySorted_firstn {A} (P : A -> A -> Prop) (n : nat) (l : list A) :
  StronglySorted P l -> StronglySorted P (firstn n l).
Proof.
  intro Hs. revert n. induction Hs as [|x l Hs IH Hx]; intros [|n]; simpl;
    try constructor; auto.
  rewrite Forall_forall in *. intros z Hz. apply Hx.
  rewrite <- (firstn_skipn n l). apply in_or_app. now left.
Qed.

Lemma StronglySorted_map {A B} (f : A -> B) (P : B -> B -> Prop) (l : list A) :
  StronglySorted (fun a b => P (f a) (f b)) l -> StronglySorted P (map f l).
Proof.
  induction 1 as [|x l Hs IH Hx]; simpl; constructor; auto.
  rewrite Forall_forall in *. intros z Hz.
  apply in_map_iff in Hz. destruct Hz as (y & <- & Hy). auto.
Qed.



(* ================================================================== *)
(** * Feature preparation: the mastery score *)
(* ================================================================== *)

Lemma time_penalty_bounds (t : Q) :
  0 <= (if Qltb 60 t then Py.min 10 ((t - 60) / 10) else 0).
Proof.
  destruct (Qltb 60 t) eqn:E; [|lra].
  apply Qltb_lt in E.
  destruct (min_cases 10 ((t - 60) / 10)) as [-> | ->]; [lra|].
  apply Qle_shift_div_l; lra.
Qed.

Lemma attempt_penalty_bounds (a : Q) :
  0 <= (if Qltb (3 # 2) a then Py.min 5 ((a - 1) * 2) else 0).
Proof.
  destruct (Qltb (3 # 2) a) eqn:E; [|lra].
  apply Qltb_lt in E.
  destruct (min_cases 5 ((a - 1) * 2)) as [-> | ->]; lra.
Qed.

(** C1. For every row with accuracy in [0,1], avg_time_taken >= 0 and
    avg_attempts >= 0, the mastery score (accuracy*100 minus the time and
    attempt penalties, floored at 0) lies in the closed interval [0,100]. *)
Theorem calculate_mastery_score_bounds (row : performance_row) :
  0 <= accuracy row <= 1 ->
  0 <= avg_time_taken row ->
  0 <= avg_attempts row ->
  0 <= calculate_mastery_score row <= 100.
Proof.
  intros Hacc _ _. unfold calculate_mastery_score.
  pose proof (time_penalty_bounds (avg_time_taken row)) as Ht.
  pose proof (attempt_penalty_bounds (avg_attempts row)) as Ha.
  cbv zeta.
  set (tp := if Qltb 60 (avg_time_taken row) then _ else _) in *.
  set (ap := if Qltb (3 # 2) (avg_attempts row) then _ else _) in *.
  split.
  - apply max_spec.
  - destruct (max_cases 0 (accuracy row * 100 - tp - ap)) as [-> | ->]; lra.
Qed.

(** The bound holds on every feature row that [prepare_data] builds, and
    the weak flag is the test [mastery_score < 70]. *)
Lemma prepare_data_scores (aggregated : list performance_row)
    (f : student_feature) :
  Forall (fun row => 0 <= accuracy row <= 1) aggregated ->
  In f (prepare_data aggregated) ->
  0 <= mastery_score f <= 100
  /\ (is_weak_concept f = true <-> mastery_score f < 70).
Proof.
  intros Hacc Hf. unfold prepare_data in Hf. apply in_map_iff in Hf.
  destruct Hf as (row & <- & Hrow). simpl.
  rewrite Forall_forall in Hacc. specialize (Hacc row Hrow).
  split; [|apply Qltb_lt].
  pose proof (time_penalty_bounds (avg_time_taken row)) as Ht.
  pose proof (attempt_penalty_bounds (avg_attempts row)) as Ha.
  unfold calculate_mastery_score. cbv zeta.
  set (tp := if Qltb 60 (avg_time_taken row) then _ else _) in *.
  set (ap := if Qltb (3 # 2) (avg_attempts row) then _ else _) in *.
  split; [apply max_spec|].
  destruct (max_cases 0 (accuracy row * 100 - tp - ap)) as [-> | ->]; lra.
Qed.

(* ================================================================== *)
(** * Mastery classifier: levels and weak concepts *)
(* ================================================================== *)

Lemma level_of_score_cases (s : Q) :
  (level_of_score s = Advanced /\ 85 <= s)
  \/ (level_of_score s = Intermediate /\ 70 <= s < 85)
  \/ (level_of_score s = Beginner /\ 50 <= s < 70)
  \/ (level_of_score s = Struggling /\ s < 50).
Proof.
  unfold level_of_score.
  destruct (Qle_bool 85 s) eqn:E85;
    [apply Qle_bool_iff in E85; auto | apply Qle_bool_false in E85].
  destruct (Qle_bool 70 s) eqn:E70;
    [apply Qle_bool_iff in E70; auto | apply Qle_bool_false in E70].
  destruct (Qle_bool 50 s) eqn:E50;
    [apply Qle_bool_iff in E50; auto 6 | apply Qle_bool_false in E50; auto 6].
Qed.

Lemma level_of_score_tiers (s : Q) :
  (level_of_score s = Advanced <-> 85 <= s)
  /\ (level_of_score s = Intermediate <-> 70 <= s < 85)
  /\ (level_of_score s = Beginner <-> 50 <= s < 70)
  /\ (level_of_score s = Struggling <-> s < 50).
Proof.
  destruct (level_of_score_cases s) as [[-> H]|[[-> H]|[[-> H]|[-> H]]]];
    repeat split; intros; try discriminate; try lra.
Qed.

Lemma level_of_score_monotone (s1 s2 : Q) :
  s1 <= s2 -> (level_rank (level_of_score s1) <= level_rank (level_of_score s2))%nat.
Proof.
  intro Hle.
  destruct (level_of_score_cases s1) as [[-> H1]|[[-> H1]|[[-> H1]|[-> H1]]]];
  destruct (level_of_score_cases s2) as [[-> H2]|[[-> H2]|[[-> H2]|[-> H2]]]];
    simpl; try lia; exfalso; lra.
Qed.

(** C5. The level that [analyze_concept_mastery] assigns to a row is a
    function of its mastery score alone: Advanced for score >= 85,
    Intermediate for 70 <= score < 85, Beginner for 50 <= score < 70 and
    Struggling for score < 50; it never decreases when the score grows, and
    equal scores get equal levels. *)
Theorem mastery_level_step_function (student_features : list student_feature) :
  map fr_feature (analyze_concept_mastery student_features) = student_features
  /\ (forall r, In r (analyze_concept_mastery student_features) ->
        (fr_mastery_level r = Advanced <-> 85 <= fr_mastery_score r)
        /\ (fr_mastery_level r = Intermediate <->
              70 <= fr_mastery_score r < 85)
        /\ (fr_mastery_level r = Beginner <-> 50 <= fr_mastery_score r < 70)
        /\ (fr_mastery_level r = Struggling <-> fr_mastery_score r < 50))
  /\ (forall r1 r2,
        In r1 (analyze_concept_mastery student_features) ->
        In r2 (analyze_concept_mastery student_features) ->
        (fr_mastery_score r1 <= fr_mastery_score r2 ->
           (level_rank (fr_mastery_level r1)
            <= level_rank (fr_mastery_level r2))%nat)
        /\ (fr_mastery_score r1 == fr_mastery_score r2 ->
              fr_mastery_level r1 = fr_mastery_level r2)).
Proof.
  unfold analyze_concept_mastery. split; [|split].
  - rewrite map_map. simpl. apply map_id.
  - intros r Hr. apply in_map_iff in Hr. destruct Hr as (f & <- & _).
    apply level_of_score_tiers.
  - intros r1 r2 H1 H2.
    apply in_map_iff in H1. destruct H1 as (f1 & <- & _).
    apply in_map_iff in H2. destruct H2 as (f2 & <- & _).
    unfold fr_mastery_score. simpl. split; intro Hs.
    + now apply level_of_score_monotone.
    + assert (Hle1 : mastery_score f1 <= mastery_score f2) by lra.
      assert (Hle2 : mastery_score f2 <= mastery_score f1) by lra.
      apply level_of_score_monotone in Hle1, Hle2.
      destruct (level_of_score (mastery_score f1)),
        (level_of_score (mastery_score f2)); simpl in *; try reflexivity; lia.
Qed.



Lemma filter_nil_iff {A} (f : A -> bool) (l : list A) :
  filter f l = [] <-> forall x, In x l -> f x = false.
Proof.
  induction l as [|x l IH]; simpl.
  - split; [intros _ ? []|reflexivity].
  - destruct (f x) eqn:E; split.
    + discriminate.
    + intro Hall. specialize (Hall x (or_introl eq_refl)). congruence.
    + intros Hnil y [<-|Hy]; [assumption|]. now apply IH.
    + intro Hall. apply IH. auto.
Qed.


(* ================================================================== *)
(** * Similarity engine *)
(* ================================================================== *)

Lemma mem_string_In (x : string) (l : list string) :
  mem_string x l = true <-> In x l.
Proof.
  unfold mem_string. rewrite existsb_exists. split.
  - intros (y & Hy & E). apply String.eqb_eq in E. now subst.
  - intro Hx. exists x. split; [assumption|apply String.eqb_refl].
Qed.

Lemma get_loc_lt (x : string) (index : list string) :
  In x index -> (get_loc x index < length index)%nat.
Proof.
  induction index as [|y index IH]; simpl; [intros []|].
  intros Hin. destruct (String.eqb y x) eqn:E; [lia|].
  apply String.eqb_neq in E. destruct Hin as [->|Hin]; [congruence|].
  specialize (IH Hin). lia.
Qed.

Lemma get_loc_nth (index : list string) (i : nat) (d : string) :
  NoDup index -> (i < length index)%nat -> get_loc (nth i index d) index = i.
Proof.
  intros Hnd. revert i. induction Hnd as [|y index Hy Hnd IH]; intros i Hi;
    simpl in *; [lia|].
  destruct i as [|i].
  - now rewrite String.eqb_refl.
  - assert (Hlt : (i < length index)%nat) by lia.
    destruct (String.eqb y (nth i index d)) eqn:E.
    + apply String.eqb_eq in E. exfalso. apply Hy. rewrite E.
      now apply nth_In.
    + f_equal. now apply IH.
Qed.

Lemma nth_get_loc (x : string) (index : list string) (d : string) :
  In x index -> nth (get_loc x index) index d = x.
Proof.
  induction index as [|y index IH]; simpl; [intros []|].
  intro Hin. destruct (String.eqb y x) eqn:E.
  - now apply String.eqb_eq in E.
  - apply String.eqb_neq in E. destruct Hin as [->|Hin]; [congruence|].
    now apply IH.
Qed.

Lemma enumerate_fst {A} (l : list A) :
  map fst (enumerate l) = seq 0 (length l).
Proof.
  unfold enumerate. generalize 0%nat.
  induction l as [|x l IH]; intro n; simpl; [reflexivity|].
  now rewrite IH.
Qed.

Lemma enumerate_length {A} (l : list A) : length (enumerate l) = length l.
Proof.
  rewrite <- (length_map fst), enumerate_fst. apply length_seq.
Qed.

Lemma enumerate_bound {A} (l : list A) :
  Forall (fun p => (fst p < length l)%nat) (enumerate l).
Proof.
  apply Forall_forall. intros p Hp.
  assert (Hin : In (fst p) (map fst (enumerate l))) by now apply in_map.
  rewrite enumerate_fst in Hin. apply in_seq in Hin. lia.
Qed.

Lemma peer_scores_ok (index : list student_id) (student_idx : nat)
    (scores : list (nat * Q)) (results : list (student_id * Q)) :
  Forall (fun p => (fst p < length index)%nat) scores ->
  peer_scores index student_idx scores results
  = Ok (results ++ peers_of index student_idx scores).
Proof.
  unfold peers_of. revert results.
  induction scores as [|[idx score] scores IH]; intros results Hb; simpl.
  - now rewrite app_nil_r.
  - inversion Hb as [|? ? Hidx Hb']; subst. simpl in Hidx.
    destruct (Nat.eqb idx student_idx); simpl.
    + now apply IH.
    + rewrite (nth_error_nth' index ""%string Hidx).
      rewrite IH by assumption. now rewrite <- app_assoc.
Qed.

Lemma peers_of_fst (index : list student_id) (student_idx : nat)
    (scores : list (nat * Q)) :
  map fst (peers_of index student_idx scores)
  = map (fun i => nth i index ""%string)
      (filter (fun i => negb (Nat.eqb i student_idx)) (map fst scores)).
Proof.
  unfold peers_of. induction scores as [|[i sc] scores IH]; simpl;
    [reflexivity|].
  destruct (Nat.eqb i student_idx); simpl; now rewrite IH.
Qed.

Lemma filter_neq_seq_length (k start len : nat) :
  (start <= k < start + len)%nat ->
  length (filter (fun i => negb (Nat.eqb i k)) (seq start len)) = (len - 1)%nat.
Proof.
  revert start. induction len as [|len IH]; intros start Hk; [lia|].
  simpl. destruct (Nat.eqb start k) eqn:E; simpl.
  - apply Nat.eqb_eq in E. subst.
    rewrite forallb_filter_id; [rewrite length_seq; lia|].
    apply forallb_forall. intros i Hi. apply in_seq in Hi.
    apply negb_true_iff, Nat.eqb_neq. lia.
  - apply Nat.eqb_neq in E. rewrite IH by lia. lia.
Qed.

Lemma StronglySorted_lt_seq (start len : nat) :
  StronglySorted lt (seq start len).
Proof.
  revert start. induction len as [|len IH]; intro start; simpl; constructor.
  - apply IH.
  - apply Forall_forall. intros i Hi. apply in_seq in Hi. lia.
Qed.

Lemma StronglySorted_filter {A} (P : A -> A -> Prop) (f : A -> bool)
    (l : list A) :
  StronglySorted P l -> StronglySorted P (filter f l).
Proof.
  induction 1 as [|x l Hs IH Hx]; simpl; [constructor|].
  destruct (f x); [constructor|]; auto.
  rewrite Forall_forall in *. intros z Hz. apply Hx.
  now apply filter_In in Hz.
Qed.

Lemma StronglySorted_lt_NoDup {A B} (f : A -> B) (g : B -> nat) (l : list A) :
  StronglySorted (fun a b => (g (f a) < g (f b))%nat) l -> NoDup (map f l).
Proof.
  induction 1 as [|a l Hs IH Ha]; simpl; constructor; [|assumption].
  intro Hin. apply in_map_iff in Hin. destruct Hin as (b & E & Hb).
  rewrite Forall_forall in Ha. specialize (Ha b Hb). cbv beta in Ha.
  rewrite E in Ha. lia.
Qed.

Lemma StronglySorted_map_inv {A B} (f : A -> B) (P : B -> B -> Prop)
    (l : list A) :
  StronglySorted P (map f l) -> StronglySorted (fun a b => P (f a) (f b)) l.
Proof.
  induction l as [|a l IH]; intro Hs; [constructor|].
  simpl in Hs. inversion Hs as [|? ? Hs' Ha]; subst.
  constructor; [now apply IH|].
  rewrite Forall_forall in *. intros b Hb. apply Ha. now apply in_map.
Qed.

Lemma peer_scores_inv (index : list student_id) (student_idx : nat)
    (scores : list (nat * Q)) (acc results : list (student_id * Q)) :
  peer_scores index student_idx scores acc = Ok results ->
  results = acc ++ peers_of index student_idx scores
  /\ Forall (fun p => fst p = student_idx \/ (fst p < length index)%nat)
       scores.
Proof.
  unfold peers_of. revert acc.
  induction scores as [|[idx score] scores IH]; intros acc Hrun;
    simpl in Hrun |- *.
  - inversion Hrun. now rewrite app_nil_r.
  - destruct (Nat.eqb idx student_idx) eqn:E; simpl.
    + destruct (IH _ Hrun) as [-> Hb]. split; [reflexivity|].
      constructor; [left; now apply Nat.eqb_eq|assumption].
    + destruct (nth_error index idx) as [peer_id|] eqn:En; [|discriminate].
      destruct (IH _ Hrun) as [-> Hb]. split.
      * rewrite <- app_assoc. simpl.
        now rewrite (nth_error_nth _ _ ""%string En).
      * constructor; [|assumption]. right. simpl.
        apply nth_error_Some. congruence.
Qed.

Lemma enumerate_sorted {A} (l : list A) :
  StronglySorted lt (map fst (enumerate l)).
Proof. rewrite enumerate_fst. apply StronglySorted_lt_seq. Qed.

Lemma peers_of_enumerate_length (index : list student_id) (student_idx : nat)
    (row : list Q) :
  length row = length index ->
  (student_idx < length index)%nat ->
  length (peers_of index student_idx (enumerate row))
  = (length index - 1)%nat.
Proof.
  intros Hrow Hlt. rewrite <- (length_map fst).
  rewrite peers_of_fst, enumerate_fst, length_map, Hrow.
  apply filter_neq_seq_length. lia.
Qed.

Section PeersFacts.
Variable index : list student_id.
Variable student_idx : nat.
Variable scores : list (nat * Q).
Hypothesis index_nodup : NoDup index.
Hypothesis student_idx_lt : (student_idx < length index)%nat.
Hypothesis scores_sorted : StronglySorted lt (map fst scores).
Hypothesis scores_in_range :
  Forall (fun p => fst p = student_idx \/ (fst p < length index)%nat) scores.

Let peers := peers_of index student_idx scores.

Lemma peers_positions (p : student_id * Q) :
  In p peers ->
  exists i, (i < length index)%nat /\ i <> student_idx
            /\ fst p = nth i index ""%string.
Proof.
  unfold peers, peers_of. intro Hp. apply in_map_iff in Hp.
  destruct Hp as ([i sc] & <- & Hin). apply filter_In in Hin.
  destruct Hin as [Hin Hne]. simpl in *.
  apply negb_true_iff, Nat.eqb_neq in Hne.
  rewrite Forall_forall in scores_in_range.
  destruct (scores_in_range _ Hin) as [E|Hlt]; simpl in *; [contradiction|].
  exists i. auto.
Qed.

Lemma peers_in_index (p : student_id * Q) : In p peers -> In (fst p) index.
Proof.
  intro Hp. destruct (peers_positions p Hp) as (i & Hi & _ & ->).
  now apply nth_In.
Qed.

Lemma peers_exclude_student (p : student_id * Q) :
  In p peers -> fst p <> nth student_idx index ""%string.
Proof.
  intros Hp E. destruct (peers_positions p Hp) as (i & Hi & Hne & Hfst).
  rewrite Hfst in E.
  apply (proj1 (NoDup_nth index ""%string) index_nodup) in E; auto.
Qed.

Lemma peers_sorted_by_row :
  StronglySorted
    (fun a b => (get_loc (fst a) index < get_loc (fst b) index)%nat) peers.
Proof.
  apply (StronglySorted_map_inv fst
           (fun a b => (get_loc a index < get_loc b index)%nat)).
  unfold peers. rewrite peers_of_fst.
  apply StronglySorted_map.
  assert (Hb : Forall (fun i => (i < length index)%nat)
                 (filter (fun i => negb (Nat.eqb i student_idx))
                    (map fst scores))).
  { apply Forall_forall. intros i Hi. apply filter_In in Hi.
    destruct Hi as [Hi Hne]. apply negb_true_iff, Nat.eqb_neq in Hne.
    apply in_map_iff in Hi. destruct Hi as (p & <- & Hp).
    rewrite Forall_forall in scores_in_range.
    destruct (scores_in_range _ Hp); [contradiction|assumption]. }
  pose proof (StronglySorted_filter lt
                (fun i => negb (Nat.eqb i student_idx)) _
                scores_sorted) as Hlt.
  revert Hb Hlt.
  generalize (filter (fun i => negb (Nat.eqb i student_idx)) (map fst scores)).
  intros js Hb Hlt. induction Hlt as [|j js Hlt IH Hj]; constructor.
  - apply IH. now inversion Hb.
  - inversion Hb as [|? ? Hjb Hb']; subst.
    rewrite Forall_forall in *. intros i Hi.
    rewrite !get_loc_nth by auto. auto.
Qed.

Lemma peers_nodup : NoDup (map fst peers).
Proof.
  apply (StronglySorted_lt_NoDup fst (fun x => get_loc x index)).
  apply peers_sorted_by_row.
Qed.

End PeersFacts.

Lemma enumerate_in_range (index : list student_id) (student_idx : nat)
    (row : list Q) :
  length row = length index ->
  Forall (fun p => fst p = student_idx \/ (fst p < length index)%nat)
    (enumerate row).
Proof.
  intro Hrow. rewrite <- Hrow.
  eapply Forall_impl; [|apply enumerate_bound]. intros p Hp. now right.
Qed.

Lemma sorted_unique_perm (l : list string) :
  Permutation (sorted_unique l) (nodup string_dec l).
Proof. apply stable_sort_perm. Qed.

Lemma sorted_unique_NoDup (l : list string) : NoDup (sorted_unique l).
Proof.
  apply (Permutation_NoDup (Permutation_sym (sorted_unique_perm l))).
  apply NoDup_nodup.
Qed.

Lemma sorted_unique_In (l : list string) (x : string) :
  In x (sorted_unique l) <-> In x l.
Proof.
  unfold sorted_unique. rewrite stable_sort_in. apply nodup_In.
Qed.

Lemma sorted_unique_length (l : list string) :
  length (sorted_unique l) = length (nodup string_dec l).
Proof. apply stable_sort_length. Qed.

Lemma ensure_concepts_shape (all_concepts : list concept_id)
    (f : frame (option Q)) :
  df_index (ensure_concepts all_concepts f) = df_index f
  /\ length (df_values (ensure_concepts all_concepts f))
     = length (df_values f)
  /\ (df_columns f <> [] -> df_columns (ensure_concepts all_concepts f) <> []).
Proof.
  unfold ensure_concepts.
  revert f. induction all_concepts as [|c cs IH]; intro f; simpl.
  - auto.
  - destruct (mem_string c (df_columns f)); [apply IH|].
    destruct (IH (add_column f c (Some 0))) as (Hi & Hv & Hc).
    simpl in *. rewrite length_map in Hv.
    repeat split; auto.
    intros _. apply Hc. now destruct (df_columns f).
Qed.

Lemma create_student_vectors_eval (student_concept_df : list feature_row)
    (all_concepts : list concept_id) (self : SimilarityEngine) :
  exists v,
    create_student_vectors student_concept_df all_concepts self
    = (Ok v, with_student_vectors self v)
    /\ df_index v = sorted_unique (map fr_student_id student_concept_df)
    /\ length (df_values v) = length (df_index v)
    /\ (student_concept_df <> [] -> df_empty v = false).
Proof.
  unfold create_student_vectors.
  destruct (ensure_concepts_shape all_concepts
              (pivot_table student_concept_df)) as (Hi & Hv & Hc).
  cbv zeta.
  set (g := ensure_concepts all_concepts (pivot_table student_concept_df)) in *.
  exists (fillna 0 g). split; [reflexivity|].
  assert (Hs : forall l : list string, l <> [] -> sorted_unique l <> []).
  { intros [|y l] Hl E; [congruence|].
    assert (Hy : In y (sorted_unique (y :: l)))
      by (apply sorted_unique_In; now left).
    rewrite E in Hy. destruct Hy. }
  split; [exact Hi|]. split.
  - simpl. rewrite length_map, Hv, Hi. simpl. now rewrite length_map.
  - intro Hne. unfold df_empty. simpl.
    assert (Hne' : map fr_student_id student_concept_df <> []
                   /\ map fr_concept_id student_concept_df <> []).
    { destruct student_concept_df; [congruence|]. split; discriminate. }
    destruct Hne' as [Hn1 Hn2].
    destruct (df_index g) eqn:Ei.
    + exfalso. symmetry in Hi. simpl in Hi. revert Hi. now apply Hs.
    + destruct (df_columns g) eqn:Ec; [|reflexivity].
      exfalso. apply Hc; [|reflexivity]. simpl. now apply Hs.
Qed.

Section EngineFacts.
Context `{SK : Sklearn}.

Lemma compute_similarity_raises (self : SimilarityEngine) :
  student_vectors self = None
  \/ (exists v, student_vectors self = Some v /\ df_empty v = true) ->
  compute_similarity self = (Raise (ValueError not_initialized), self).
Proof.
  unfold compute_similarity, bind, get_self, raise.
  intros [-> | (v & -> & ->)]; reflexivity.
Qed.

Lemma compute_similarity_ok (self : SimilarityEngine) (v : frame Q) :
  student_vectors self = Some v ->
  df_empty v = false ->
  compute_similarity self
  = (Ok (cosine_similarity (df_values v)),
     with_similarity_matrix self (cosine_similarity (df_values v))).
Proof.
  unfold compute_similarity, bind, get_self.
  intros -> ->. reflexivity.
Qed.

Lemma compute_similarity_state (self : SimilarityEngine) :
  snd (compute_similarity self) = self
  \/ exists v, student_vectors self = Some v
               /\ snd (compute_similarity self)
                  = with_similarity_matrix self
                      (cosine_similarity (df_values v)).
Proof.
  destruct (student_vectors self) as [v|] eqn:Ev.
  - destruct (df_empty v) eqn:Ee.
    + left. rewrite compute_similarity_raises; eauto.
    + right. exists v. split; [reflexivity|].
      now rewrite (compute_similarity_ok self v).
  - left. rewrite compute_similarity_raises; auto.
Qed.

Lemma find_similar_students_state (sid : student_id) (top_k : Z)
    (top_n : option Z) (self : SimilarityEngine) :
  snd (find_similar_students sid top_k top_n self)
  = match similarity_matrix self with
    | None => snd (compute_similarity self)
    | Some _ => self
    end.
Proof.
  unfold find_similar_students, bind, get_self.
  assert (Htail : forall s,
    snd ((v <- attr (student_vectors s) ;;
          if negb (mem_string sid (df_index v))
          then raise (ValueError (not_found sid))
          else
            let top_k := match top_n with Some n => n | None => top_k end in
            let student_idx := get_loc sid (df_index v) in
            m <- subscriptable (similarity_matrix s) ;;
            similarity_scores <-
              lift (match nth_error m student_idx with
                    | Some row => Ok row
                    | None => Raise IndexError
                    end) ;;
            results <-
              lift (peer_scores (df_index v) student_idx
                      (enumerate similarity_scores) []) ;;
            let results := sort_by_similarity results in
            ret (slice_to top_k results)) s) = s).
  { intro s. unfold bind, attr, subscriptable, lift, ret, raise.
    destruct (student_vectors s) as [v|]; [|reflexivity]. simpl.
    destruct (negb (mem_string sid (df_index v))); [reflexivity|].
    destruct (similarity_matrix s) as [m|]; [|reflexivity]. simpl.
    destruct (nth_error m (get_loc sid (df_index v))); [|reflexivity].
    destruct (peer_scores _ _ _ _); reflexivity. }
  unfold bind in Htail.
  destruct (similarity_matrix self) eqn:Em.
  - unfold ret at 1. apply Htail.
  - destruct (compute_similarity self) as [[m|e] s] eqn:Ec; simpl.
    + unfold ret at 1. apply Htail.
    + reflexivity.
Qed.

Lemma analyze_peer_patterns_state (sid : student_id) (top_k : Z)
    (threshold : Q) (self : SimilarityEngine) :
  snd (analyze_peer_patterns sid top_k threshold self)
  = snd (find_similar_students sid top_k None self).
Proof.
  unfold analyze_peer_patterns, bind.
  destruct (find_similar_students sid top_k None self) as [[l|e] s];
    [|reflexivity].
  destruct l; [reflexivity|].
  unfold get_self, attr, lift, ret, raise. simpl.
  destruct (student_vectors s); reflexivity.
Qed.

Lemma reachable_matrix_needs_vectors (self : SimilarityEngine) :
  reachable self ->
  student_vectors self = None -> similarity_matrix self = None.
Proof.
  assert (Hc : forall s,
            (student_vectors s = None -> similarity_matrix s = None) ->
            student_vectors (snd (compute_similarity s)) = None ->
            similarity_matrix (snd (compute_similarity s)) = None).
  { intros s IH. destruct (compute_similarity_state s) as [->|(v & Ev & ->)].
    - exact IH.
    - simpl. congruence. }
  assert (Hf : forall s sid k n,
            (student_vectors s = None -> similarity_matrix s = None) ->
            student_vectors (snd (find_similar_students sid k n s)) = None ->
            similarity_matrix (snd (find_similar_students sid k n s)) = None).
  { intros s sid k n IH. rewrite find_similar_students_state.
    destruct (similarity_matrix s) eqn:Em.
    - intro Hv. specialize (IH Hv). discriminate.
    - apply Hc. intros _. exact Em. }
  induction 1 as [studs|s df cs Hr IH|s Hr IH|s sid k n Hr IH|s sid k t Hr IH].
  - reflexivity.
  - destruct (create_student_vectors_eval df cs s) as (v & -> & _).
    simpl. discriminate.
  - now apply Hc.
  - now apply Hf.
  - rewrite analyze_peer_patterns_state. now apply Hf.
Qed.


End EngineFacts.

Lemma slice_to_firstn {A} (k : Z) (l : list A) :
  (0 <= k)%Z -> slice_to k l = firstn (Z.to_nat k) l.
Proof.
  intro Hk. unfold slice_to.
  destruct (0 <=? k)%Z eqn:E; [reflexivity|].
  apply Z.leb_gt in E. lia.
Qed.

Lemma firstn_incl {A} (n : nat) (l : list A) (x : A) :
  In x (firstn n l) -> In x l.
Proof.
  intro Hx. rewrite <- (firstn_skipn n l). apply in_or_app. now left.
Qed.

Lemma NoDup_firstn {A} (n : nat) (l : list A) :
  NoDup l -> NoDup (firstn n l).
Proof.
  intro Hnd. rewrite <- (firstn_skipn n l) in Hnd.
  now apply NoDup_app_remove_r in Hnd.
Qed.

Lemma sort_by_similarity_ranked (index : list student_id)
    (results : list (student_id * Q)) :
  StronglySorted
    (fun a b => (get_loc (fst a) index < get_loc (fst b) index)%nat) results ->
  StronglySorted (ranks_before index) (sort_by_similarity results).
Proof.
  intro Hs. unfold sort_by_similarity.
  set (before := fun a b : student_id * Q => Qltb (snd b) (snd a)).
  assert (Hasym : forall a b, before a b = true -> before b a = false).
  { intros a b. unfold before. rewrite Qltb_lt, Qltb_ge. lra. }
  assert (Hneg : forall a b c, before a c = true ->
                   before a b = true \/ before b c = true).
  { intros a b c. unfold before. rewrite !Qltb_lt. intro Hca.
    destruct (Qlt_le_dec (snd b) (snd a)); [now left|right; lra]. }
  pose proof (stable_sort_sorted before Hasym Hneg _ results Hs) as Hsorted.
  revert Hsorted. apply StronglySorted_impl.
  intros a b [Hab|[Hba Hrow]]; unfold ranks_before, before in *.
  - apply Qltb_lt in Hab. now left.
  - apply Qltb_ge in Hba.
    destruct (Qlt_le_dec (snd b) (snd a)) as [Hlt|Hle]; [now left|].
    right. split; [lra|assumption].
Qed.

Section FindSimilar.
Context `{SK : Sklearn}.
Hypothesis shape : cosine_shape.

Lemma coherent_step (self : SimilarityEngine) (v : frame Q) :
  coherent self v ->
  coherent
    (with_similarity_matrix self (cosine_similarity (df_values v))) v.
Proof.
  intros (Hv & Hnd & Hlen & Hne & _).
  unfold coherent. simpl. auto 6.
Qed.

(** Vectors built on a new engine from a table with rows are coherent. *)
Lemma create_student_vectors_coherent (students_df : list student_profile)
    (student_concept_df : list feature_row) (all_concepts : list concept_id) :
  student_concept_df <> [] ->
  exists v self',
    create_student_vectors student_concept_df all_concepts (init students_df)
    = (Ok v, self')
    /\ coherent self' v.
Proof.
  intro Hdf.
  destruct (create_student_vectors_eval student_concept_df all_concepts
              (init students_df)) as (v & Hcreate & Hindex & Hlen & Hne).
  exists v, (with_student_vectors (init students_df) v).
  split; [assumption|]. unfold coherent. simpl.
  split; [reflexivity|]. split; [|auto].
  rewrite Hindex. apply sorted_unique_NoDup.
Qed.

(** The run of [find_similar_students] on a coherent engine. *)
Lemma find_similar_students_eval (self : SimilarityEngine) (v : frame Q)
    (sid : student_id) (top_k : Z) (top_n : option Z) :
  coherent self v ->
  In sid (df_index v) ->
  exists row,
    nth_error (cosine_similarity (df_values v)) (get_loc sid (df_index v))
    = Some row
    /\ length row = length (df_index v)
    /\ find_similar_students sid top_k top_n self
       = (Ok (slice_to (match top_n with Some n => n | None => top_k end)
                (sort_by_similarity
                   (peers_of (df_index v) (get_loc sid (df_index v))
                      (enumerate row)))),
          with_similarity_matrix self (cosine_similarity (df_values v))).
Proof.
  intros (Hv & Hnd & Hlen & Hne & Hm) Hin.
  destruct (shape (df_values v)) as [Hrows Hcols].
  remember (cosine_similarity (df_values v)) as m eqn:Em.
  pose proof (get_loc_lt sid (df_index v) Hin) as Hloc.
  destruct (nth_error m (get_loc sid (df_index v))) as [row|] eqn:Erow.
  2:{ exfalso. apply nth_error_None in Erow. lia. }
  assert (Hrow : length row = length (df_index v)).
  { rewrite Forall_forall in Hcols.
    rewrite (Hcols row (nth_error_In _ _ Erow)). exact Hlen. }
  exists row. split; [reflexivity|]. split; [assumption|].
  assert (Hpeers : peer_scores (df_index v) (get_loc sid (df_index v))
                     (enumerate row) []
                   = Ok (peers_of (df_index v) (get_loc sid (df_index v))
                           (enumerate row))).
  { rewrite peer_scores_ok; [reflexivity|].
    rewrite <- Hrow. apply enumerate_bound. }
  assert (Hmem : mem_string sid (df_index v) = true)
    by now apply mem_string_In.
  unfold find_similar_students, bind at 1, get_self.
  destruct Hm as [Hm|Hm]; rewrite Hm.
  - unfold bind at 1. unfold bind at 1.
    rewrite (compute_similarity_ok self v Hv Hne). rewrite <- Em.
    unfold ret at 1. unfold bind, attr, subscriptable, ret, lift, raise.
    simpl. rewrite Hv. simpl. rewrite Hmem. simpl.
    rewrite Erow. rewrite Hpeers. reflexivity.
  - unfold bind, attr, subscriptable, ret, lift, raise. simpl.
    rewrite Hv. simpl. rewrite Hmem. simpl. rewrite Hm.
    rewrite Erow. rewrite Hpeers.
    f_equal. destruct self; simpl in *. unfold with_similarity_matrix.
    simpl. now rewrite Hm.
Qed.

End FindSimilar.

Lemma sort_by_similarity_perm (results : list (student_id * Q)) :
  Permutation (sort_by_similarity results) results.
Proof. apply stable_sort_perm. Qed.

Lemma sort_by_similarity_in (results : list (student_id * Q))
    (p : student_id * Q) :
  In p (sort_by_similarity results) <-> In p results.
Proof. apply stable_sort_in. Qed.

Lemma sort_by_similarity_length (results : list (student_id * Q)) :
  length (sort_by_similarity results) = length results.
Proof. apply stable_sort_length. Qed.

Lemma ranked_results_facts (index : list student_id) (sid : student_id)
    (row : list Q) (peers : list (student_id * Q)) (top_k : Z) :
  NoDup index ->
  In sid index ->
  (0 <= top_k)%Z ->
  peer_scores index (get_loc sid index) (enumerate row) [] = Ok peers ->
  let results := slice_to top_k (sort_by_similarity peers) in
  (Z.of_nat (length results) <= top_k)%Z
  /\ ~ In sid (map fst results)
  /\ (forall p, In p results -> In (fst p) index)
  /\ StronglySorted (ranks_before index) results.
Proof.
  intros Hnd Hin Hk Hpeers results.
  apply peer_scores_inv in Hpeers. destruct Hpeers as [Epeers Hrange].
  simpl in Epeers.
  pose proof (get_loc_lt sid index Hin) as Hloc.
  pose proof (enumerate_sorted row) as Hsorted.
  unfold results. rewrite (slice_to_firstn top_k _ Hk).
  assert (Hsub : forall p, In p (firstn (Z.to_nat top_k)
                                    (sort_by_similarity peers)) ->
                           In p peers).
  { intros p Hp. apply firstn_incl in Hp.
    now apply (proj1 (sort_by_similarity_in peers p)). }
  split; [|split; [|split]].
  - pose proof (firstn_le_length (Z.to_nat top_k) (sort_by_similarity peers)).
    lia.
  - intro Hsid. apply in_map_iff in Hsid. destruct Hsid as (p & Ep & Hp).
    apply Hsub in Hp. rewrite Epeers in Hp.
    apply (peers_exclude_student index (get_loc sid index) (enumerate row)
             Hnd Hloc Hrange p Hp).
    rewrite Ep. symmetry. now apply nth_get_loc.
  - intros p Hp. apply Hsub in Hp. rewrite Epeers in Hp.
    apply (peers_in_index index (get_loc sid index) (enumerate row)
             Hrange p Hp).
  - apply StronglySorted_firstn, sort_by_similarity_ranked.
    rewrite Epeers.
    apply (peers_sorted_by_row index (get_loc sid index) (enumerate row)
             Hnd Hsorted Hrange).
Qed.

Section EngineInvariants.
Context `{SK : Sklearn}.

Lemma compute_similarity_vectors (self : SimilarityEngine) :
  student_vectors (snd (compute_similarity self)) = student_vectors self.
Proof.
  destruct (compute_similarity_state self) as [->|(v & _ & ->)]; reflexivity.
Qed.

Lemma find_similar_students_vectors (sid : student_id) (top_k : Z)
    (top_n : option Z) (self : SimilarityEngine) :
  student_vectors (snd (find_similar_students sid top_k top_n self))
  = student_vectors self.
Proof.
  rewrite find_similar_students_state.
  destruct (similarity_matrix self); [reflexivity|].
  apply compute_similarity_vectors.
Qed.

(** The index of the vectors of an engine never holds a student twice. *)
Lemma reachable_index_nodup (self : SimilarityEngine) :
  reachable self ->
  forall v, student_vectors self = Some v -> NoDup (df_index v).
Proof.
  induction 1 as [studs|s df cs Hr IH|s Hr IH|s sid k n Hr IH|s sid k t Hr IH];
    intros v Hv.
  - discriminate.
  - destruct (create_student_vectors_eval df cs s) as (v0 & E & Hi & _).
    rewrite E in Hv. simpl in Hv. inversion Hv; subst.
    rewrite Hi. apply sorted_unique_NoDup.
  - rewrite compute_similarity_vectors in Hv. auto.
  - rewrite find_similar_students_vectors in Hv. auto.
  - rewrite analyze_peer_patterns_state, find_similar_students_vectors in Hv.
    auto.
Qed.

(** What a run of [find_similar_students] that returns went through. *)
Lemma find_similar_students_inv (self : SimilarityEngine) (v : frame Q)
    (sid : student_id) (top_k : Z) (top_n : option Z)
    (results : list (student_id * Q)) (self' : SimilarityEngine) :
  student_vectors self = Some v ->
  find_similar_students sid top_k top_n self = (Ok results, self') ->
  In sid (df_index v)
  /\ student_vectors self' = Some v
  /\ exists row peers,
       peer_scores (df_index v) (get_loc sid (df_index v)) (enumerate row) []
       = Ok peers
       /\ results
          = slice_to (match top_n with Some n => n | None => top_k end)
              (sort_by_similarity peers).
Proof.
  intros Hv Hrun.
  assert (Hv' : student_vectors self' = Some v).
  { rewrite <- Hv, <- (find_similar_students_vectors sid top_k top_n self).
    now rewrite Hrun. }
  revert Hrun.
  unfold find_similar_students, bind, get_self, attr, subscriptable, lift, ret,
    raise.
  destruct (similarity_matrix self) as [m0|] eqn:E0.
  - rewrite Hv, E0.
    destruct (mem_string sid (df_index v)) eqn:Emem; [|discriminate]. simpl.
    destruct (nth_error m0 (get_loc sid (df_index v))) as [row|];
      [|discriminate].
    destruct (peer_scores _ _ _ _) as [peers|e] eqn:Ep; [|discriminate].
    intro E. inversion E; subst.
    split; [now apply mem_string_In|]. split; [assumption|].
    exists row, peers. auto.
  - pose proof (compute_similarity_vectors self) as Hcv.
    destruct (compute_similarity self) as [[m|e] s1]; [|discriminate].
    simpl in Hcv. rewrite Hcv, Hv.
    destruct (mem_string sid (df_index v)) eqn:Emem; [|discriminate]. simpl.
    destruct (similarity_matrix s1) as [m1|]; [|discriminate].
    destruct (nth_error m1 (get_loc sid (df_index v))) as [row|];
      [|discriminate].
    destruct (peer_scores _ _ _ _) as [peers|e] eqn:Ep; [|discriminate].
    intro E. inversion E; subst.
    split; [now apply mem_string_In|]. split; [assumption|].
    exists row, peers. auto.
Qed.

End EngineInvariants.

Section SimilarityClaims.
Context `{SK : Sklearn}.

(** C10. [find_similar_students] takes an alias [top_n]: when [top_n] is
    given, its value is the cap on the number of results whatever [top_k]
    is; when [top_n] is [None], the cap is [top_k].  The ranked list that is
    cut depends on neither. *)
Theorem find_similar_students_top_n_alias (sid : student_id)
    (self : SimilarityEngine) :
  (forall top_k n,
     find_similar_students sid top_k (Some n) self
     = find_similar_students sid n None self)
  /\ exists ranked self',
       forall top_k top_n,
         find_similar_students sid top_k top_n self
         = (match ranked with
            | Ok results =>
                Ok (slice_to
                      (match top_n with Some n => n | None => top_k end)
                      results)
            | Raise e => Raise e
            end, self').
Proof.
  split; [reflexivity|].
  unfold find_similar_students, bind, get_self, attr, subscriptable, lift, ret,
    raise.
  destruct (similarity_matrix self) as [m0|] eqn:E0.
  - rewrite E0.
    destruct (student_vectors self) as [v|];
      [|exists (Raise AttributeError), self; reflexivity].
    destruct (negb (mem_string sid (df_index v)));
      [exists (Raise (ValueError (not_found sid))), self; reflexivity|].
    destruct (nth_error m0 (get_loc sid (df_index v))) as [row|];
      [|exists (Raise IndexError), self; reflexivity].
    destruct (peer_scores (df_index v) (get_loc sid (df_index v))
                (enumerate row) []) as [results|e].
    + exists (Ok (sort_by_similarity results)), self. reflexivity.
    + exists (Raise e), self. reflexivity.
  - destruct (compute_similarity self) as [[m|e] s1];
      [|exists (Raise e), s1; reflexivity].
    destruct (student_vectors s1) as [v|];
      [|exists (Raise AttributeError), s1; reflexivity].
    destruct (negb (mem_string sid (df_index v)));
      [exists (Raise (ValueError (not_found sid))), s1; reflexivity|].
    destruct (similarity_matrix s1) as [m1|];
      [|exists (Raise TypeError), s1; reflexivity].
    destruct (nth_error m1 (get_loc sid (df_index v))) as [row|];
      [|exists (Raise IndexError), s1; reflexivity].
    destruct (peer_scores (df_index v) (get_loc sid (df_index v))
                (enumerate row) []) as [results|e].
    + exists (Ok (sort_by_similarity results)), s1. reflexivity.
    + exists (Raise e), s1. reflexivity.
Qed.

Hypothesis shape : cosine_shape.

(** C4, amended. On every engine that the methods produce, for every
    student of the vector index and every [top_k >= 0], what
    [find_similar_students] returns has at most [top_k] pairs, all of them
    students of the index other than the queried one, strictly sorted by
    similarity descending with ties in the row order of the index; and it
    does return when the cached matrix, if any, was computed from the
    current vectors. *)
Theorem find_similar_students_ranked (self : SimilarityEngine) (v : frame Q)
    (sid : student_id) (top_k : Z) :
  reachable self ->
  student_vectors self = Some v ->
  In sid (df_index v) ->
  (0 <= top_k)%Z ->
  (forall results self',
     find_similar_students sid top_k None self = (Ok results, self') ->
     (Z.of_nat (length results) <= top_k)%Z
     /\ ~ In sid (map fst results)
     /\ (forall p, In p results -> In (fst p) (df_index v))
     /\ StronglySorted (ranks_before (df_index v)) results)
  /\ (coherent self v ->
      exists results self',
        find_similar_students sid top_k None self = (Ok results, self')
        /\ coherent self' v).
Proof.
  intros Hreach Hv Hin Hk. split.
  - intros results self' Hrun.
    pose proof (reachable_index_nodup self Hreach v Hv) as Hnd.
    destruct (find_similar_students_inv self v sid top_k None results self'
                Hv Hrun) as (_ & _ & row & peers & Hpeers & ->).
    now apply (ranked_results_facts (df_index v) sid row peers top_k).
  - intro Hc.
    destruct (find_similar_students_eval shape self v sid top_k None Hc Hin)
      as (row & _ & _ & Hrun).
    eexists. eexists. split; [exact Hrun|]. now apply coherent_step.
Qed.

(** C8. For every table of mastery records with N distinct students, any
    concept list and any student of the table, [create_student_vectors],
    then [compute_similarity], then [find_similar_students] with
    [top_k = N - 1], run on a new engine, return exactly N - 1 peers, with
    no peer twice. *)
Theorem round_trip_all_peers (students_df : list student_profile)
    (student_concept_df : list feature_row) (all_concepts : list concept_id)
    (sid : student_id) :
  In sid (map fr_student_id student_concept_df) ->
  let N := length (nodup string_dec (map fr_student_id student_concept_df)) in
  exists peers self',
    (create_student_vectors student_concept_df all_concepts ;;;
     compute_similarity ;;;
     find_similar_students sid (Z.of_nat N - 1) None) (init students_df)
    = (Ok peers, self')
    /\ length peers = (N - 1)%nat
    /\ NoDup (map fst peers).
Proof.
  intros Hsid N.
  destruct (create_student_vectors_eval student_concept_df all_concepts
              (init students_df)) as (v & Hcreate & Hindex & Hlen & Hne).
  assert (Hdf : student_concept_df <> [])
    by (destruct student_concept_df; [destruct Hsid|discriminate]).
  specialize (Hne Hdf).
  assert (Hin : In sid (df_index v))
    by (rewrite Hindex; now apply sorted_unique_In).
  assert (Hnd : NoDup (df_index v))
    by (rewrite Hindex; apply sorted_unique_NoDup).
  assert (HN : length (df_index v) = N)
    by (rewrite Hindex; apply sorted_unique_length).
  set (s1 := with_student_vectors (init students_df) v) in *.
  set (m := cosine_similarity (df_values v)).
  assert (Hc2 : coherent (with_similarity_matrix s1 m) v).
  { unfold coherent. simpl. auto 6. }
  pose proof (get_loc_lt sid (df_index v) Hin) as Hloc.
  destruct (find_similar_students_eval shape _ v sid (Z.of_nat N - 1) None
              Hc2 Hin) as (row & Erow & Hrow & Hrun).
  set (peers := peers_of (df_index v) (get_loc sid (df_index v))
                  (enumerate row)) in *.
  exists (slice_to (Z.of_nat N - 1) (sort_by_similarity peers)),
    (with_similarity_matrix s1 m).
  assert (Hpl : length peers = (N - 1)%nat).
  { unfold peers.
    rewrite (peers_of_enumerate_length (df_index v)
               (get_loc sid (df_index v)) row Hrow Hloc). now rewrite HN. }
  assert (HNpos : (0 < N)%nat) by lia.
  rewrite slice_to_firstn by lia.
  replace (Z.to_nat (Z.of_nat N - 1)) with (N - 1)%nat by lia.
  assert (Hall : firstn (N - 1) (sort_by_similarity peers)
                 = sort_by_similarity peers).
  { rewrite <- Hpl, <- (sort_by_similarity_length peers). apply firstn_all. }
  rewrite Hall.
  split; [|split].
  - unfold bind at 1. rewrite Hcreate.
    unfold bind at 1. rewrite (compute_similarity_ok s1 v eq_refl Hne).
    fold m. rewrite Hrun.
    rewrite slice_to_firstn by lia.
    replace (Z.to_nat (Z.of_nat N - 1)) with (N - 1)%nat by lia.
    now rewrite Hall.
  - now rewrite sort_by_similarity_length.
  - apply (Permutation_NoDup
             (Permutation_map fst
                (Permutation_sym (sort_by_similarity_perm peers)))).
    apply (peers_nodup (df_index v) (get_loc sid (df_index v))
             (enumerate row) Hnd (enumerate_sorted row)
             (enumerate_in_range _ _ row Hrow)).
Qed.

End SimilarityClaims.

(* ================================================================== *)
(** * Recommendation engine: the learning path *)
(* ================================================================== *)

Section DedupFacts.
Context {A K : Type}.
Variable eqb : K -> K -> bool.
Variable key : A -> K.
Hypothesis eqb_eq : forall a b, eqb a b = true <-> a = b.


Lemma dedup_first_keys (l : list A) (k : K) :
  In k (map key (dedup_first eqb key l)) <-> In k (map key l).
Proof.
  induction l as [|a l IH]; simpl; [reflexivity|].
  split.
  - intros [->|Hk]; [now left|].
    apply in_map_iff in Hk. destruct Hk as (y & <- & Hy).
    apply filter_In in Hy. right. apply IH. apply in_map, Hy.
  - intros [->|Hk]; [now left|].
    destruct (eqb k (key a)) eqn:E.
    + left. symmetry. now apply eqb_eq.
    + right. apply IH in Hk. apply in_map_iff in Hk.
      destruct Hk as (y & <- & Hy).
      apply in_map, filter_In. split; [assumption|]. now rewrite E.
Qed.

Lemma dedup_first_NoDup (l : list A) :
  NoDup (map key (dedup_first eqb key l)).
Proof.
  induction l as [|a l IH]; simpl; constructor.
  - intro Hin. apply in_map_iff in Hin. destruct Hin as (y & Ey & Hy).
    apply filter_In in Hy. destruct Hy as [_ Hne].
    apply negb_true_iff in Hne.
    assert (Heq : eqb (key y) (key a) = true) by now apply eqb_eq.
    congruence.
  - clear -IH. induction (dedup_first eqb key l) as [|y d IHd]; simpl;
      [constructor|].
    inversion IH as [|? ? Hy Hd]; subst.
    destruct (negb (eqb (key y) (key a))); simpl; [|now apply IHd].
    constructor; [|now apply IHd].
    intro Hin. apply Hy. apply in_map_iff in Hin.
    destruct Hin as (z & Ez & Hz). apply filter_In in Hz.
    rewrite <- Ez. apply in_map, Hz.
Qed.



End DedupFacts.

Lemma find_filter {A} (f : A -> bool) (l : list A) :
  find f l = match filter f l with [] => None | x :: _ => Some x end.
Proof.
  induction l as [|a l IH]; simpl; [reflexivity|].
  now destruct (f a).
Qed.







(* ================================================================== *)
(** * Recommendation engine: the merge of the two sources *)
(* ================================================================== *)



Section DictFacts.
Context {K V : Type}.
Variable eqb : K -> K -> bool.
Variable key : V -> K.
Hypothesis eqb_eq : forall a b, eqb a b = true <-> a = b.

Lemma eqb_refl_true (k : K) : eqb k k = true.
Proof. now apply eqb_eq. Qed.

Lemma dict_set_get (d : dict K V) (k k' : K) (v : V) :
  dict_get eqb (dict_set eqb d k v) k'
  = if eqb k k' then Some v else dict_get eqb d k'.
Proof.
  unfold dict_get. induction d as [|[k0 v0] d IH]; simpl.
  - now destruct (eqb k k').
  - destruct (eqb k0 k) eqn:E0; simpl.
    + apply eqb_eq in E0. subst k0. now destruct (eqb k k').
    + destruct (eqb k0 k') eqn:E1; simpl.
      * destruct (eqb k k') eqn:E2; [|reflexivity].
        apply eqb_eq in E1, E2. subst.
        rewrite eqb_refl_true in E0. discriminate.
      * exact IH.
Qed.

Lemma dict_set_keys (d : dict K V) (k : K) (v : V) :
  dict_keys (dict_set eqb d k v)
  = if existsb (fun k0 => eqb k0 k) (dict_keys d)
    then dict_keys d else dict_keys d ++ [k].
Proof.
  unfold dict_keys. induction d as [|[k0 v0] d IH]; simpl; [reflexivity|].
  destruct (eqb k0 k) eqn:E0; simpl; [reflexivity|].
  rewrite IH. now destruct (existsb _ (map fst d)).
Qed.

Lemma dict_set_keyed (d : dict K V) (k : K) (v : V) :
  key v = k ->
  Forall (fun kv => key (snd kv) = fst kv) d ->
  Forall (fun kv => key (snd kv) = fst kv) (dict_set eqb d k v).
Proof.
  intros Hk. induction 1 as [|[k0 v0] d H0 Hd IH]; simpl.
  - now repeat constructor.
  - destruct (eqb k0 k) eqn:E0.
    + apply eqb_eq in E0. subst k0. now constructor.
    + now constructor.
Qed.

Lemma dict_comprehension_snoc (l : list V) (r : V) :
  dict_comprehension eqb key (l ++ [r])
  = dict_set eqb (dict_comprehension eqb key l) (key r) r.
Proof. unfold dict_comprehension. now rewrite fold_left_app. Qed.

Lemma dedup_first_snoc (l : list V) (x : V) :
  dedup_first eqb key (l ++ [x])
  = dedup_first eqb key l
    ++ (if existsb (fun y => eqb (key y) (key x)) l then [] else [x]).
Proof.
  induction l as [|a l IH]; simpl; [reflexivity|].
  rewrite IH, filter_app. f_equal. f_equal.
  destruct (eqb (key a) (key x)) eqn:E; simpl.
  - apply eqb_eq in E.
    destruct (existsb _ l); simpl; [reflexivity|].
    now rewrite E, eqb_refl_true.
  - destruct (existsb _ l); simpl; [reflexivity|].
    destruct (eqb (key x) (key a)) eqn:E'; [|reflexivity].
    apply eqb_eq in E'. rewrite E', eqb_refl_true in E. discriminate.
Qed.

Lemma dict_comprehension_keys (l : list V) :
  dict_keys (dict_comprehension eqb key l)
  = map key (dedup_first eqb key l).
Proof.
  induction l as [|r l IH] using rev_ind; [reflexivity|].
  rewrite dict_comprehension_snoc, dict_set_keys, IH, dedup_first_snoc.
  assert (Hex : existsb (fun k0 => eqb k0 (key r))
                  (map key (dedup_first eqb key l))
                = existsb (fun y => eqb (key y) (key r)) l).
  { apply eq_true_iff_eq. rewrite !existsb_exists. split.
    - intros (k0 & Hk0 & E).
      apply (proj1 (dedup_first_keys eqb key eqb_eq l k0)) in Hk0.
      apply in_map_iff in Hk0. destruct Hk0 as (y & <- & Hy).
      exists y. now split.
    - intros (y & Hy & E). exists (key y). split; [|assumption].
      apply (proj2 (dedup_first_keys eqb key eqb_eq l (key y))).
      now apply in_map. }
  rewrite Hex. destruct (existsb _ l).
  - now rewrite app_nil_r.
  - now rewrite map_app.
Qed.

Lemma dict_comprehension_get (l : list V) (k : K) :
  dict_get eqb (dict_comprehension eqb key l) k
  = find (fun r => eqb (key r) k) (rev l).
Proof.
  induction l as [|r l IH] using rev_ind; [reflexivity|].
  rewrite dict_comprehension_snoc, dict_set_get, IH, rev_app_distr.
  reflexivity.
Qed.

Lemma dict_comprehension_keyed (l : list V) :
  Forall (fun kv => key (snd kv) = fst kv) (dict_comprehension eqb key l).
Proof.
  induction l as [|r l IH] using rev_ind; [constructor|].
  rewrite dict_comprehension_snoc. now apply dict_set_keyed.
Qed.


Lemma dict_get_in (d : dict K V) (k : K) (v : V) :
  NoDup (dict_keys d) -> In (k, v) d -> dict_get eqb d k = Some v.
Proof.
  unfold dict_keys, dict_get.
  induction d as [|[k0 v0] d IH]; intros Hnd Hin; simpl; [destruct Hin|].
  inversion Hnd as [|? ? Hk Hd]; subst.
  destruct Hin as [E|Hin].
  - inversion E; subst. now rewrite eqb_refl_true.
  - destruct (eqb k0 k) eqn:E; [|now apply IH].
    apply eqb_eq in E. subst. exfalso. apply Hk.
    now apply (in_map fst) in Hin.
Qed.

End DictFacts.

Lemma key_eqb_eq (a b : concept_id * resource_id) :
  key_eqb a b = true <-> a = b.
Proof.
  destruct a as [a1 a2], b as [b1 b2]. unfold key_eqb. simpl.
  rewrite andb_true_iff, !String.eqb_eq. split.
  - now intros [-> ->].
  - intro E. now inversion E.
Qed.



Lemma merge_last_wins (l : list recommendation) (r : recommendation) :
  In r (dict_values (dict_comprehension key_eqb rec_key l)) ->
  last_with_key (rec_key r) l = Some r.
Proof.
  intro Hr. unfold dict_values in Hr. apply in_map_iff in Hr.
  destruct Hr as ([k v] & Ev & Hkv). simpl in Ev. subst v.
  pose proof (dict_comprehension_keyed key_eqb rec_key key_eqb_eq l) as Hk.
  rewrite Forall_forall in Hk. pose proof (Hk _ Hkv) as Ek. simpl in Ek.
  unfold last_with_key.
  rewrite <- (dict_comprehension_get key_eqb rec_key key_eqb_eq).
  apply (dict_get_in key_eqb key_eqb_eq).
  - rewrite (dict_comprehension_keys key_eqb rec_key key_eqb_eq).
    apply dedup_first_NoDup, key_eqb_eq.
  - now rewrite Ek.
Qed.


Lemma last_with_key_in (k : concept_id * resource_id)
    (l : list recommendation) (r : recommendation) :
  last_with_key k l = Some r -> In r l /\ rec_key r = k.
Proof.
  unfold last_with_key. intro Hf. apply find_some in Hf.
  destruct Hf as [Hin Hk]. split; [now apply in_rev|now apply key_eqb_eq].
Qed.

Lemma fold_left_append {A B} (f : A -> list B) (l : list A) (acc : list B) :
  fold_left (fun recs x => recs ++ f x) l acc = acc ++ flat_map f l.
Proof.
  revert acc. induction l as [|x l IH]; intro acc; simpl.
  - now rewrite app_nil_r.
  - now rewrite IH, app_assoc.
Qed.

Lemma get_behavior_based_recommendations_flat (self : RecommendationEngine)
    (sid : student_id) (similar_students : list (student_id * Q))
    (peer_patterns : dict student_id peer_info) :
  get_behavior_based_recommendations self sid similar_students peer_patterns
  = flat_map
      (fun item =>
         flat_map (behavior_step self sid (fst item) (pi_similarity (snd item)))
           (pi_strong_concepts (snd item)))
      peer_patterns.
Proof.
  unfold get_behavior_based_recommendations, dict_items.
  rewrite <- (app_nil_l (flat_map _ peer_patterns)).
  generalize (@nil recommendation).
  induction peer_patterns as [|item items IH]; intro acc; simpl.
  - now rewrite app_nil_r.
  - rewrite fold_left_append, IH. now rewrite app_assoc.
Qed.

Lemma behavior_step_in (self : RecommendationEngine) (sid peer_id : student_id)
    (similarity : Q) (sc : strong_concept) (r : recommendation) :
  In r (behavior_step self sid peer_id similarity sc) ->
  already_mastered self sid (sc_concept_id sc) = false
  /\ rc_concept_id r = sc_concept_id sc
  /\ rc_reason r = UsedBySimilarStudent peer_id similarity
  /\ exists best,
       In best (resources self)
       /\ rs_concept_id best = sc_concept_id sc
       /\ rc_resource_id r = rs_resource_id best.
Proof.
  unfold behavior_step.
  destruct (already_mastered self sid (sc_concept_id sc)); [intros []|].
  destruct (sort_by_rating _) as [|best rest] eqn:Es; [intros []|].
  intros [<-|[]]. repeat split. exists best.
  assert (Hbest : In best (sort_by_rating
            (filter (fun r => String.eqb (rs_concept_id r) (sc_concept_id sc))
               (resources self)))) by (rewrite Es; now left).
  unfold sort_by_rating in Hbest. apply stable_sort_in in Hbest.
  apply filter_In in Hbest. destruct Hbest as [Hin E].
  apply String.eqb_eq in E. auto.
Qed.

Lemma already_mastered_spec (self : RecommendationEngine)
    (sid : student_id) (cid : concept_id) :
  already_mastered self sid cid = true <->
  exists r rest,
    filter (fun r => String.eqb (fr_student_id r) sid
                     && String.eqb (fr_concept_id r) cid)
      (student_features self) = r :: rest
    /\ 80 <= fr_mastery_score r.
Proof.
  unfold already_mastered.
  destruct (filter _ (student_features self)) as [|r rest]; split.
  - discriminate.
  - intros (r & rest & E & _). discriminate.
  - intro Hle. apply Qle_bool_iff in Hle. eauto.
  - intros (r' & rest' & E & Hle). inversion E; subst.
    now apply Qle_bool_iff.
Qed.

Lemma dict_set_in {V} (d : dict string V) (k k' : string) (v v' : V) :
  In (k', v') (dict_set String.eqb d k v) ->
  (k' = k /\ v' = v) \/ In (k', v') d.
Proof.
  induction d as [|[k0 v0] d IH]; simpl.
  - intros [E|[]]. inversion E. auto.
  - destruct (String.eqb k0 k) eqn:E0; simpl.
    + apply String.eqb_eq in E0. subst k0.
      intros [E|Hin]; [inversion E; auto|auto].
    + intros [E|Hin]; [auto|]. destruct (IH Hin); auto.
Qed.

Lemma peer_patterns_loop_inv (v : frame Q) (mastery_threshold : Q)
    (similar_students : list (student_id * Q))
    (acc peer_patterns : dict student_id peer_info) :
  peer_patterns_loop v mastery_threshold similar_students acc
  = Ok peer_patterns ->
  (forall peer info, In (peer, info) acc ->
     strong_concepts_of v mastery_threshold peer info) ->
  forall peer info, In (peer, info) peer_patterns ->
    strong_concepts_of v mastery_threshold peer info.
Proof.
  revert acc.
  induction similar_students as [|[peer_id similarity] rest IH];
    intros acc Hloop Hacc; simpl in Hloop.
  - inversion Hloop; subst. exact Hacc.
  - destruct (loc_items v peer_id) as [items|e] eqn:Eitems; [|discriminate].
    apply (IH _ Hloop). intros peer info Hin.
    apply dict_set_in in Hin. destruct Hin as [[-> ->]|Hin]; [|auto].
    exists items. split; [assumption|reflexivity].
Qed.

Lemma strong_concepts_threshold (v : frame Q) (mastery_threshold : Q)
    (peer_id : student_id) (info : peer_info) (sc : strong_concept) :
  strong_concepts_of v mastery_threshold peer_id info ->
  In sc (pi_strong_concepts info) ->
  mastery_threshold <= sc_mastery_score sc.
Proof.
  intros (items & _ & ->) Hin. apply firstn_incl in Hin.
  apply in_map_iff in Hin. destruct Hin as (cs & <- & Hcs).
  apply filter_In in Hcs. simpl. now apply Qle_bool_iff.
Qed.

Section PlanFacts.
Context `{SK : Sklearn}.

Lemma find_similar_students_ok_vectors (sid : student_id) (top_k : Z)
    (top_n : option Z) (self self' : SimilarityEngine)
    (results : list (student_id * Q)) :
  find_similar_students sid top_k top_n self = (Ok results, self') ->
  exists v, student_vectors self' = Some v.
Proof.
  unfold find_similar_students, bind, get_self, attr, subscriptable, lift, ret,
    raise.
  destruct (similarity_matrix self) as [m0|] eqn:E0.
  - destruct (student_vectors self) as [v|] eqn:Ev; [|discriminate].
    destruct (negb (mem_string sid (df_index v))); [discriminate|].
    rewrite E0.
    destruct (nth_error m0 (get_loc sid (df_index v))); [|discriminate].
    destruct (peer_scores _ _ _ _); [|discriminate].
    intro E. inversion E; subst. eauto.
  - destruct (compute_similarity self) as [[m|e] s1]; [|discriminate].
    destruct (student_vectors s1) as [v|] eqn:Ev; [|discriminate].
    destruct (negb (mem_string sid (df_index v))); [discriminate|].
    destruct (similarity_matrix s1) as [m1|]; [|discriminate].
    destruct (nth_error m1 (get_loc sid (df_index v))); [|discriminate].
    destruct (peer_scores _ _ _ _); [|discriminate].
    intro E. inversion E; subst. eauto.
Qed.

Lemma analyze_peer_patterns_inv (sid : student_id) (top_k : Z)
    (mastery_threshold : Q) (self self' : SimilarityEngine)
    (peer_patterns : dict student_id peer_info) :
  analyze_peer_patterns sid top_k mastery_threshold self
  = (Ok peer_patterns, self') ->
  exists similar_students v,
    find_similar_students sid top_k None self = (Ok similar_students, self')
    /\ student_vectors self' = Some v
    /\ (forall peer info, In (peer, info) peer_patterns ->
          strong_concepts_of v mastery_threshold peer info).
Proof.
  unfold analyze_peer_patterns, bind at 1.
  destruct (find_similar_students sid top_k None self) as [[similar|e] s1]
    eqn:Efind; [|discriminate].
  destruct (find_similar_students_ok_vectors _ _ _ _ _ _ Efind) as (v & Ev).
  destruct similar as [|p rest].
  - unfold ret. intro E. inversion E; subst.
    exists [], v. repeat split; auto. intros ? ? [].
  - unfold bind, get_self, attr, lift, ret. rewrite Ev.
    destruct (peer_patterns_loop v mastery_threshold (p :: rest) [])
      as [patterns|e] eqn:Eloop; [|discriminate].
    intro E. inversion E; subst.
    exists (p :: rest), v. repeat split; auto.
    apply (peer_patterns_loop_inv _ _ _ _ _ Eloop). intros ? ? [].
Qed.

(** The steps that a returned plan went through. *)
Lemma generate_personalized_plan_inv (self : RecommendationEngine)
    (sid : student_id) (engine engine' : SimilarityEngine)
    (plan : learning_plan) :
  generate_personalized_plan self sid engine = (Ok plan, engine') ->
  exists weak similar_students peer_patterns engine1,
    get_weak_concepts sid (student_features self) = Some weak
    /\ find_similar_students sid default_top_k None engine
       = (Ok similar_students, engine1)
    /\ analyze_peer_patterns sid default_top_k default_mastery_threshold
         engine1 = (Ok peer_patterns, engine')
    /\ lp_recommendations plan
       = firstn 5
           (dict_values
              (dict_comprehension key_eqb rec_key
                 (get_content_based_recommendations self sid weak 3
                  ++ get_behavior_based_recommendations self sid
                       similar_students peer_patterns)))
    /\ lp_learning_path plan = create_learning_path self sid weak
    /\ lp_weak_concepts_count plan = length weak.
Proof.
  unfold generate_personalized_plan, bind at 1.
  destruct (find_similar_students sid default_top_k None engine)
    as [[similar|e] engine1] eqn:Efind; [|discriminate].
  unfold bind at 1.
  destruct (analyze_peer_patterns sid default_top_k default_mastery_threshold
              engine1) as [[patterns|e] engine2] eqn:Epat; [|discriminate].
  unfold bind, attr, lift, ret, raise.
  destruct (get_weak_concepts sid (student_features self)) as [weak|]
    eqn:Eweak; [|discriminate].
  destruct (filter _ (student_profiles self)) as [|s ss]; [discriminate|].
  intro E. injection E as Eplan Eengine. subst plan engine'.
  exists weak, similar, patterns, engine1.
  split; [reflexivity|]. split; [reflexivity|]. split; [exact Epat|].
  repeat split; reflexivity.
Qed.


(** C2, amended. In a returned plan, the strong concepts of a peer are the
    first five, in the column order of the vectors, of the concepts on
    which the peer's mastery score is >= 70, the default threshold of the
    peer-pattern step; every behavior-based recommendation is for such a
    concept, and none is made for a concept on which the first record of
    the target student has a mastery score >= 80. *)
Theorem plan_peer_strong_concepts (self : RecommendationEngine)
    (sid : student_id) (engine engine' : SimilarityEngine)
    (plan : learning_plan) :
  generate_personalized_plan self sid engine = (Ok plan, engine') ->
  exists weak similar_students peer_patterns engine1 v,
    get_weak_concepts sid (student_features self) = Some weak
    /\ find_similar_students sid default_top_k None engine
       = (Ok similar_students, engine1)
    /\ analyze_peer_patterns sid default_top_k default_mastery_threshold
         engine1 = (Ok peer_patterns, engine')
    /\ student_vectors engine' = Some v
    /\ (forall peer info, In (peer, info) peer_patterns ->
          exists items,
            loc_items v peer = Ok items
            /\ pi_strong_concepts info
               = firstn 5
                   (map (fun cs => {| sc_concept_id := fst cs;
                                      sc_mastery_score := snd cs |})
                      (filter (fun cs => Qle_bool 70 (snd cs)) items)))
    /\ let content_recs :=
         get_content_based_recommendations self sid weak 3 in
       let behavior_recs :=
         get_behavior_based_recommendations self sid similar_students
           peer_patterns in
       (forall r, In r behavior_recs ->
          exists peer info sc,
            In (peer, info) peer_patterns
            /\ In sc (pi_strong_concepts info)
            /\ 70 <= sc_mastery_score sc
            /\ rc_concept_id r = sc_concept_id sc
            /\ rc_reason r = UsedBySimilarStudent peer (pi_similarity info)
            /\ already_mastered self sid (sc_concept_id sc) = false)
       /\ (forall cid r,
             (exists f rest,
                filter (fun f => String.eqb (fr_student_id f) sid
                                 && String.eqb (fr_concept_id f) cid)
                  (student_features self) = f :: rest
                /\ 80 <= fr_mastery_score f) ->
             In r behavior_recs -> rc_concept_id r <> cid)
       /\ (forall r, In r (lp_recommendations plan) ->
             In r content_recs \/ In r behavior_recs).
Proof.
  intro Hplan.
  destruct (generate_personalized_plan_inv _ _ _ _ _ Hplan)
    as (weak & similar & patterns & engine1 & Hweak & Hfind & Hpat & Hrecs & _).
  destruct (analyze_peer_patterns_inv _ _ _ _ _ _ Hpat)
    as (similar' & v & _ & Hv & Hstrong).
  exists weak, similar, patterns, engine1, v.
  split; [assumption|]. split; [assumption|]. split; [assumption|].
  split; [assumption|]. split; [exact Hstrong|].
  cbv zeta.
  assert (Hbeh : forall r,
    In r (get_behavior_based_recommendations self sid similar patterns) ->
    exists peer info sc,
      In (peer, info) patterns
      /\ In sc (pi_strong_concepts info)
      /\ 70 <= sc_mastery_score sc
      /\ rc_concept_id r = sc_concept_id sc
      /\ rc_reason r = UsedBySimilarStudent peer (pi_similarity info)
      /\ already_mastered self sid (sc_concept_id sc) = false).
  { intros r Hr. rewrite get_behavior_based_recommendations_flat in Hr.
    apply in_flat_map in Hr. destruct Hr as ([peer info] & Hitem & Hr).
    apply in_flat_map in Hr. destruct Hr as (sc & Hsc & Hr). simpl in *.
    apply behavior_step_in in Hr. destruct Hr as (Hm & Hc & Hre & _).
    exists peer, info, sc. repeat split; auto.
    apply (strong_concepts_threshold v default_mastery_threshold peer info);
      auto. }
  split; [exact Hbeh|]. split.
  - intros cid r Hmastered Hr Ec.
    apply already_mastered_spec in Hmastered.
    destruct (Hbeh r Hr) as (_ & _ & sc & _ & _ & _ & Esc & _ & Hnot).
    rewrite <- Esc, Ec in Hnot. congruence.
  - intros r Hr. rewrite Hrecs in Hr. apply firstn_incl in Hr.
    apply merge_last_wins in Hr.
    destruct (last_with_key_in _ _ _ Hr) as [Hin _].
    now apply in_app_or in Hin.
Qed.

End PlanFacts.

(* ================================================================== *)
(** * The sample cohort, run *)
(* ================================================================== *)

Lemma sample_cosine_shape : cosine_shape (SK := Sample.sklearn).
Proof.
  intro X. simpl. unfold Sample.cosine. rewrite length_map.
  split; [reflexivity|].
  apply Forall_forall. intros row Hrow.
  apply in_map_iff in Hrow. destruct Hrow as (u & <- & _).
  apply length_map.
Qed.

Lemma sample_engine_coherent :
  coherent (SK := Sample.sklearn) Sample.engine Sample.vectors.
Proof.
  unfold coherent. split; [reflexivity|]. split.
  - repeat constructor; simpl; intuition discriminate.
  - split; [reflexivity|]. split; [reflexivity|]. right. reflexivity.
Qed.

(** The two scoring scenarios of the specification. *)
Example mastery_score_scenarios :
  calculate_mastery_score Sample.slow_row == 45
  /\ level_of_score (calculate_mastery_score Sample.slow_row) = Struggling
  /\ level_of_score 90 = Advanced.
Proof. repeat split. Qed.

Lemma calculate_mastery_score_bounds_witness :
  0 <= calculate_mastery_score Sample.slow_row <= 100.
Proof.
  apply (calculate_mastery_score_bounds Sample.slow_row); simpl; lra.
Defined.

Lemma mastery_level_step_function_witness :
  fr_mastery_level (Sample.feature "s1" "c1" "Fractions" 60) = Beginner
  <-> 50 <= fr_mastery_score (Sample.feature "s1" "c1" "Fractions" 60) < 70.
Proof.
  apply (proj1 (proj2 (mastery_level_step_function
                         (map fr_feature Sample.features)))
           (Sample.feature "s1" "c1" "Fractions" 60)).
  left. reflexivity.
Defined.



Lemma sample_engine_reachable : reachable (SK := Sample.sklearn) Sample.engine.
Proof.
  exact (reach_compute _
           (reach_create _ Sample.features ["c1"; "c2"]%string
              (reach_init Sample.student_table))).
Qed.

Lemma find_similar_students_ranked_witness :
  exists results self',
    find_similar_students (SK := Sample.sklearn) "s1" 1 None Sample.engine
    = (Ok results, self')
    /\ (Z.of_nat (length results) <= 1)%Z
    /\ ~ In "s1"%string (map fst results)
    /\ StronglySorted (ranks_before (df_index Sample.vectors)) results.
Proof.
  destruct (find_similar_students_ranked (SK := Sample.sklearn)
              sample_cosine_shape Sample.engine Sample.vectors "s1" 1
              sample_engine_reachable eq_refl
              ltac:(simpl; auto) ltac:(lia)) as [Hprops Hreturns].
  destruct (Hreturns sample_engine_coherent) as (results & self' & Hrun & _).
  destruct (Hprops results self' Hrun) as (Hlen & Hself & _ & Hsorted).
  exists results, self'. auto.
Defined.

(** At equal similarity the earlier row comes first: s1 and s2 are equally
    similar to s3. *)
Example find_similar_students_tie :
  fst (find_similar_students (SK := Sample.sklearn) "s3" 5 None Sample.engine)
  = Ok [("s1"%string, 117 # 125); ("s2"%string, 117 # 125)].
Proof. vm_compute. reflexivity. Qed.

(** C4 as stated fails on a negative [top_k]: the slice [results[:-1]] of
    the two peers of s1 has one element, which is more than -1. *)
Lemma find_similar_students_negative_top_k :
  reachable (SK := Sample.sklearn) Sample.engine
  /\ coherent (SK := Sample.sklearn) Sample.engine Sample.vectors
  /\ In "s1"%string (df_index Sample.vectors)
  /\ find_similar_students (SK := Sample.sklearn) "s1" (-1) None Sample.engine
     = (Ok [("s2"%string, 1)], Sample.engine)
  /\ ~ (Z.of_nat (length [("s2"%string, 1)]) <= -1)%Z.
Proof.
  split; [exact sample_engine_reachable|].
  split; [exact sample_engine_coherent|].
  split; [simpl; auto|].
  split; [vm_compute; reflexivity|].
  simpl. lia.
Qed.

Lemma round_trip_all_peers_witness :
  exists peers self',
    (create_student_vectors Sample.features ["c1"; "c2"]%string ;;;
     compute_similarity (SK := Sample.sklearn) ;;;
     find_similar_students (SK := Sample.sklearn) "s1" 2 None)
      (init Sample.student_table)
    = (Ok peers, self')
    /\ length peers = 2%nat
    /\ NoDup (map fst peers).
Proof.
  apply (round_trip_all_peers (SK := Sample.sklearn) sample_cosine_shape
           Sample.student_table Sample.features ["c1"; "c2"]%string "s1").
  simpl. auto.
Defined.

Lemma find_similar_students_top_n_alias_witness :
  find_similar_students (SK := Sample.sklearn) "s1" 5 (Some 1%Z) Sample.engine
  = find_similar_students (SK := Sample.sklearn) "s1" 1 None Sample.engine.
Proof.
  apply (proj1 (find_similar_students_top_n_alias (SK := Sample.sklearn)
                  "s1" Sample.engine)).
Defined.



Lemma plan_peer_strong_concepts_witness :
  exists plan,
    generate_personalized_plan (SK := Sample.sklearn) Sample.recommender
      "s1" Sample.engine = (Ok plan, Sample.engine)
    /\ (forall r, In r (lp_recommendations plan) ->
          (exists weak,
             get_weak_concepts "s1" Sample.features = Some weak
             /\ In r (get_content_based_recommendations Sample.recommender
                        "s1" weak 3))
          \/ exists b : string * Q, rc_reason r = UsedBySimilarStudent (fst b) (snd b)).
Proof.
  eexists. split; [vm_compute; reflexivity|].
  match goal with
  | |- forall r, In r (lp_recommendations ?p) -> _ =>
      assert (Hrun : generate_personalized_plan (SK := Sample.sklearn)
                       Sample.recommender "s1" Sample.engine
                     = (Ok p, Sample.engine)) by (vm_compute; reflexivity)
  end.
  destruct (plan_peer_strong_concepts (SK := Sample.sklearn) _ _ _ _ _ Hrun)
    as (weak & similar & patterns & engine1 & v & Hweak & _ & _ & _ & _
        & Hbeh & _ & Hsrc).
  intros r Hr. destruct (Hsrc r Hr) as [Hc|Hb].
  - left. exists weak. split; [exact Hweak|exact Hc].
  - right. destruct (Hbeh r Hb) as (peer & info & _ & _ & _ & _ & _ & Hre & _).
    exists (peer, pi_similarity info). exact Hre.
Defined.

(** C2 as stated fails: the plan of s1 holds a behavior-based
    recommendation for c1 that comes from the peer s2, whose mastery score
    on c1 is 75, below 80. *)
Lemma peer_strong_concept_below_80 :
  exists plan r,
    generate_personalized_plan (SK := Sample.sklearn) Sample.recommender
      "s1" Sample.engine = (Ok plan, Sample.engine)
    /\ student_vectors Sample.engine = Some Sample.vectors
    /\ loc_items Sample.vectors "s2"
       = Ok [("c1"%string, 75); ("c2"%string, 100)]
    /\ In r (lp_recommendations plan)
    /\ rc_concept_id r = "c1"%string
    /\ rc_reason r = UsedBySimilarStudent "s2" 1
    /\ ~ 80 <= 75.
Proof.
  eexists. eexists.
  split; [vm_compute; reflexivity|].
  split; [reflexivity|]. split; [reflexivity|].
  split; [left; reflexivity|].
  split; [reflexivity|]. split; [reflexivity|].
  intro Hle. apply Qle_bool_iff in Hle. discriminate.
Qed.

(* ================================================================== *)
(** * Similarity engine: the vectors *)
(* ================================================================== *)

Lemma get_loc_app_l (x : string) (l1 l2 : list string) :
  In x l1 -> get_loc x (l1 ++ l2) = get_loc x l1.
Proof.
  induction l1 as [|y l1 IH]; simpl; [intros []|].
  intro Hin. destruct (String.eqb y x) eqn:E; [reflexivity|].
  apply String.eqb_neq in E. destruct Hin as [->|Hin]; [congruence|].
  now rewrite IH.
Qed.

Lemma get_loc_app_r (x : string) (l1 l2 : list string) :
  ~ In x l1 -> get_loc x (l1 ++ l2) = (length l1 + get_loc x l2)%nat.
Proof.
  induction l1 as [|y l1 IH]; simpl; [reflexivity|].
  intro Hnin. destruct (String.eqb y x) eqn:E.
  - apply String.eqb_eq in E. exfalso. auto.
  - rewrite IH; auto.
Qed.

Lemma ensure_concepts_spec (all_concepts : list concept_id)
    (f : frame (option Q)) :
  exists added,
    df_index (ensure_concepts all_concepts f) = df_index f
    /\ df_columns (ensure_concepts all_concepts f) = df_columns f ++ added
    /\ df_values (ensure_concepts all_concepts f)
       = map (fun row => row ++ map (fun _ => Some 0) added) (df_values f)
    /\ NoDup added
    /\ (forall c, In c added <-> In c all_concepts /\ ~ In c (df_columns f)).
Proof.
  unfold ensure_concepts. revert f.
  induction all_concepts as [|c cs IH]; intro f; simpl.
  - exists []. rewrite app_nil_r.
    split; [reflexivity|]. split; [reflexivity|]. split.
    { rewrite <- (map_id (df_values f)) at 1. apply map_ext.
      intro row. simpl. now rewrite app_nil_r. }
    split; [constructor|]. intro c. simpl. tauto.
  - destruct (mem_string c (df_columns f)) eqn:Ec.
    + destruct (IH f) as (added & Hi & Hc & Hv & Hnd & Hin).
      exists added. split; [assumption|]. split; [assumption|].
      split; [assumption|]. split; [assumption|].
      intro c'. rewrite Hin. split.
      * intros [Hcs Hn]. split; [now right|assumption].
      * intros [[<-|Hcs] Hn]; [|auto].
        apply mem_string_In in Ec. contradiction.
    + destruct (IH (add_column f c (Some 0)))
        as (added & Hi & Hc & Hv & Hnd & Hin).
      simpl in Hi, Hc, Hv, Hin.
      assert (Hcn : ~ In c (df_columns f)).
      { intro Hc'. apply mem_string_In in Hc'. congruence. }
      exists (c :: added). split; [assumption|]. split.
      { rewrite Hc, <- app_assoc. reflexivity. }
      split.
      { rewrite Hv, map_map. apply map_ext. intro row.
        now rewrite <- app_assoc. }
      split.
      { constructor; [|assumption]. intro Hc'. apply Hin in Hc'.
        destruct Hc' as [_ Hn]. apply Hn, in_or_app. right. now left. }
      intro c'. simpl. rewrite Hin. split.
      * intros [<-|[Hcs Hn]]; [auto|]. split; [auto|].
        intro Hc'. apply Hn, in_or_app. now left.
      * intros [[<-|Hcs] Hn]; [now left|].
        destruct (string_dec c c') as [->|Hne]; [now left|right].
        split; [assumption|]. intro Hc'. apply in_app_or in Hc'.
        destruct Hc' as [Hc'|[Hc'|[]]]; auto.
Qed.

Lemma sum_bounds (lo hi : Q) (l : list Q) :
  (forall x, In x l -> lo <= x <= hi) ->
  inject_Z (Z.of_nat (length l)) * lo <= fold_right Qplus 0 l
  /\ fold_right Qplus 0 l <= inject_Z (Z.of_nat (length l)) * hi.
Proof.
  induction l as [|x l IH]; intro Hb.
  - simpl. change (inject_Z 0) with 0. rewrite !Qmult_0_l.
    split; apply Qle_refl.
  - assert (Hx : lo <= x <= hi) by (apply Hb; now left).
    destruct IH as [IH1 IH2]; [intros; apply Hb; now right|].
    change (length (x :: l)) with (S (length l)).
    rewrite Nat2Z.inj_succ. unfold Z.succ. rewrite inject_Z_plus.
    simpl fold_right. change (inject_Z 1) with 1.
    set (n := inject_Z (Z.of_nat (length l))) in *.
    assert (E1 : (n + 1) * lo == n * lo + lo) by ring.
    assert (E2 : (n + 1) * hi == n * hi + hi) by ring.
    rewrite E1, E2. lra.
Qed.

(** A mean lies between the bounds of what it averages. *)
Lemma mean_bounds (lo hi m : Q) (l : list Q) :
  (forall x, In x l -> lo <= x <= hi) ->
  mean l = Some m -> lo <= m <= hi.
Proof.
  intros Hb Hm. destruct l as [|x l]; [discriminate|].
  unfold mean in Hm. inversion Hm; subst; clear Hm.
  destruct (sum_bounds lo hi (x :: l) Hb) as [H1 H2].
  set (n := inject_Z (Z.of_nat (length (x :: l)))) in *.
  assert (Hn : 0 < n).
  { unfold n. change 0 with (inject_Z 0). rewrite <- Zlt_Qlt.
    simpl length. lia. }
  split.
  - apply Qle_shift_div_l; [assumption|]. now rewrite Qmult_comm.
  - apply Qle_shift_div_r; [assumption|]. now rewrite Qmult_comm.
Qed.

(** The frame that [create_student_vectors] builds, cell by cell. *)
Lemma create_student_vectors_frame (student_concept_df : list feature_row)
    (all_concepts : list concept_id) (self : SimilarityEngine) :
  let index := sorted_unique (map fr_student_id student_concept_df) in
  let columns := sorted_unique (map fr_concept_id student_concept_df) in
  let fill := fun cell : option Q =>
                match cell with Some y => y | None => 0 end in
  exists added,
    NoDup added
    /\ (forall c, In c added <-> In c all_concepts /\ ~ In c columns)
    /\ create_student_vectors student_concept_df all_concepts self
       = (Ok {| df_index := index;
                df_columns := columns ++ added;
                df_values :=
                  map (fun s =>
                         map fill
                           (map (fun c =>
                                   mean (scores_of student_concept_df s c))
                              columns
                            ++ map (fun _ => Some 0) added))
                    index |},
          with_student_vectors self
            {| df_index := index;
               df_columns := columns ++ added;
               df_values :=
                 map (fun s =>
                        map fill
                          (map (fun c =>
                                  mean (scores_of student_concept_df s c))
                             columns
                           ++ map (fun _ => Some 0) added))
                   index |}).
Proof.
  intros index columns fill.
  destruct (ensure_concepts_spec all_concepts
              (pivot_table student_concept_df))
    as (added & Hi & Hc & Hv & Hnd & Hin).
  exists added. split; [assumption|]. split; [exact Hin|].
  unfold create_student_vectors, bind, set_student_vectors, ret,
    with_student_vectors. cbv zeta.
  assert (E : fillna 0 (ensure_concepts all_concepts
                          (pivot_table student_concept_df))
              = {| df_index := index;
                   df_columns := columns ++ added;
                   df_values :=
                     map (fun s =>
                            map fill
                              (map (fun c =>
                                      mean (scores_of student_concept_df s c))
                                 columns
                               ++ map (fun _ => Some 0) added))
                       index |}).
  { unfold fillna. rewrite Hi, Hc, Hv. simpl. f_equal.
    rewrite !map_map. reflexivity. }
  now rewrite E.
Qed.


(** X2. In the vectors that [create_student_vectors] builds, the cell of a
    student and a concept is the mean of the mastery scores of the
    student's records on that concept, and 0 when there is none; so every
    cell is in [0,100] when every score is. *)
Theorem create_student_vectors_cells (student_concept_df : list feature_row)
    (all_concepts : list concept_id) (self : SimilarityEngine) :
  exists v,
    create_student_vectors student_concept_df all_concepts self
    = (Ok v, with_student_vectors self v)
    /\ (forall s c,
          In s (df_index v) -> In c (df_columns v) ->
          loc v s c
          = Some (match mean (scores_of student_concept_df s c) with
                  | Some m => m
                  | None => 0
                  end))
    /\ (forall s c,
          In s (df_index v) -> In c (df_columns v) ->
          scores_of student_concept_df s c = [] -> loc v s c = Some 0)
    /\ ((forall r, In r student_concept_df ->
           0 <= fr_mastery_score r <= 100) ->
        forall s c x, loc v s c = Some x -> 0 <= x <= 100).
Proof.
  destruct (create_student_vectors_frame student_concept_df all_concepts self)
    as (added & Hnd & Hin & Hrun).
  set (index := sorted_unique (map fr_student_id student_concept_df)) in *.
  set (columns := sorted_unique (map fr_concept_id student_concept_df)) in *.
  eexists. split; [exact Hrun|].
  assert (Hcell : forall s c,
    In s index -> In c (columns ++ added) ->
    loc {| df_index := index;
           df_columns := columns ++ added;
           df_values :=
             map (fun s =>
                    map (fun cell : option Q =>
                           match cell with Some y => y | None => 0 end)
                      (map (fun c => mean (scores_of student_concept_df s c))
                         columns
                       ++ map (fun _ => Some 0) added))
               index |} s c
    = Some (match mean (scores_of student_concept_df s c) with
            | Some m => m
            | None => 0
            end)).
  { intros s c Hs Hc. unfold loc. simpl.
    rewrite (proj2 (mem_string_In s index) Hs).
    rewrite (proj2 (mem_string_In c (columns ++ added)) Hc). simpl.
    rewrite nth_error_map.
    rewrite (nth_error_nth' index ""%string (get_loc_lt s index Hs)).
    rewrite (nth_get_loc s index ""%string Hs). simpl.
    rewrite nth_error_map.
    destruct (in_dec string_dec c columns) as [Hcol|Hncol].
    - rewrite (get_loc_app_l c columns added Hcol).
      rewrite nth_error_app1
        by (rewrite length_map; now apply get_loc_lt).
      rewrite nth_error_map.
      rewrite (nth_error_nth' columns ""%string (get_loc_lt c columns Hcol)).
      rewrite (nth_get_loc c columns ""%string Hcol). reflexivity.
    - apply in_app_or in Hc. destruct Hc as [Hc|Hc]; [contradiction|].
      rewrite (get_loc_app_r c columns added Hncol).
      rewrite nth_error_app2 by (rewrite length_map; lia).
      rewrite length_map.
      replace (length columns + get_loc c added - length columns)%nat
        with (get_loc c added) by lia.
      rewrite nth_error_map.
      rewrite (nth_error_nth' added ""%string (get_loc_lt c added Hc)).
      simpl.
      assert (E : scores_of student_concept_df s c = []).
      { unfold scores_of.
        replace (filter _ student_concept_df) with (@nil feature_row);
          [reflexivity|].
        symmetry. apply filter_nil_iff. intros r Hr.
        apply andb_false_iff. right. apply String.eqb_neq. intro E.
        apply Hncol. unfold columns. apply sorted_unique_In.
        rewrite <- E. now apply in_map. }
      now rewrite E. }
  split; [exact Hcell|]. split.
  - intros s c Hs Hc E. simpl in Hs, Hc.
    rewrite (Hcell s c Hs Hc), E. reflexivity.
  - intros Hb s c x Hloc.
    assert (Hsc : In s index /\ In c (columns ++ added)).
    { unfold loc in Hloc. simpl in Hloc.
      destruct (mem_string s index) eqn:Es; [|discriminate].
      destruct (mem_string c (columns ++ added)) eqn:Ec; [|discriminate].
      split; now apply mem_string_In. }
    destruct Hsc as [Hs Hc]. rewrite (Hcell s c Hs Hc) in Hloc.
    inversion Hloc; subst; clear Hloc.
    destruct (mean (scores_of student_concept_df s c)) as [m|] eqn:Em;
      [|lra].
    apply (mean_bounds 0 100 m _) in Em; [assumption|].
    intros y Hy. unfold scores_of in Hy. apply in_map_iff in Hy.
    destruct Hy as (r & <- & Hr). apply filter_In in Hr. now apply Hb.
Qed.

(* ================================================================== *)
(** * Similarity engine: errors and the cached matrix *)
(* ================================================================== *)

Section CacheFacts.
Context `{SK : Sklearn}.

(** With a cached matrix, the answer depends on the index and on that
    matrix only, and the engine is left as it is. *)
Lemma find_similar_students_cached (self1 self2 : SimilarityEngine)
    (v1 v2 : frame Q) (m : matrix) (sid : student_id) (top_k : Z)
    (top_n : option Z) :
  student_vectors self1 = Some v1 ->
  student_vectors self2 = Some v2 ->
  df_index v1 = df_index v2 ->
  similarity_matrix self1 = Some m ->
  similarity_matrix self2 = Some m ->
  fst (find_similar_students sid top_k top_n self1)
  = fst (find_similar_students sid top_k top_n self2)
  /\ snd (find_similar_students sid top_k top_n self1) = self1.
Proof.
  intros Hv1 Hv2 Hi Hm1 Hm2. split.
  - unfold find_similar_students, bind, get_self, attr, subscriptable, lift,
      ret, raise.
    rewrite Hm1, Hm2, Hv1, Hv2, Hm1, Hm2, Hi.
    destruct (negb (mem_string sid (df_index v2))); [reflexivity|].
    destruct (nth_error m (get_loc sid (df_index v2))); [|reflexivity].
    destruct (peer_scores _ _ _ _); reflexivity.
  - rewrite find_similar_students_state. now rewrite Hm1.
Qed.

Lemma find_similar_students_never_built (sid : student_id) (top_k : Z)
    (top_n : option Z) (self : SimilarityEngine) :
  reachable self -> student_vectors self = None ->
  find_similar_students sid top_k top_n self
  = (Raise (ValueError not_initialized), self).
Proof.
  intros Hreach Hv.
  pose proof (reachable_matrix_needs_vectors self Hreach Hv) as Hm.
  unfold find_similar_students, bind at 1, get_self. rewrite Hm.
  unfold bind at 1. unfold bind at 1.
  rewrite (compute_similarity_raises self (or_introl Hv)). reflexivity.
Qed.

Lemma find_similar_students_not_found (sid : student_id) (top_k : Z)
    (top_n : option Z) (self : SimilarityEngine) (v : frame Q) :
  coherent self v -> ~ In sid (df_index v) ->
  find_similar_students sid top_k top_n self
  = (Raise (ValueError (not_found sid)),
     with_similarity_matrix self (cosine_similarity (df_values v))).
Proof.
  intros (Hv & Hnd & Hlen & Hne & Hm) Hnin.
  assert (Hmem : mem_string sid (df_index v) = false).
  { destruct (mem_string sid (df_index v)) eqn:E; [|reflexivity].
    apply mem_string_In in E. contradiction. }
  unfold find_similar_students, bind at 1, get_self.
  destruct Hm as [Hm|Hm]; rewrite Hm.
  - unfold bind at 1. unfold bind at 1.
    rewrite (compute_similarity_ok self v Hv Hne).
    unfold ret at 1. unfold bind, attr, ret, raise, get_self. simpl.
    rewrite Hv. simpl. now rewrite Hmem.
  - unfold bind, attr, ret, raise, get_self. simpl.
    rewrite Hv. simpl. rewrite Hmem. simpl.
    f_equal. destruct self; simpl in *. unfold with_similarity_matrix.
    simpl. now rewrite Hm.
Qed.

(** X3. [find_similar_students] on an engine whose vectors were never
    built raises the initialization [ValueError] and changes nothing; on an
    engine with vectors, a student that is not in the index gets the
    not-found [ValueError], raised after the similarity matrix was computed
    and cached. *)
Theorem find_similar_students_errors (sid : student_id) (top_k : Z)
    (top_n : option Z) (self : SimilarityEngine) :
  (reachable self -> student_vectors self = None ->
   find_similar_students sid top_k top_n self
   = (Raise (ValueError not_initialized), self))
  /\ (forall v,
        coherent self v -> ~ In sid (df_index v) ->
        find_similar_students sid top_k top_n self
        = (Raise (ValueError (not_found sid)),
           with_similarity_matrix self (cosine_similarity (df_values v)))).
Proof.
  split.
  - apply find_similar_students_never_built.
  - intro v. apply find_similar_students_not_found.
Qed.

(** X5. Rebuilding the vectors does not clear the cached matrix: after
    [create_student_vectors] on records of the same students,
    [find_similar_students] answers from the old matrix what it answered
    before, whatever the new scores are. *)
Theorem rebuilt_vectors_keep_stale_matrix (self : SimilarityEngine)
    (v : frame Q) (m : matrix) (student_concept_df : list feature_row)
    (all_concepts : list concept_id) (sid : student_id) (top_k : Z)
    (top_n : option Z) :
  student_vectors self = Some v ->
  similarity_matrix self = Some m ->
  sorted_unique (map fr_student_id student_concept_df) = df_index v ->
  let rebuilt :=
    snd (create_student_vectors student_concept_df all_concepts self) in
  similarity_matrix rebuilt = Some m
  /\ fst (find_similar_students sid top_k top_n rebuilt)
     = fst (find_similar_students sid top_k top_n self)
  /\ snd (find_similar_students sid top_k top_n rebuilt) = rebuilt.
Proof.
  intros Hv Hm Hindex rebuilt.
  destruct (create_student_vectors_eval student_concept_df all_concepts self)
    as (v' & Hrun & Hi & _).
  assert (Er : rebuilt = with_student_vectors self v')
    by (unfold rebuilt; now rewrite Hrun).
  assert (Hm' : similarity_matrix rebuilt = Some m)
    by (rewrite Er; exact Hm).
  assert (Hv' : student_vectors rebuilt = Some v') by now rewrite Er.
  split; [exact Hm'|].
  apply (find_similar_students_cached rebuilt self v' v m); auto.
  now rewrite Hi.
Qed.

End CacheFacts.

Lemma dict_set_fresh {V} (d : dict string V) (k : string) (v : V) :
  ~ In k (dict_keys d) -> dict_set String.eqb d k v = d ++ [(k, v)].
Proof.
  unfold dict_keys. induction d as [|[k0 v0] d IH]; simpl; intro Hn;
    [reflexivity|].
  destruct (String.eqb k0 k) eqn:E.
  - apply String.eqb_eq in E. exfalso. auto.
  - rewrite IH; auto.
Qed.

Lemma loc_items_ok (v : frame Q) (peer_id : student_id) :
  length (df_values v) = length (df_index v) ->
  In peer_id (df_index v) ->
  exists row,
    nth_error (df_values v) (get_loc peer_id (df_index v)) = Some row
    /\ loc_items v peer_id = Ok (combine (df_columns v) row).
Proof.
  intros Hlen Hin. unfold loc_items.
  rewrite (proj2 (mem_string_In _ _) Hin).
  destruct (nth_error (df_values v) (get_loc peer_id (df_index v)))
    as [row|] eqn:E.
  - exists row. auto.
  - exfalso. apply nth_error_None in E.
    pose proof (get_loc_lt peer_id (df_index v) Hin). lia.
Qed.

(** On peers of the index, each once, the loop adds one entry per peer, in
    order. *)
Lemma peer_patterns_loop_ok (v : frame Q) (mastery_threshold : Q)
    (similar_students : list (student_id * Q))
    (acc : dict student_id peer_info) :
  length (df_values v) = length (df_index v) ->
  (forall p, In p similar_students -> In (fst p) (df_index v)) ->
  NoDup (map fst similar_students) ->
  (forall p, In p similar_students -> ~ In (fst p) (dict_keys acc)) ->
  exists patterns,
    peer_patterns_loop v mastery_threshold similar_students acc
    = Ok (acc ++ patterns)
    /\ map (fun e => (fst e, pi_similarity (snd e))) patterns
       = similar_students
    /\ Forall (fun e => strong_concepts_of v mastery_threshold (fst e) (snd e))
         patterns.
Proof.
  intros Hlen. revert acc.
  induction similar_students as [|[peer sim] rest IH];
    intros acc Hin Hnd Hfresh; simpl.
  - exists []. rewrite app_nil_r. repeat split. constructor.
  - destruct (loc_items_ok v peer Hlen (Hin (peer, sim) (or_introl eq_refl)))
      as (row & _ & Eitems).
    rewrite Eitems.
    rewrite dict_set_fresh by (apply (Hfresh (peer, sim)); now left).
    inversion Hnd as [|? ? Hpeer Hnd']; subst.
    set (info := {| pi_similarity := sim; pi_strong_concepts := _ |}).
    destruct (IH (acc ++ [(peer, info)])) as (patterns & Hrun & Hsim & Hsc).
    + intros p Hp. apply Hin. now right.
    + assumption.
    + intros p Hp Hk. unfold dict_keys in Hk. rewrite map_app in Hk.
      apply in_app_or in Hk. destruct Hk as [Hk|[Hk|[]]].
      * apply (Hfresh p); [now right|exact Hk].
      * simpl in Hk. apply Hpeer. rewrite Hk. now apply in_map.
    + exists ((peer, info) :: patterns). split; [|split].
      * rewrite Hrun, <- app_assoc. reflexivity.
      * simpl. now rewrite Hsim.
      * constructor; [|assumption]. simpl.
        exists (combine (df_columns v) row). split; [assumption|reflexivity].
Qed.

Section CoherentRuns.
Context `{SK : Sklearn}.
Hypothesis shape : cosine_shape.

Lemma find_similar_students_peers (self : SimilarityEngine) (v : frame Q)
    (sid : student_id) (top_k : Z) :
  coherent self v ->
  In sid (df_index v) ->
  (0 <= top_k)%Z ->
  exists similar,
    find_similar_students sid top_k None self
    = (Ok similar,
       with_similarity_matrix self (cosine_similarity (df_values v)))
    /\ (Z.of_nat (length similar) <= top_k)%Z
    /\ ~ In sid (map fst similar)
    /\ (forall p, In p similar -> In (fst p) (df_index v))
    /\ NoDup (map fst similar).
Proof.
  intros Hc Hin Hk.
  destruct (find_similar_students_eval shape self v sid top_k None Hc Hin)
    as (row & _ & Hrow & Hrun).
  destruct Hc as (Hv & Hnd & Hlen & Hne & Hm).
  pose proof (get_loc_lt sid (df_index v) Hin) as Hloc.
  eexists. split; [exact Hrun|].
  assert (Hpeers : peer_scores (df_index v) (get_loc sid (df_index v))
                     (enumerate row) []
                   = Ok (peers_of (df_index v) (get_loc sid (df_index v))
                           (enumerate row))).
  { rewrite peer_scores_ok; [reflexivity|].
    rewrite <- Hrow. apply enumerate_bound. }
  destruct (ranked_results_facts (df_index v) sid row _ top_k Hnd Hin Hk
              Hpeers) as (H1 & H2 & H3 & _).
  split; [exact H1|]. split; [exact H2|]. split; [exact H3|].
  rewrite (slice_to_firstn top_k _ Hk), <- firstn_map. apply NoDup_firstn.
  apply (Permutation_NoDup
           (Permutation_map fst
              (Permutation_sym (sort_by_similarity_perm _)))).
  apply (peers_nodup (df_index v) (get_loc sid (df_index v))
           (enumerate row) Hnd (enumerate_sorted row)
           (enumerate_in_range _ _ row Hrow)).
Qed.

(** X4. The similarity matrix is computed on the first query and cached:
    on an engine with vectors, [find_similar_students] leaves the matrix of
    the current vectors in the engine and the vectors as they are, and the
    same query on the engine it leaves gives the same answer and changes
    nothing. *)
Theorem find_similar_students_caches (self : SimilarityEngine) (v : frame Q)
    (sid : student_id) (top_k : Z) (top_n : option Z) :
  coherent self v ->
  In sid (df_index v) ->
  exists results self',
    find_similar_students sid top_k top_n self = (Ok results, self')
    /\ similarity_matrix self' = Some (cosine_similarity (df_values v))
    /\ student_vectors self' = Some v
    /\ find_similar_students sid top_k top_n self' = (Ok results, self').
Proof.
  intros Hc Hin.
  destruct (find_similar_students_eval shape self v sid top_k top_n Hc Hin)
    as (row & Erow & _ & Hrun).
  destruct (find_similar_students_eval shape _ v sid top_k top_n
              (coherent_step self v Hc) Hin) as (row' & Erow' & _ & Hrun').
  rewrite Erow in Erow'. inversion Erow'; subst row'.
  eexists. eexists. split; [exact Hrun|].
  split; [reflexivity|]. split; [apply Hc|]. exact Hrun'.
Qed.

(** The run of [analyze_peer_patterns] on a coherent engine. *)
Lemma analyze_peer_patterns_run (self : SimilarityEngine) (v : frame Q)
    (sid : student_id) (top_k : Z) (mastery_threshold : Q)
    (similar : list (student_id * Q)) :
  coherent self v ->
  find_similar_students sid top_k None self
  = (Ok similar,
     with_similarity_matrix self (cosine_similarity (df_values v))) ->
  (forall p, In p similar -> In (fst p) (df_index v)) ->
  NoDup (map fst similar) ->
  exists patterns,
    analyze_peer_patterns sid top_k mastery_threshold self
    = (Ok patterns,
       with_similarity_matrix self (cosine_similarity (df_values v)))
    /\ map (fun e => (fst e, pi_similarity (snd e))) patterns = similar
    /\ Forall (fun e => strong_concepts_of v mastery_threshold (fst e) (snd e))
         patterns.
Proof.
  intros (Hv & _ & Hvlen & _) Hfind Hidx Hnd.
  destruct (peer_patterns_loop_ok v mastery_threshold similar [] Hvlen Hidx Hnd)
    as (patterns & Hloop & Hsim & Hsc); [intros ? ? []|].
  simpl in Hloop. exists patterns. split; [|split; assumption].
  unfold analyze_peer_patterns, bind at 1. rewrite Hfind.
  destruct similar as [|p rest].
  - destruct patterns; [reflexivity|discriminate].
  - unfold bind, get_self, attr, lift, ret, with_similarity_matrix.
    cbn [student_vectors]. rewrite Hv. now rewrite Hloop.
Qed.

(** X6. On an engine with vectors, for a student of the index and
    [top_k >= 0], [analyze_peer_patterns] returns one entry per peer that
    [find_similar_students] returns, in the same order and with the same
    similarity, so at most [top_k] entries and none for the student
    itself; every entry has at most five strong concepts, each a column of
    the vectors with a mastery score >= the threshold. *)
Theorem analyze_peer_patterns_entries (self : SimilarityEngine) (v : frame Q)
    (sid : student_id) (top_k : Z) (mastery_threshold : Q) :
  coherent self v ->
  In sid (df_index v) ->
  (0 <= top_k)%Z ->
  exists similar peer_patterns self',
    find_similar_students sid top_k None self = (Ok similar, self')
    /\ analyze_peer_patterns sid top_k mastery_threshold self
       = (Ok peer_patterns, self')
    /\ map (fun e => (fst e, pi_similarity (snd e))) peer_patterns = similar
    /\ (Z.of_nat (length peer_patterns) <= top_k)%Z
    /\ (forall peer info,
          In (peer, info) peer_patterns ->
          peer <> sid
          /\ In peer (df_index v)
          /\ (length (pi_strong_concepts info) <= 5)%nat
          /\ (forall sc, In sc (pi_strong_concepts info) ->
                mastery_threshold <= sc_mastery_score sc
                /\ In (sc_concept_id sc) (df_columns v))).
Proof.
  intros Hc Hin Hk.
  destruct (find_similar_students_peers self v sid top_k Hc Hin Hk)
    as (similar & Hfind & Hlen & Hself & Hidx & Hnd).
  pose proof Hc as (Hv & _ & Hvlen & _).
  destruct (analyze_peer_patterns_run self v sid top_k mastery_threshold
              similar Hc Hfind Hidx Hnd) as (patterns & Hrun & Hsim & Hsc).
  exists similar, patterns,
    (with_similarity_matrix self (cosine_similarity (df_values v))).
  split; [exact Hfind|].
  split; [exact Hrun|]. split; [exact Hsim|]. split.
  { rewrite <- (length_map (fun e => (fst e, pi_similarity (snd e)))), Hsim.
    exact Hlen. }
  intros peer info Hpi.
  assert (Hp : In (peer, pi_similarity info) similar).
  { rewrite <- Hsim.
    apply (in_map (fun e => (fst e, pi_similarity (snd e))) _ _ Hpi). }
  rewrite Forall_forall in Hsc.
  destruct (Hsc _ Hpi) as (items & Hitems & Hstrong).
  cbn [fst snd] in Hitems, Hstrong.
  split.
  { intros ->. apply Hself. apply (in_map fst) in Hp. exact Hp. }
  split; [apply (Hidx _ Hp)|]. split.
  { rewrite Hstrong. apply firstn_le_length. }
  intros sc Hin_sc. rewrite Hstrong in Hin_sc. apply firstn_incl in Hin_sc.
  apply in_map_iff in Hin_sc. destruct Hin_sc as ([c x] & <- & Hcx).
  apply filter_In in Hcx. destruct Hcx as [Hcx Hge].
  cbn [fst snd sc_mastery_score sc_concept_id] in *.
  split; [now apply Qle_bool_iff|].
  destruct (loc_items_ok v peer Hvlen (Hidx _ Hp)) as (row & _ & Eitems).
  rewrite Eitems in Hitems. inversion Hitems; subst items.
  now apply in_combine_l in Hcx.
Qed.

End CoherentRuns.

(* ================================================================== *)
(** * Recommendation engine: the study schedule *)
(* ================================================================== *)

Lemma create_study_schedule_days (recommendations : list recommendation)
    (learning_style : string) :
  create_study_schedule recommendations learning_style
  = combine days
      (map (fun i =>
              option_list
                (option_map schedule_entry_of (nth_error recommendations i)))
         (seq 0 7)).
Proof.
  destruct recommendations as [|r0 [|r1 [|r2 [|r3 [|r4 [|r5 [|r6 rest]]]]]]];
    reflexivity.
Qed.

(** X11. [create_study_schedule] returns the seven days from Monday to
    Sunday, in order; the day number i holds the recommendation number i
    alone when there is one and is empty otherwise, so at most seven
    recommendations are scheduled, one per day, and the learning style
    changes nothing. *)
Theorem create_study_schedule_one_per_day
    (recommendations : list recommendation) (learning_style : string) :
  dict_keys (create_study_schedule recommendations learning_style) = days
  /\ (forall i, (i < 7)%nat ->
        nth i (dict_values
                 (create_study_schedule recommendations learning_style)) []
        = option_list
            (option_map schedule_entry_of (nth_error recommendations i)))
  /\ length (concat (dict_values
                       (create_study_schedule recommendations learning_style)))
     = Nat.min 7 (length recommendations)
  /\ (forall other_style,
        create_study_schedule recommendations other_style
        = create_study_schedule recommendations learning_style).
Proof.
  rewrite !create_study_schedule_days. split; [reflexivity|]. split; [|split].
  - intros i Hi.
    do 7 (destruct i as [|i]; [reflexivity|]). lia.
  - destruct recommendations
      as [|r0 [|r1 [|r2 [|r3 [|r4 [|r5 [|r6 rest]]]]]]]; reflexivity.
  - intro other. now rewrite create_study_schedule_days.
Qed.

(* ================================================================== *)
(** * Recommendation engine: the two sources *)
(* ================================================================== *)




Lemma sort_by_rating_sorted (l : list resource) :
  StronglySorted (fun a b => rs_rating b <= rs_rating a) (sort_by_rating l).
Proof.
  unfold sort_by_rating.
  set (before := fun a b : resource => Qltb (rs_rating b) (rs_rating a)).
  assert (Hasym : forall a b, before a b = true -> before b a = false).
  { intros a b. unfold before. rewrite Qltb_lt, Qltb_ge. lra. }
  assert (Hneg : forall a b c, before a c = true ->
                   before a b = true \/ before b c = true).
  { intros a b c. unfold before. rewrite !Qltb_lt. intro Hca.
    destruct (Qlt_le_dec (rs_rating b) (rs_rating a)); [now left|right; lra]. }
  pose proof (stable_sort_sorted before Hasym Hneg (fun _ _ => True) l
                (StronglySorted_True l)) as Hs.
  revert Hs. apply StronglySorted_impl.
  intros a b [Hab|[Hba _]]; unfold before in *.
  - apply Qltb_lt in Hab. lra.
  - now apply Qltb_ge in Hba.
Qed.






Lemma behavior_step_best (self : RecommendationEngine)
    (sid peer_id : student_id) (similarity : Q) (sc : strong_concept)
    (rec : recommendation) :
  In rec (behavior_step self sid peer_id similarity sc) ->
  exists best,
    rec = behavior_recommendation peer_id similarity (sc_concept_id sc) best
    /\ In best (resources self)
    /\ rs_concept_id best = sc_concept_id sc
    /\ (forall r, In r (resources self) ->
          rs_concept_id r = sc_concept_id sc ->
          rs_rating r <= rs_rating best)
    /\ already_mastered self sid (sc_concept_id sc) = false.
Proof.
  unfold behavior_step.
  destruct (already_mastered self sid (sc_concept_id sc)); [intros []|].
  destruct (sort_by_rating _) as [|best rest] eqn:Es; [intros []|].
  intros [<-|[]]. exists best.
  assert (Hmem : forall r,
            In r (best :: rest) <->
            In r (resources self) /\ rs_concept_id r = sc_concept_id sc).
  { intro r. rewrite <- Es. unfold sort_by_rating.
    rewrite stable_sort_in, filter_In, String.eqb_eq. reflexivity. }
  pose proof (sort_by_rating_sorted
                (filter (fun r => String.eqb (rs_concept_id r) (sc_concept_id sc))
                   (resources self))) as Hs.
  rewrite Es in Hs. inversion Hs as [|? ? _ Hbest]; subst.
  split; [reflexivity|].
  destruct (proj1 (Hmem best) (or_introl eq_refl)) as [Hin Hid].
  repeat split; try assumption.
  intros r Hr Hrid.
  destruct (proj2 (Hmem r) (conj Hr Hrid)) as [<-|Hrest]; [apply Qle_refl|].
  rewrite Forall_forall in Hbest. now apply Hbest.
Qed.

Lemma flat_map_length_le {A B} (f : A -> list B) (l : list A) :
  (forall x, (length (f x) <= 1)%nat) ->
  (length (flat_map f l) <= length l)%nat.
Proof.
  intro Hf. induction l as [|x l IH]; simpl; [lia|].
  rewrite length_app. specialize (Hf x). lia.
Qed.

(** X10. Every behavior-based recommendation comes from a strong concept
    of one of the peers of the patterns, which the student has not
    mastered at 80 or more, and proposes a resource of that concept with
    the highest rating of the catalogue for it.  There is at most one
    recommendation per peer strong concept, and the list of similar
    students passed alongside plays no part. *)
Theorem get_behavior_based_recommendations_best
    (self : RecommendationEngine) (sid : student_id)
    (similar_students : list (student_id * Q))
    (peer_patterns : dict student_id peer_info) :
  Forall
    (fun rec =>
       exists peer_id info sc best,
         In (peer_id, info) (dict_items peer_patterns)
         /\ In sc (pi_strong_concepts info)
         /\ rec = behavior_recommendation peer_id (pi_similarity info)
                    (sc_concept_id sc) best
         /\ In best (resources self)
         /\ rs_concept_id best = sc_concept_id sc
         /\ (forall r, In r (resources self) ->
               rs_concept_id r = sc_concept_id sc ->
               rs_rating r <= rs_rating best)
         /\ already_mastered self sid (sc_concept_id sc) = false)
    (get_behavior_based_recommendations self sid similar_students
       peer_patterns)
  /\ (length (get_behavior_based_recommendations self sid similar_students
                peer_patterns)
      <= length (flat_map (fun item => pi_strong_concepts (snd item))
                   (dict_items peer_patterns)))%nat
  /\ (forall other_students,
        get_behavior_based_recommendations self sid other_students
          peer_patterns
        = get_behavior_based_recommendations self sid similar_students
            peer_patterns).
Proof.
  rewrite get_behavior_based_recommendations_flat. split; [|split].
  - apply Forall_forall. intros rec Hrec.
    apply in_flat_map in Hrec. destruct Hrec as ([peer_id info] & Hitem & Hrec).
    apply in_flat_map in Hrec. destruct Hrec as (sc & Hsc & Hrec).
    cbn [fst snd] in *.
    destruct (behavior_step_best self sid peer_id (pi_similarity info) sc rec
                Hrec) as (best & H).
    exists peer_id, info, sc, best. unfold dict_items. tauto.
  - unfold dict_items.
    induction peer_patterns as [|item items IH]; simpl; [lia|].
    rewrite !length_app.
    pose proof (flat_map_length_le
                  (behavior_step self sid (fst item) (pi_similarity (snd item)))
                  (pi_strong_concepts (snd item))) as Hle.
    assert (Hone : forall x,
              (length (behavior_step self sid (fst item)
                         (pi_similarity (snd item)) x) <= 1)%nat).
    { intro x. unfold behavior_step.
      destruct (already_mastered _ _ _); [simpl; lia|].
      destruct (sort_by_rating _); simpl; lia. }
    specialize (Hle Hone). lia.
  - intro other. now rewrite get_behavior_based_recommendations_flat.
Qed.

(* ================================================================== *)
(** * Recommendation engine: the runs of the plan *)
(* ================================================================== *)

Lemma filter_andb {A} (f g : A -> bool) (l : list A) :
  filter g (filter f l) = filter (fun x => f x && g x) l.
Proof.
  induction l as [|x l IH]; simpl; [reflexivity|].
  destruct (f x); simpl; [|assumption].
  destruct (g x); now rewrite IH.
Qed.

Lemma get_weak_concepts_some (sid : student_id)
    (student_features : list feature_row) :
  (exists r, In r student_features /\ fr_student_id r = sid) ->
  exists weak,
    get_weak_concepts sid student_features = Some weak
    /\ length weak
       = length (filter (fun r => String.eqb (fr_student_id r) sid
                                  && is_weak_level (fr_mastery_level r))
                   student_features).
Proof.
  intros (r & Hr & Hsid). unfold get_weak_concepts.
  destruct student_features as [|r0 rest] eqn:Ef; [destruct Hr|].
  rewrite <- Ef in *. clear Ef.
  destruct (filter (fun r => String.eqb (fr_student_id r) sid)
              student_features) as [|d ds] eqn:Ed.
  - pose proof (proj1 (filter_nil_iff _ _) Ed r Hr) as Hf. cbv beta in Hf.
    rewrite Hsid, String.eqb_refl in Hf. discriminate.
  - eexists. split; [reflexivity|].
    rewrite length_map. unfold sort_by_mastery_score.
    rewrite stable_sort_length, <- Ed. now rewrite filter_andb.
Qed.

Lemma get_weak_concepts_none (sid : student_id)
    (student_features : list feature_row) :
  (forall r, In r student_features -> fr_student_id r <> sid) ->
  get_weak_concepts sid student_features = None.
Proof.
  intro Hnone. unfold get_weak_concepts.
  destruct student_features as [|r0 rest] eqn:Ef; [reflexivity|].
  rewrite <- Ef in *. clear Ef.
  assert (Ed : filter (fun r => String.eqb (fr_student_id r) sid)
                 student_features = []).
  { apply filter_nil_iff. intros r Hr. apply String.eqb_neq. now apply Hnone. }
  now rewrite Ed.
Qed.

Section PlanRuns.
Context `{SK : Sklearn}.

(** The plan, given the answers of the similarity engine. *)
Lemma generate_personalized_plan_run (self : RecommendationEngine)
    (sid : student_id) (engine engine1 engine2 : SimilarityEngine)
    (similar_students : list (student_id * Q))
    (peer_patterns : dict student_id peer_info) :
  find_similar_students sid default_top_k None engine
  = (Ok similar_students, engine1) ->
  analyze_peer_patterns sid default_top_k default_mastery_threshold engine1
  = (Ok peer_patterns, engine2) ->
  generate_personalized_plan self sid engine
  = match get_weak_concepts sid (student_features self) with
    | None => (Raise AttributeError, engine2)
    | Some weak =>
        match filter (fun s => String.eqb (sp_student_id s) sid)
                (student_profiles self) with
        | [] => (Raise IndexError, engine2)
        | s :: _ =>
            let recommendations :=
              dict_comprehension key_eqb rec_key
                (get_content_based_recommendations self sid weak 3
                 ++ get_behavior_based_recommendations self sid
                      similar_students peer_patterns) in
            (Ok {| lp_student_id := sid;
                   lp_learning_style := sp_learning_style s;
                   lp_weak_concepts_count := length weak;
                   lp_learning_path := create_learning_path self sid weak;
                   lp_recommendations :=
                     firstn 5 (dict_values recommendations);
                   lp_study_schedule :=
                     create_study_schedule (dict_values recommendations)
                       (sp_learning_style s) |},
             engine2)
        end
    end.
Proof.
  intros Hfind Hpat.
  unfold generate_personalized_plan, bind at 1. rewrite Hfind.
  unfold bind at 1. rewrite Hpat.
  unfold bind, attr, lift, ret, raise.
  destruct (get_weak_concepts sid (student_features self)); [|reflexivity].
  now destruct (filter _ (student_profiles self)).
Qed.

Hypothesis shape : cosine_shape.

(** The two calls of the plan to the similarity engine, on an engine with
    vectors and for a student of the index. *)
Lemma plan_engine_calls (engine : SimilarityEngine) (v : frame Q)
    (sid : student_id) :
  coherent engine v ->
  In sid (df_index v) ->
  exists similar_students peer_patterns,
    find_similar_students sid default_top_k None engine
    = (Ok similar_students,
       with_similarity_matrix engine (cosine_similarity (df_values v)))
    /\ analyze_peer_patterns sid default_top_k default_mastery_threshold
         (with_similarity_matrix engine (cosine_similarity (df_values v)))
       = (Ok peer_patterns,
          with_similarity_matrix engine (cosine_similarity (df_values v))).
Proof.
  intros Hc Hin.
  assert (Hk : (0 <= default_top_k)%Z) by (unfold default_top_k; lia).
  destruct (find_similar_students_peers shape engine v sid default_top_k
              Hc Hin Hk) as (similar & Hfind & _).
  pose proof (coherent_step engine v Hc) as Hc1.
  destruct (find_similar_students_peers shape _ v sid default_top_k
              Hc1 Hin Hk) as (similar1 & Hfind1 & _ & _ & Hidx & Hnd).
  destruct (analyze_peer_patterns_run _ v sid default_top_k
              default_mastery_threshold similar1 Hc1 Hfind1 Hidx Hnd)
    as (patterns & Hrun & _).
  exists similar, patterns. split; [exact Hfind|exact Hrun].
Qed.

(** X12. On an engine with vectors, the plan of a student who is in the
    vector index, has feature rows and has a profile is returned: it names
    the student, carries the learning style of the student's first profile
    row and the number of the student's Struggling or Beginner rows, holds
    at most five recommendations and a schedule over the seven days; the
    engine is left with the similarity matrix of its vectors. *)
Theorem generate_personalized_plan_ok (self : RecommendationEngine)
    (sid : student_id) (engine : SimilarityEngine) (v : frame Q) :
  coherent engine v ->
  In sid (df_index v) ->
  (exists r, In r (student_features self) /\ fr_student_id r = sid) ->
  (exists s, In s (student_profiles self) /\ sp_student_id s = sid) ->
  exists plan,
    generate_personalized_plan self sid engine
    = (Ok plan,
       with_similarity_matrix engine (cosine_similarity (df_values v)))
    /\ lp_student_id plan = sid
    /\ (exists s,
          find (fun s => String.eqb (sp_student_id s) sid)
            (student_profiles self) = Some s
          /\ lp_learning_style plan = sp_learning_style s)
    /\ lp_weak_concepts_count plan
       = length (filter (fun r => String.eqb (fr_student_id r) sid
                                  && is_weak_level (fr_mastery_level r))
                   (student_features self))
    /\ (length (lp_recommendations plan) <= 5)%nat
    /\ dict_keys (lp_study_schedule plan) = days.
Proof.
  intros Hc Hin Hrows (s & Hs & Hsid).
  destruct (plan_engine_calls engine v sid Hc Hin)
    as (similar & patterns & Hfind & Hpat).
  rewrite (generate_personalized_plan_run self sid _ _ _ _ _ Hfind Hpat).
  destruct (get_weak_concepts_some sid (student_features self) Hrows)
    as (weak & -> & Hweak).
  rewrite find_filter.
  destruct (filter (fun s => String.eqb (sp_student_id s) sid)
              (student_profiles self)) as [|s0 ss] eqn:Ep.
  { pose proof (proj1 (filter_nil_iff _ _) Ep s Hs) as Hf. cbv beta in Hf.
    rewrite Hsid, String.eqb_refl in Hf. discriminate. }
  cbv zeta. eexists. split; [reflexivity|].
  cbn [lp_student_id lp_learning_style lp_weak_concepts_count
       lp_recommendations lp_study_schedule].
  split; [reflexivity|]. split; [now exists s0|]. split; [exact Hweak|].
  split; [apply firstn_le_length|].
  now rewrite create_study_schedule_days.
Qed.

(** X13. The failures of the plan, in the order in which they are met.
    On an engine whose vectors were never built it raises the ValueError of
    the missing vectors and leaves the engine as it is.  On an engine with
    vectors it raises the ValueError naming the student when the student is
    not in the vector index, whatever the other tables hold; an
    AttributeError when the student is in the index but has no feature
    row; an IndexError when the student has feature rows but no profile.
    In these three cases the similarity matrix has been cached. *)
Theorem generate_personalized_plan_errors (self : RecommendationEngine)
    (sid : student_id) (engine : SimilarityEngine) :
  (reachable engine -> student_vectors engine = None ->
   generate_personalized_plan self sid engine
   = (Raise (ValueError not_initialized), engine))
  /\ (forall v,
        coherent engine v ->
        (~ In sid (df_index v) ->
         generate_personalized_plan self sid engine
         = (Raise (ValueError (not_found sid)),
            with_similarity_matrix engine
              (cosine_similarity (df_values v))))
        /\ (In sid (df_index v) ->
            (forall r, In r (student_features self) ->
               fr_student_id r <> sid) ->
            generate_personalized_plan self sid engine
            = (Raise AttributeError,
               with_similarity_matrix engine
                 (cosine_similarity (df_values v))))
        /\ (In sid (df_index v) ->
            (exists r, In r (student_features self)
                       /\ fr_student_id r = sid) ->
            (forall s, In s (student_profiles self) ->
               sp_student_id s <> sid) ->
            generate_personalized_plan self sid engine
            = (Raise IndexError,
               with_similarity_matrix engine
                 (cosine_similarity (df_values v))))).
Proof.
  split.
  { intros Hreach Hv. unfold generate_personalized_plan, bind at 1.
    now rewrite (find_similar_students_never_built sid default_top_k None
                   engine Hreach Hv). }
  intros v Hc. split; [|split].
  - intro Hnin. unfold generate_personalized_plan, bind at 1.
    now rewrite (find_similar_students_not_found sid default_top_k None
                   engine v Hc Hnin).
  - intros Hin Hnone.
    destruct (plan_engine_calls engine v sid Hc Hin)
      as (similar & patterns & Hfind & Hpat).
    rewrite (generate_personalized_plan_run self sid _ _ _ _ _ Hfind Hpat).
    now rewrite (get_weak_concepts_none sid (student_features self) Hnone).
  - intros Hin Hrows Hnone.
    destruct (plan_engine_calls engine v sid Hc Hin)
      as (similar & patterns & Hfind & Hpat).
    rewrite (generate_personalized_plan_run self sid _ _ _ _ _ Hfind Hpat).
    destruct (get_weak_concepts_some sid (student_features self) Hrows)
      as (weak & -> & _).
    assert (Ep : filter (fun s => String.eqb (sp_student_id s) sid)
                   (student_profiles self) = []).
    { apply filter_nil_iff. intros s Hs. apply String.eqb_neq.
      now apply Hnone. }
    now rewrite Ep.
Qed.

End PlanRuns.

Section PlanSchedule.
Context `{SK : Sklearn}.



End PlanSchedule.

(* ================================================================== *)
(** * The sample cohort, run through the engines *)
(* ================================================================== *)

Lemma find_similar_students_caches_witness :
  exists results self',
    find_similar_students (SK := Sample.sklearn) "s1" 5 None Sample.engine
    = (Ok results, self')
    /\ find_similar_students (SK := Sample.sklearn) "s1" 5 None self'
       = (Ok results, self').
Proof.
  destruct (find_similar_students_caches (SK := Sample.sklearn)
              sample_cosine_shape Sample.engine Sample.vectors "s1" 5 None
              sample_engine_coherent ltac:(simpl; auto))
    as (results & self' & H1 & _ & _ & H2).
  exists results, self'. auto.
Defined.

(** The records of the sample with other scores for the same students. *)
Lemma rebuilt_vectors_keep_stale_matrix_witness :
  fst (find_similar_students (SK := Sample.sklearn) "s1" 5 None
         (snd (create_student_vectors
                 [Sample.feature "s1" "c1" "Fractions" 10;
                  Sample.feature "s2" "c1" "Fractions" 90;
                  Sample.feature "s3" "c2" "Decimals" 50]
                 ["c1"; "c2"]%string Sample.engine)))
  = fst (find_similar_students (SK := Sample.sklearn) "s1" 5 None
           Sample.engine).
Proof.
  destruct (rebuilt_vectors_keep_stale_matrix (SK := Sample.sklearn)
              Sample.engine Sample.vectors
              (cosine_similarity (Sklearn := Sample.sklearn)
                 (df_values Sample.vectors))
              [Sample.feature "s1" "c1" "Fractions" 10;
               Sample.feature "s2" "c1" "Fractions" 90;
               Sample.feature "s3" "c2" "Decimals" 50]
              ["c1"; "c2"]%string "s1" 5 None
              eq_refl eq_refl eq_refl) as (_ & H & _).
  exact H.
Defined.

Lemma analyze_peer_patterns_entries_witness :
  exists similar peer_patterns self',
    find_similar_students (SK := Sample.sklearn) "s1" 5 None Sample.engine
    = (Ok similar, self')
    /\ analyze_peer_patterns (SK := Sample.sklearn) "s1" 5 70 Sample.engine
       = (Ok peer_patterns, self')
    /\ map (fun e => (fst e, pi_similarity (snd e))) peer_patterns = similar.
Proof.
  destruct (analyze_peer_patterns_entries (SK := Sample.sklearn)
              sample_cosine_shape Sample.engine Sample.vectors "s1" 5 70
              sample_engine_coherent ltac:(simpl; auto) ltac:(lia))
    as (similar & patterns & self' & H1 & H2 & H3 & _).
  exists similar, patterns, self'. auto.
Defined.


Lemma generate_personalized_plan_ok_witness :
  exists plan,
    generate_personalized_plan (SK := Sample.sklearn) Sample.recommender "s1"
      Sample.engine
    = (Ok plan,
       with_similarity_matrix Sample.engine
         (cosine_similarity (Sklearn := Sample.sklearn)
            (df_values Sample.vectors)))
    /\ lp_student_id plan = "s1"%string
    /\ (length (lp_recommendations plan) <= 5)%nat.
Proof.
  destruct (generate_personalized_plan_ok (SK := Sample.sklearn)
              sample_cosine_shape Sample.recommender "s1" Sample.engine
              Sample.vectors sample_engine_coherent ltac:(simpl; auto)
              (ex_intro _ (Sample.feature "s1" "c1" "Fractions" 60)
                 (conj (or_introl eq_refl) eq_refl))
              (ex_intro _ {| sp_student_id := "s1";
                             sp_learning_style := "visual" |}
                 (conj (or_introl eq_refl) eq_refl)))
    as (plan & H1 & H2 & _ & _ & H3 & _).
  exists plan. auto.
Defined.

(** A student that the vectors do not know. *)
Lemma generate_personalized_plan_errors_witness :
  generate_personalized_plan (SK := Sample.sklearn) Sample.recommender "s9"
    Sample.engine
  = (Raise (ValueError (not_found "s9")),
     with_similarity_matrix Sample.engine
       (cosine_similarity (Sklearn := Sample.sklearn)
          (df_values Sample.vectors))).
Proof.
  destruct (generate_personalized_plan_errors (SK := Sample.sklearn)
              sample_cosine_shape Sample.recommender "s9" Sample.engine)
    as [_ Hv].
  destruct (Hv Sample.vectors sample_engine_coherent) as [Hnot_found _].
  apply Hnot_found. simpl. intuition discriminate.
Defined.


(* ================================================================== *)
(** * Data preparation: from the tables to the features *)
(* ================================================================== *)

Lemma merge_left_in {A B} (matches : A -> B -> bool) (left : list A)
    (right : list B) (a : A) (ob : option B) :
  In (a, ob) (merge_left matches left right) ->
  In a left
  /\ match ob with
     | Some b => In b right /\ matches a b = true
     | None => forall b, In b right -> matches a b = false
     end.
Proof.
  unfold merge_left. intro Hin. apply in_flat_map in Hin.
  destruct Hin as (a' & Ha' & Hin).
  destruct (filter (matches a') right) as [|m ms] eqn:Ef.
  - destruct Hin as [E|[]]. inversion E; subst. split; [assumption|].
    now apply filter_nil_iff.
  - apply in_map_iff in Hin. destruct Hin as (b & E & Hb).
    inversion E; subst. split; [assumption|].
    rewrite <- Ef in Hb. now apply filter_In in Hb.
Qed.

Lemma merge_left_some {A B} (matches : A -> B -> bool) (left : list A)
    (right : list B) (a : A) (b : B) :
  In a left -> In b right -> matches a b = true ->
  In (a, Some b) (merge_left matches left right).
Proof.
  intros Ha Hb Hm. unfold merge_left. apply in_flat_map. exists a.
  split; [assumption|].
  assert (Hf : In b (filter (matches a) right)) by now apply filter_In.
  destruct (filter (matches a) right) as [|m ms]; [destruct Hf|].
  apply in_map_iff. now exists b.
Qed.

Lemma merge_left_covers {A B} (matches : A -> B -> bool) (left : list A)
    (right : list B) (a : A) :
  In a left -> exists ob, In (a, ob) (merge_left matches left right).
Proof.
  intro Ha. unfold merge_left.
  destruct (filter (matches a) right) as [|m ms] eqn:Ef.
  - exists None. apply in_flat_map. exists a. split; [assumption|].
    rewrite Ef. now left.
  - exists (Some m). apply in_flat_map. exists a. split; [assumption|].
    rewrite Ef. now left.
Qed.

Lemma mean_some (l : list Q) : l <> [] -> exists m, mean l = Some m.
Proof. destruct l; [congruence|]. intros _. eexists. reflexivity. Qed.

Lemma agg_some (key : student_id * concept_id)
    (group : list performance_record) :
  group <> [] ->
  exists row,
    agg key group = Some row
    /\ ag_key row = key
    /\ mean (map correct group) = Some (ag_accuracy row)
    /\ mean (map time_taken group) = Some (ag_avg_time_taken row)
    /\ mean (map attempts group) = Some (ag_avg_attempts row)
    /\ ag_total_questions row = Z.of_nat (length group)
    /\ ag_correct_count row = fold_right Qplus 0 (map correct group).
Proof.
  intro Hne. unfold agg.
  destruct group as [|p ps]; [congruence|].
  eexists. split; [reflexivity|]. unfold ag_key. simpl.
  destruct key. repeat split; reflexivity.
Qed.

(** The rows that take part in the aggregation, with their keys. *)
Lemma keyed_rows (performance : list performance_record)
    (questions : list question) (concepts : list concept_metadata)
    (k : student_id * concept_id) (p : performance_record) :
  In (k, p)
    (flat_map
       (fun row =>
          match group_key row with
          | Some k => [(k, fst (fst row))]
          | None => []
          end)
       (performance_full performance questions concepts))
  <-> In p performance /\ answered questions k p.
Proof.
  rewrite in_flat_map. split.
  - intros ([[p' oq] oc] & Hrow & Hin).
    unfold group_key in Hin. cbn [fst snd] in Hin.
    destruct oq as [q|]; [|destruct Hin].
    destruct Hin as [E|[]]. inversion E; subst. clear E.
    apply merge_left_in in Hrow. destruct Hrow as [Hrow _].
    apply merge_left_in in Hrow. destruct Hrow as [Hp [Hq Hm]].
    apply String.eqb_eq in Hm.
    split; [assumption|]. split; [reflexivity|].
    exists q. auto.
  - intros (Hp & Hsid & q & Hq & Hqid & Hcid).
    assert (Hpq : In (p, Some q) (performance_with_concepts performance
                                    questions)).
    { apply merge_left_some; [assumption|assumption|].
      apply String.eqb_eq. now symmetry. }
    destruct (merge_left_covers
                (fun (row : performance_record * option question) c =>
                   match snd row with
                   | Some q => String.eqb (q_concept_id q) (cm_concept_id c)
                   | None => false
                   end)
                _ concepts _ Hpq) as (oc & Hfull).
    exists (p, Some q, oc). split; [exact Hfull|].
    unfold group_key. cbn [fst snd]. left.
    destruct k as [s c]. cbn [fst snd] in *. now subst.
Qed.

Lemma group_rows (keyed : list (student_id * concept_id * performance_record))
    (k : student_id * concept_id) (p : performance_record) :
  In p (map snd (filter (fun kr => key_eqb (fst kr) k) keyed))
  <-> In (k, p) keyed.
Proof.
  rewrite in_map_iff. split.
  - intros ([k' p'] & <- & Hin). apply filter_In in Hin.
    destruct Hin as [Hin Hk]. cbn [fst snd] in *.
    apply key_eqb_eq in Hk. now subst.
  - intro Hin. exists (k, p). split; [reflexivity|].
    apply filter_In. split; [assumption|]. now apply key_eqb_eq.
Qed.

Lemma aggregated_keys
    (keyed : list (student_id * concept_id * performance_record))
    (keys : list (student_id * concept_id)) :
  (forall k, In k keys -> In k (map fst keyed)) ->
  map ag_key
    (flat_map
       (fun k =>
          match agg k (map snd (filter (fun kr => key_eqb (fst kr) k) keyed))
          with
          | Some row => [row]
          | None => []
          end)
       keys)
  = keys.
Proof.
  induction keys as [|k keys IH]; intro Hin; [reflexivity|].
  cbn [flat_map]. rewrite map_app, IH by (intros; apply Hin; now right).
  change (k :: keys) with ([k] ++ keys). f_equal.
  assert (Hne : map snd (filter (fun kr => key_eqb (fst kr) k) keyed) <> []).
  { specialize (Hin k (or_introl eq_refl)). apply in_map_iff in Hin.
    destruct Hin as ([k' p] & Ek & Hkp). cbn [fst] in Ek. subst k'.
    apply (proj2 (group_rows keyed k p)) in Hkp.
    intro E. rewrite E in Hkp. destruct Hkp. }
  destruct (agg_some k _ Hne) as (row & -> & Hkey & _).
  simpl. now rewrite Hkey.
Qed.

(** The rows of step 3: each is the aggregation of a non-empty group of
    records. *)
Lemma student_concept_performance_rows (performance : list performance_record)
    (questions : list question) (concepts : list concept_metadata)
    (a : aggregated_row) :
  In a (student_concept_performance
          (performance_full performance questions concepts)) ->
  exists group,
    group <> []
    /\ (forall p, In p group <->
          In p performance /\ answered questions (ag_key a) p)
    /\ mean (map correct group) = Some (ag_accuracy a)
    /\ mean (map time_taken group) = Some (ag_avg_time_taken a)
    /\ mean (map attempts group) = Some (ag_avg_attempts a)
    /\ ag_total_questions a = Z.of_nat (length group)
    /\ ag_correct_count a = fold_right Qplus 0 (map correct group).
Proof.
  unfold student_concept_performance. cbv zeta.
  set (keyed := flat_map _ (performance_full performance questions concepts)).
  intro Hin. apply in_flat_map in Hin. destruct Hin as (k & Hk & Hin).
  apply stable_sort_in in Hk. apply nodup_In in Hk.
  assert (Hne : map snd (filter (fun kr => key_eqb (fst kr) k) keyed) <> []).
  { apply in_map_iff in Hk.
    destruct Hk as ([k' p] & Ek & Hkp). cbn [fst] in Ek. subst k'.
    apply (proj2 (group_rows keyed k p)) in Hkp.
    intro E. rewrite E in Hkp. destruct Hkp. }
  destruct (agg_some k _ Hne) as (row & Erow & Hkey & Hrest).
  rewrite Erow in Hin. destruct Hin as [<-|[]].
  exists (map snd (filter (fun kr => key_eqb (fst kr) k) keyed)).
  split; [assumption|]. split; [|exact Hrest].
  intro p. rewrite group_rows, Hkey. apply keyed_rows.
Qed.

(** X15. Step 3 of [prepare_data] yields one row per pair (student,
    concept) such that the student answered a question of the concept, and
    no two rows for the same pair; records on a question that the question
    table does not know are left out.  Each row aggregates the records of
    its pair: it counts at least one question, and its accuracy, time and
    attempts are their means. *)
Theorem student_concept_performance_groups
    (performance : list performance_record) (questions : list question)
    (concepts : list concept_metadata) :
  NoDup (map ag_key (student_concept_performance
                       (performance_full performance questions concepts)))
  /\ (forall key,
        In key (map ag_key (student_concept_performance
                              (performance_full performance questions
                                 concepts)))
        <-> exists p, In p performance /\ answered questions key p)
  /\ Forall
       (fun a =>
          (1 <= ag_total_questions a)%Z
          /\ exists group,
               (forall p, In p group <->
                  In p performance /\ answered questions (ag_key a) p)
               /\ mean (map correct group) = Some (ag_accuracy a)
               /\ mean (map time_taken group) = Some (ag_avg_time_taken a)
               /\ mean (map attempts group) = Some (ag_avg_attempts a)
               /\ ag_total_questions a = Z.of_nat (length group)
               /\ ag_correct_count a = fold_right Qplus 0 (map correct group))
       (student_concept_performance
          (performance_full performance questions concepts)).
Proof.
  assert (Hkeys :
    map ag_key (student_concept_performance
                  (performance_full performance questions concepts))
    = stable_sort group_key_ltb
        (nodup group_key_dec
           (map fst
              (flat_map
                 (fun row =>
                    match group_key row with
                    | Some k => [(k, fst (fst row))]
                    | None => []
                    end)
                 (performance_full performance questions concepts))))).
  { unfold student_concept_performance. cbv zeta. apply aggregated_keys.
    intros k Hk. apply stable_sort_in in Hk. now apply nodup_In in Hk. }
  split; [|split].
  - rewrite Hkeys.
    apply (Permutation_NoDup (Permutation_sym (stable_sort_perm _ _))).
    apply NoDup_nodup.
  - intro key. rewrite Hkeys, stable_sort_in, nodup_In, in_map_iff. split.
    + intros ([k p] & <- & Hkp). cbn [fst]. apply keyed_rows in Hkp.
      now exists p.
    + intros (p & Hp). exists (key, p). split; [reflexivity|].
      now apply keyed_rows.
  - apply Forall_forall. intros a Ha.
    destruct (student_concept_performance_rows _ _ _ a Ha)
      as (group & Hne & Hgroup & Hacc & Ht & Hat & Hn & Hc).
    split.
    + rewrite Hn. destruct group; [congruence|]. simpl length. lia.
    + exists group. auto 7.
Qed.

Lemma add_concept_names_in (features : list student_feature)
    (concepts : list concept_metadata) (f' : student_feature) :
  In f' (add_concept_names features concepts) ->
  exists f,
    In f features
    /\ mastery_score f' = mastery_score f
    /\ is_weak_concept f' = is_weak_concept f
    /\ pr_student_id (sf_row f') = pr_student_id (sf_row f)
    /\ pr_concept_id (sf_row f') = pr_concept_id (sf_row f)
    /\ accuracy (sf_row f') = accuracy (sf_row f)
    /\ total_questions (sf_row f') = total_questions (sf_row f)
    /\ (forall name, pr_concept_name (sf_row f') = Some name ->
          exists c, In c concepts
                    /\ cm_concept_id c = pr_concept_id (sf_row f)
                    /\ cm_concept_name c = name).
Proof.
  unfold add_concept_names. intro Hin. apply in_map_iff in Hin.
  destruct Hin as ([f oc] & <- & Hin). apply merge_left_in in Hin.
  destruct Hin as [Hf Hoc]. exists f. cbn [fst snd sf_row mastery_score
    is_weak_concept pr_student_id pr_concept_id accuracy total_questions
    pr_concept_name].
  repeat split; try assumption.
  intros name Hname. destruct oc as [c|]; [|discriminate].
  destruct Hoc as [Hc Hm]. apply String.eqb_eq in Hm.
  simpl in Hname. inversion Hname. exists c. auto.
Qed.

Lemma weak_flag_is_weak_level (score : Q) :
  Qltb score 70 = is_weak_level (level_of_score score).
Proof.
  unfold level_of_score.
  destruct (Qle_bool 85 score) eqn:E85.
  - apply Qle_bool_iff in E85. simpl. apply Qltb_ge. lra.
  - destruct (Qle_bool 70 score) eqn:E70.
    + apply Qle_bool_iff in E70. simpl. now apply Qltb_ge.
    + apply Qle_bool_false in E70.
      assert (Hlt : Qltb score 70 = true) by now apply Qltb_lt.
      rewrite Hlt. now destruct (Qle_bool 50 score).
Qed.

(** X16. Whatever the tables hold, as long as every [correct] mark is
    between 0 and 1, each row of the features that [main] builds has an
    accuracy in [0,1], counts at least one question and has a mastery
    score in [0,100]; its weak flag (score below 70) holds exactly when
    its mastery level is Struggling or Beginner, so the flag of
    [prepare_data] and the selection of [get_weak_concepts] agree. *)
Theorem student_concept_features_ranges
    (performance : list performance_record) (questions : list question)
    (concepts : list concept_metadata) (students : list student_profile) :
  (forall p, In p performance -> 0 <= correct p <= 1) ->
  Forall
    (fun r =>
       0 <= accuracy (sf_row (fr_feature r)) <= 1
       /\ (1 <= total_questions (sf_row (fr_feature r)))%Z
       /\ 0 <= fr_mastery_score r <= 100
       /\ fr_mastery_level r = level_of_score (fr_mastery_score r)
       /\ is_weak_concept (fr_feature r) = is_weak_level (fr_mastery_level r)
       /\ exists p, In p performance
                    /\ answered questions (fr_student_id r, fr_concept_id r) p)
    (student_concept_features performance questions concepts students).
Proof.
  intro Hcorrect. apply Forall_forall. intros r Hr.
  unfold student_concept_features, analyze_concept_mastery in Hr.
  apply in_map_iff in Hr. destruct Hr as (f' & <- & Hf').
  apply add_concept_names_in in Hf'.
  destruct Hf' as (f & Hf & Hscore & Hweak & Hsid & Hcid & Hacc & Hn & _).
  unfold fr_mastery_score, fr_student_id, fr_concept_id.
  cbn [fr_feature fr_mastery_level].
  rewrite Hscore, Hweak, Hsid, Hcid, Hacc, Hn. clear Hscore Hweak Hsid Hcid
    Hacc Hn f'.
  unfold prepare_data_tables in Hf.
  set (merged := merge_left _ _ students) in Hf.
  assert (Hrows : forall row, In row (map to_performance_row merged) ->
            0 <= accuracy row <= 1
            /\ (1 <= total_questions row)%Z
            /\ exists p, In p performance
                         /\ answered questions
                              (pr_student_id row, pr_concept_id row) p).
  { intros row Hrow. apply in_map_iff in Hrow.
    destruct Hrow as ([a os] & <- & Ha). apply merge_left_in in Ha.
    destruct Ha as [Ha _].
    destruct (student_concept_performance_rows _ _ _ a Ha)
      as (group & Hne & Hgroup & Hmean & _ & _ & Hcount & _).
    unfold to_performance_row. cbn [fst accuracy total_questions
      pr_student_id pr_concept_id].
    split; [|split].
    - apply (mean_bounds 0 1 _ (map correct group)); [|assumption].
      intros x Hx. apply in_map_iff in Hx. destruct Hx as (p & <- & Hp).
      apply Hcorrect. now apply Hgroup.
    - rewrite Hcount. destruct group; [congruence|]. simpl length. lia.
    - destruct group as [|p ps]; [congruence|]. exists p.
      apply (proj1 (Hgroup p)). now left. }
  assert (Hacc : Forall (fun row => 0 <= accuracy row <= 1)
                   (map to_performance_row merged)).
  { apply Forall_forall. intros row Hrow. now apply Hrows. }
  destruct (prepare_data_scores _ f Hacc Hf) as [Hscore Hflag].
  unfold prepare_data in Hf. apply in_map_iff in Hf.
  destruct Hf as (row & <- & Hrow).
  destruct (Hrows row Hrow) as (H1 & H2 & H3).
  cbn [sf_row mastery_score is_weak_concept] in *.
  split; [exact H1|]. split; [exact H2|]. split; [exact Hscore|].
  split; [reflexivity|]. split; [apply weak_flag_is_weak_level|exact H3].
Qed.

Lemma agg_student_some (sid : student_id) (group : list feature_row) :
  group <> [] ->
  exists row,
    agg_student sid group = Some row
    /\ sl_student_id row = sid
    /\ mean (map (fun r => accuracy (sf_row (fr_feature r))) group)
       = Some (sl_accuracy row)
    /\ mean (map (fun r => avg_time_taken (sf_row (fr_feature r))) group)
       = Some (sl_avg_time_taken row)
    /\ mean (map (fun r => avg_attempts (sf_row (fr_feature r))) group)
       = Some (sl_avg_attempts row)
    /\ mean (map fr_mastery_score group) = Some (sl_mastery_score row)
    /\ mean (map (fun r => bool_to_Q (is_weak_concept (fr_feature r))) group)
       = Some (sl_weak_concept_ratio row)
    /\ sl_total_questions row
       = fold_right Z.add 0%Z
           (map (fun r => total_questions (sf_row (fr_feature r))) group).
Proof.
  intro Hne. unfold agg_student.
  destruct group as [|r rs]; [congruence|].
  eexists. split; [reflexivity|]. simpl. repeat split; reflexivity.
Qed.

Lemma student_group_nonempty (rows : list feature_row) (sid : student_id) :
  In sid (map fr_student_id rows) ->
  filter (fun r => String.eqb (fr_student_id r) sid) rows <> [].
Proof.
  intro Hin. apply in_map_iff in Hin. destruct Hin as (r & Hsid & Hr).
  intro E. pose proof (proj1 (filter_nil_iff _ _) E r Hr) as Hf.
  cbv beta in Hf. rewrite Hsid, String.eqb_refl in Hf. discriminate.
Qed.

Lemma aggregated_students (rows : list feature_row)
    (sids : list student_id) :
  (forall sid, In sid sids -> In sid (map fr_student_id rows)) ->
  map sl_student_id
    (flat_map
       (fun sid =>
          match agg_student sid
                  (filter (fun r => String.eqb (fr_student_id r) sid) rows)
          with
          | Some row => [row]
          | None => []
          end)
       sids)
  = sids.
Proof.
  induction sids as [|sid sids IH]; intro Hin; [reflexivity|].
  cbn [flat_map]. rewrite map_app, IH by (intros; apply Hin; now right).
  change (sid :: sids) with ([sid] ++ sids). f_equal.
  destruct (agg_student_some sid _
              (student_group_nonempty rows sid (Hin sid (or_introl eq_refl))))
    as (row & -> & Hsid & _).
  simpl. now rewrite Hsid.
Qed.

(** X17. [build_student_level_features] returns None exactly on a missing
    or empty table.  Otherwise it returns one row per student of the
    table, sorted by student id and without duplicates; the row of a
    student holds the means over the student's rows and the sum of their
    question counts, its weak_concept_ratio is between 0 and 1, and its
    mastery score is in [0,100] when the scores of the table are. *)
Theorem build_student_level_features_spec
    (features : option (list feature_row)) :
  (build_student_level_features features = None
   <-> features = None \/ features = Some [])
  /\ (forall rows out,
        features = Some rows ->
        build_student_level_features features = Some out ->
        map sl_student_id out = sorted_unique (map fr_student_id rows)
        /\ NoDup (map sl_student_id out)
        /\ (forall sid, In sid (map sl_student_id out)
                        <-> In sid (map fr_student_id rows))
        /\ Forall
             (fun s =>
                let group :=
                  filter (fun r => String.eqb (fr_student_id r)
                                     (sl_student_id s)) rows in
                mean (map fr_mastery_score group) = Some (sl_mastery_score s)
                /\ mean (map (fun r => accuracy (sf_row (fr_feature r))) group)
                   = Some (sl_accuracy s)
                /\ sl_total_questions s
                   = fold_right Z.add 0%Z
                       (map (fun r => total_questions (sf_row (fr_feature r)))
                          group)
                /\ 0 <= sl_weak_concept_ratio s <= 1
                /\ ((forall r, In r rows -> 0 <= fr_mastery_score r <= 100) ->
                    0 <= sl_mastery_score s <= 100))
             out).
Proof.
  split.
  - unfold build_student_level_features.
    destruct features as [[|r rows]|]; split; auto; try discriminate.
    intros [E|E]; discriminate.
  - intros rows out -> Hout. unfold build_student_level_features in Hout.
    destruct rows as [|r0 rows0] eqn:Er; [discriminate|].
    rewrite <- Er in *. clear Er. injection Hout as Hout.
    assert (Hids : map sl_student_id out
                   = sorted_unique (map fr_student_id rows)).
    { subst out. apply aggregated_students.
      intros sid Hsid. exact (proj1 (sorted_unique_In _ _) Hsid). }
    split; [exact Hids|]. split; [rewrite Hids; apply sorted_unique_NoDup|].
    split; [intro sid; rewrite Hids; apply sorted_unique_In|].
    apply Forall_forall. intros s Hs. subst out.
    apply in_flat_map in Hs. destruct Hs as (sid & Hsid & Hs).
    apply (proj1 (sorted_unique_In _ _)) in Hsid.
    destruct (agg_student_some sid _ (student_group_nonempty rows sid Hsid))
      as (row & Erow & Hrid & Hacc & _ & _ & Hscore & Hweak & Hsum).
    rewrite Erow in Hs. destruct Hs as [<-|[]]. cbv zeta. rewrite Hrid.
    split; [exact Hscore|]. split; [exact Hacc|]. split; [exact Hsum|].
    split.
    + apply (mean_bounds 0 1 _ _ ) with (2 := Hweak).
      intros x Hx. apply in_map_iff in Hx. destruct Hx as (r & <- & _).
      unfold bool_to_Q. destruct (is_weak_concept (fr_feature r)); lra.
    + intro Hrange. apply (mean_bounds 0 100 _ _) with (2 := Hscore).
      intros x Hx. apply in_map_iff in Hx. destruct Hx as (r & <- & Hr).
      apply Hrange. now apply filter_In in Hr.
Qed.

Lemma student_concept_features_ranges_witness :
  Forall (fun r => 0 <= fr_mastery_score r <= 100
                   /\ is_weak_concept (fr_feature r)
                      = is_weak_level (fr_mastery_level r))
    (student_concept_features Sample.performance Sample.questions
       Sample.concept_table Sample.student_table).
Proof.
  assert (Hcorrect : forall p, In p Sample.performance -> 0 <= correct p <= 1).
  { intros p [<-|[<-|[<-|[]]]]; simpl; split; discriminate. }
  pose proof (student_concept_features_ranges Sample.performance
                Sample.questions Sample.concept_table Sample.student_table
                Hcorrect) as H.
  revert H. apply Forall_impl. intros r (_ & _ & Hscore & _ & Hweak & _).
  split; assumption.
Defined.

(** The unknown question is left out: the one row of s1 on c1 counts two
    questions; with accuracy 1/2, a mean time of 60 and 1.5 attempts on
    average, no penalty applies and the score is 50. *)
Example student_concept_features_sample :
  map (fun r => (fr_student_id r, fr_concept_id r, fr_concept_name r,
                 total_questions (sf_row (fr_feature r)),
                 Qred (fr_mastery_score r), fr_mastery_level r))
    (student_concept_features Sample.performance Sample.questions
       Sample.concept_table Sample.student_table)
  = [("s1"%string, "c1"%string, Some "Fractions"%string, 2%Z, 50, Beginner)].
Proof. vm_compute. reflexivity. Qed.
